(** * IcePanel MCP server: a shallow embedding and its verified properties

  The development follows the source files of the repository:

  - [Types]    the response records of [types.ts] (the fields the code reads);
  - [Format]   the markdown renderers of [format.ts];
  - [Icepanel] the REST client ([apiRequest] and the functions built on it),
               including the filter-to-query-parameter encoding;
  - [Main]     the tool handlers registered on the MCP server.

  A JavaScript string is modelled by the [string] of its UTF-8 bytes, except
  where the code counts or cuts: the description of a model object, which
  [formatModelObjectListItem] truncates, is the list of its UTF-16 code
  units.  Remote calls are modelled by explicit state passing: a computation
  receives the list of requests issued so far and returns its outcome
  together with the extended list.  Answers of the remote API are not
  validated by the code: an answer may be [null] and a property the
  interfaces declare may be missing, and reading through either throws.
  Diagnostic logging ([console.error]) has no influence on control flow and
  is left out. *)

From Stdlib Require Import String Ascii List ZArith NArith QArith Lia DecimalString.
From stdpp Require Import base list strings.

Local Open Scope string_scope.
Local Open Scope list_scope.
Local Open Scope stdpp_scope.

(** ** JavaScript runtime notions shared by all files *)

Module Js.

(** A thrown value.  Everything thrown in this program is an [Error] object
    (built by [new Error], by the runtime, or by [fetch]); the handlers read
    nothing but its [message]. *)
Record Error := { message : string }.

(** Outcome of an expression that may throw. *)
Inductive Result (A : Type) : Type :=
| Ok (a : A)
| Throw (e : Error).
Arguments Ok {A} a.
Arguments Throw {A} e.

(** [String(n)] for a non-negative integer. *)
Definition decimal (n : nat) : string :=
  NilEmpty.string_of_uint (Nat.to_uint n).

(** The double-quote character of the messages. *)
Definition quote : string := String (ascii_of_nat 34) "".

(** [String(b)] and the template-literal rendering of a boolean. *)
Definition ofBool (b : bool) : string := if b then "true" else "false".

(** [parts.join(sep)] on an array of strings. *)
Fixpoint join (sep : string) (parts : list string) : string :=
  match parts with
  | [] => ""
  | [p] => p
  | p :: rest => p +:+ sep +:+ join sep rest
  end.

(** Truthiness of an optional string: present and not empty. *)
Definition truthy (s : option string) : bool :=
  match s with
  | Some (String _ _) => true
  | _ => false
  end.

(** Template-literal rendering [`${s}`] of an optional string. *)
Definition tpl (s : option string) : string := default "undefined" s.

(** The [TypeError] of reading a property of [null] or [undefined]. *)
Definition cannotRead (value property : string) : Error :=
  {| message := "Cannot read properties of " +:+ value
                +:+ " (reading '" +:+ property +:+ "')" |}.

(** Reading the property [property] of a value, or calling its method of
    that name, when the value may be [undefined]. *)
Definition defined {A} (value : option A) (property : string) : Result A :=
  match value with
  | Some a => Ok a
  | None => Throw (cannotRead "undefined" property)
  end.

(** [items.map(callback)] for a callback that may throw: the items are
    visited in order and the first exception ends the loop. *)
Fixpoint mapResult {A B} (callback : A → Result B) (items : list A) : Result (list B) :=
  match items with
  | [] => Ok []
  | item :: rest =>
      match callback item with
      | Ok b =>
          match mapResult callback rest with
          | Ok bs => Ok (b :: bs)
          | Throw e => Throw e
          end
      | Throw e => Throw e
      end
  end.

End Js.
Export Js.

(** ** Strings as sequences of UTF-16 code units

  [length], [lastIndexOf] and [slice] count code units: a character outside
  the Basic Multilingual Plane takes two. *)

Module Utf16.

Abbreviation t := (list N) (only parsing).

(** The code unit of the space character. *)
Definition space : N := 32.

(** [s.slice(0, n)]. *)
Definition slice0 (n : nat) (s : t) : t := take n s.

(** [s.lastIndexOf(c, from)]: the greatest index [i <= from] with
    [s[i] = c], or [-1]. *)
Fixpoint lastIndexOfFrom (c : N) (s : t) (i : nat) (from : nat) (found : Z) : Z :=
  match s with
  | [] => found
  | d :: s' =>
      if decide (from < i)%nat then found
      else lastIndexOfFrom c s' (S i) from (if decide (d = c) then Z.of_nat i else found)
  end.

Definition lastIndexOf (c : N) (s : t) (from : nat) : Z :=
  lastIndexOfFrom c s 0 from (-1)%Z.

(** Truthiness of an optional string: present and not empty. *)
Definition truthy (s : option t) : bool :=
  match s with
  | Some (_ :: _) => true
  | _ => false
  end.

Definition isHighSurrogate (u : N) : bool := ((55296 <=? u) && (u <=? 56319))%N.
Definition isLowSurrogate (u : N) : bool := ((56320 <=? u) && (u <=? 57343))%N.

Definition bytes (l : list N) : string :=
  string_of_list_ascii (map ascii_of_N l).

(** The UTF-8 bytes of a code point; a surrogate that stands alone is
    replaced by U+FFFD, as the encoders of the runtime do. *)
Definition utf8Scalar (c : N) : string :=
  (if c <? 128 then bytes [c]
   else if c <? 2048 then bytes [192 + c / 64; 128 + c mod 64]
   else if isHighSurrogate c || isLowSurrogate c then bytes [239; 191; 189]
   else if c <? 65536 then bytes [224 + c / 4096; 128 + (c / 64) mod 64; 128 + c mod 64]
   else bytes [240 + c / 262144; 128 + (c / 4096) mod 64; 128 + (c / 64) mod 64;
               128 + c mod 64])%N.

(** The UTF-8 bytes of a string: the text as it appears in a result. *)
Fixpoint utf8 (s : t) : string :=
  match s with
  | [] => ""
  | u :: rest =>
      match rest with
      | low :: rest' =>
          if isHighSurrogate u && isLowSurrogate low
          then utf8Scalar (65536 + (u - 55296) * 1024 + (low - 56320))%N +:+ utf8 rest'
          else utf8Scalar u +:+ utf8 rest
      | [] => utf8Scalar u
      end
  end.

(** Template-literal rendering [`${s}`] of an optional string. *)
Definition tpl (s : option t) : string :=
  match s with
  | Some s => utf8 s
  | None => "undefined"
  end.

End Utf16.

(** ** [URLSearchParams] *)

Module URLSearchParams.

(** The ordered list of name/value pairs held by a [URLSearchParams]. *)
Abbreviation t := (list (string * string)) (only parsing).

(** [params.append(name, value)]. *)
Definition append (params : t) (name value : string) : t :=
  params ++ [(name, value)].

Definition hexDigit (n : nat) : ascii :=
  nth n (list_ascii_of_string "0123456789ABCDEF") "0"%char.

Definition percentEncodeByte (c : ascii) : string :=
  let n := nat_of_ascii c in
  String "%" (String (hexDigit (n / 16)) (String (hexDigit (n mod 16)) "")).

(** Bytes the [application/x-www-form-urlencoded] serializer leaves as they
    are: ASCII letters and digits and the four characters [*-._]. *)
Definition unreserved (c : ascii) : bool :=
  let n := nat_of_ascii c in
  (((48 <=? n) && (n <=? 57)) || ((65 <=? n) && (n <=? 90)) || ((97 <=? n) && (n <=? 122))
   || (n =? 42) || (n =? 45) || (n =? 46) || (n =? 95))%nat.

(** Serialization of one name or value, byte by byte (strings are taken as
    their UTF-8 bytes); a space becomes [+]. *)
Fixpoint encode (s : string) : string :=
  match s with
  | "" => ""
  | String c s' =>
      (if decide (c = " "%char) then "+"
       else if unreserved c then String c ""
       else percentEncodeByte c) +:+ encode s'
  end.

(** [params.toString()]. *)
Definition toString (params : t) : string :=
  join "&" (map (λ p, encode p.1 +:+ "=" +:+ encode p.2) params).

End URLSearchParams.

(** ** [types.ts]: the records read from the remote API

  Responses are not validated at run time; the code reads them through the
  declared interfaces.  A property of a record is optional here when the
  interface declares it so, when the code tests its presence before use, or
  when the code reads it of a model object; a property that is present has
  the declared type.  Only the properties the code reads are kept. *)

Module ModelObject.
Record t := {
  id : option string;
  name : option string;
  description : option Utf16.t;
  type : option string;
  status : option string;
  external : option bool;
  handleId : option string;
  parentId : option string;
  childIds : option (list string);
  teamIds : option (list string);
  (* [Record<string, any>]: the entries, each with the [name] of its value *)
  technologies : option (list (string * option string))
}.
End ModelObject.

Module CatalogTechnology.
Record t := {
  id : option string;
  name : option string;
  nameShort : option string;
  description : option string;
  docsUrl : option string;
  websiteUrl : option string;
  status : option string;
  type : option string;
  provider : option string;
  category : option string;
  defaultSlug : option string
}.
End CatalogTechnology.

Module Team.
Record t := {
  id : option string;
  name : option string;
  userIds : option (list string)
}.
End Team.

Module ModelConnection.
Record t := {
  name : option string;
  originId : string;
  targetId : string
}.
End ModelConnection.

Module Diagram.
Record t := {
  id : option string;
  name : option string;
  objectIds : option (list string)
}.
End Diagram.

Module DiagramResponse.
Record t := { diagram : option Diagram.t }.
End DiagramResponse.

(** ** Requests, responses and the environment of the process *)

(** The objects handed to [JSON.stringify] as request bodies: flat objects
  whose properties are strings, booleans or arrays of strings.  A request
  carries the object itself; its JSON text is not modelled. *)
Inductive JsonData :=
| DString (s : string)
| DBool (b : bool)
| DStrings (l : list string).

Abbreviation JsonObject := (list (string * JsonData)) (only parsing).

(** [JSON.stringify] drops the properties whose value is [undefined]. *)
Definition definedProps (props : list (string * option JsonData)) : JsonObject :=
  omap (λ p, (λ v, (p.1, v)) <$> p.2) props.

Module Request.
Record t := {
  url : string;
  method : option string;            (* [None]: the default of [fetch], GET *)
  headers : list (string * string);
  body : option JsonObject
}.
End Request.

Module Response.
Record t := {
  status : nat;
  statusText : string;
  bodyText : string                  (* what [response.text()] yields *)
}.

(** [response.ok]: the status is in the range 200-299. *)
Definition ok (r : t) : bool :=
  ((200 <=? status r) && (status r <=? 299))%nat.
End Response.

(** What [await fetch(...)] does: it resolves to a response or rejects. *)
Inductive FetchOutcome :=
| Responded (r : Response.t)
| Rejected (e : Error).

(** Options given to [new Fuse(items, options)]. *)
Record FuseOptions := { keys : list string; threshold : Q }.

(** The collaborators the program does not define itself: the process
  environment, the network, the JSON parser and printer, the reading of a
  parsed JSON value through a declared interface, and fuse.js.  A view gives
  the value of one property of a parsed answer that is not [null]: [None]
  when the answer has no such property. *)
Record Env := {
  API_KEY : string;
  ORGANIZATION_ID : string;
  ICEPANEL_API_BASE_URL : option string;
  ICEPANEL_APP_BASE_URL : option string;
  (* the answer of the remote API to a request, given the requests before it *)
  network : list Request.t → Request.t → FetchOutcome;
  Json : Type;
  JSON_parse : string → Result Json;               (* [response.json()] *)
  JSON_stringify : Json → string;                  (* [JSON.stringify(v, null, 2)] *)
  is_null : Json → bool;                           (* [v === null] *)
  view_id : Json → option string;                  (* [v.id] *)
  view_name : Json → option string;                (* [v.name] *)
  view_modelObjects : Json → option (list ModelObject.t);
  view_modelObject : Json → option ModelObject.t;
  view_catalogTechnologies : Json → option (list CatalogTechnology.t);
  view_teams : Json → option (list Team.t);
  view_modelConnections : Json → option (list ModelConnection.t);
  view_diagram : Json → option Diagram.t;
  (* [new Fuse(items, options).search(pattern).map(result => result.item)] *)
  Fuse_search : ∀ A : Type, FuseOptions → list A → string → list A;
  (* the same expression when [items] is [undefined]: the library decides *)
  Fuse_search_undefined : ∀ A : Type, FuseOptions → string → Result (list A)
}.

(** Reading the property [name] of a parsed answer: a [TypeError] when the
  answer is [null], the value of the property otherwise. *)
Definition property (env : Env) {A} (answer : Json env) (name : string)
  (view : Json env → option A) : Result (option A) :=
  if is_null env answer then Throw (cannotRead "null" name) else Ok (view answer).

(** [process.env.X || fallback]. *)
Definition envOr (x : option string) (fallback : string) : string :=
  if truthy x then default fallback x else fallback.

(** ** Computations that issue remote calls *)

Module Effect.

(** Requests issued so far, oldest first. *)
Abbreviation Trace := (list Request.t) (only parsing).

Definition M (A : Type) : Type := Trace → Result A * Trace.

Definition ret {A} (a : A) : M A := λ tr, (Ok a, tr).

Definition throw {A} (e : Error) : M A := λ tr, (Throw e, tr).

Definition bind {A B} (c : M A) (k : A → M B) : M B :=
  λ tr, match c tr with
        | (Ok a, tr') => k a tr'
        | (Throw e, tr') => (Throw e, tr')
        end.

(** [try { c } catch (error) { handler }]. *)
Definition tryCatch {A} (c : M A) (handler : Error → M A) : M A :=
  λ tr, match c tr with
        | (Ok a, tr') => (Ok a, tr')
        | (Throw e, tr') => handler e tr'
        end.

(** An expression that may throw, evaluated inside a computation. *)
Definition lift {A} (r : Result A) : M A := λ tr, (r, tr).

(** [await fetch(...)]. *)
Definition fetch (env : Env) (request : Request.t) : M Response.t :=
  λ tr, (match network env tr request with
         | Responded r => Ok r
         | Rejected e => Throw e
         end, tr ++ [request]).

End Effect.
Export Effect.

Notation "x <- c ;; k" := (bind c (λ x, k))
  (at level 100, c at next level, right associativity, only parsing).
Notation "c ;;; k" := (bind c (λ _, k))
  (at level 100, right associativity, only parsing).

(** ** [format.ts] *)

Module Format.
Section Format.

Variable env : Env.

Definition nl : string := String (ascii_of_nat 10) "".

(** [if (cond) { formatString += text }]. *)
Definition when (cond : bool) (text : string) : string :=
  if cond then text else "".

Definition toMarkdownLink (text url : string) : string :=
  "[" +:+ text +:+ "](" +:+ url +:+ ")".

Definition BASE_PATH : string :=
  envOr (ICEPANEL_APP_BASE_URL env) "https://app.icepanel.io".

Definition modelObjectUrl (landscapeId modelObjectHandle : string) : string :=
  BASE_PATH +:+ "/landscapes/" +:+ landscapeId
    +:+ "/versions/latest/model/objects?object_tab=details&object=" +:+ modelObjectHandle.

(** The description of a list item (lines 37-42), cut at the last space at
    or before index 150 when it is longer than 150 code units. *)
Definition truncatedDescription (description : Utf16.t) : Utf16.t :=
  let maxLength := 150%nat in
  if decide (maxLength < length description)%nat then
    let lastSpaceIndex := Utf16.lastIndexOf Utf16.space description maxLength in
    Utf16.slice0
      (if decide (0 < lastSpaceIndex)%Z then Z.to_nat lastSpaceIndex else maxLength)
      description
  else description.

Definition formatModelObjectListItem (landscapeId : string) (modelObject : ModelObject.t) : string :=
  when (truthy (ModelObject.name modelObject))
       ("# " +:+ tpl (ModelObject.name modelObject) +:+ nl)
  +:+ when (truthy (ModelObject.id modelObject))
       ("- ID: " +:+ tpl (ModelObject.id modelObject) +:+ nl)
  +:+ when (truthy (ModelObject.name modelObject))
       ("- Name: " +:+ tpl (ModelObject.name modelObject) +:+ nl)
  +:+ match ModelObject.description modelObject with
      | Some ((_ :: _) as description) =>
          "- Description: " +:+ nl
          +:+ Utf16.utf8 (truncatedDescription description) +:+ "..." +:+ nl
      | _ => ""
      end
  +:+ when (truthy (ModelObject.type modelObject))
       ("- Type: " +:+ tpl (ModelObject.type modelObject) +:+ nl)
  +:+ match ModelObject.external modelObject with
      | Some external => "- External: " +:+ ofBool external +:+ nl
      | None => ""
      end
  +:+ when (truthy (ModelObject.status modelObject))
       ("- Status: " +:+ tpl (ModelObject.status modelObject) +:+ nl).

Definition formatModelObjectRelatedItem (modelObject : ModelObject.t) : string :=
  when (truthy (ModelObject.name modelObject))
       ("##### " +:+ tpl (ModelObject.name modelObject) +:+ nl)
  +:+ when (truthy (ModelObject.id modelObject))
       ("- ID: " +:+ tpl (ModelObject.id modelObject) +:+ nl)
  +:+ when (truthy (ModelObject.name modelObject))
       ("- Name: " +:+ tpl (ModelObject.name modelObject) +:+ nl)
  +:+ when (truthy (ModelObject.type modelObject))
       ("- Type: " +:+ tpl (ModelObject.type modelObject) +:+ nl)
  +:+ when (truthy (ModelObject.status modelObject))
       ("- Status: " +:+ tpl (ModelObject.status modelObject) +:+ nl).

(** [teams.find(t => t.id === teamId)?.name]. *)
Definition teamName (teams : list Team.t) (teamId : string) : option string :=
  t ← List.find (λ t, bool_decide (Team.id t = Some teamId)) teams; Team.name t.

Definition formatModelObjectItem (landscapeId : string) (modelObject : ModelObject.t)
    (teams : list Team.t) (parentObject : option ModelObject.t)
    (childObjects : option (list ModelObject.t)) : string :=
  when (truthy (ModelObject.name modelObject))
       ("# " +:+ tpl (ModelObject.name modelObject) +:+ nl)
  +:+ when (truthy (ModelObject.id modelObject))
       ("- ID: " +:+ tpl (ModelObject.id modelObject) +:+ nl)
  +:+ when (truthy (ModelObject.name modelObject))
       ("- Name: " +:+ tpl (ModelObject.name modelObject) +:+ nl)
  +:+ ("- View in IcePanel: "
       +:+ modelObjectUrl landscapeId (tpl (ModelObject.handleId modelObject)) +:+ nl)
  +:+ when (Utf16.truthy (ModelObject.description modelObject))
       ("- Description:" +:+ nl +:+ "```" +:+ nl
        +:+ Utf16.tpl (ModelObject.description modelObject) +:+ nl +:+ "```" +:+ nl)
  +:+ when (truthy (ModelObject.type modelObject))
       ("- Type: " +:+ tpl (ModelObject.type modelObject) +:+ nl)
  +:+ match ModelObject.external modelObject with
      | Some external => "- External: " +:+ ofBool external +:+ nl
      | None => ""
      end
  +:+ when (truthy (ModelObject.status modelObject))
       ("- Status: " +:+ tpl (ModelObject.status modelObject) +:+ nl)
  +:+ match ModelObject.technologies modelObject with
      | Some ((_ :: _) as technologies) =>
          "- Technologies: " +:+ join ", " (map (λ t, default "" t.2) technologies) +:+ nl
      | _ => ""
      end
  +:+ match ModelObject.teamIds modelObject with
      | Some ((_ :: _) as teamIds) =>
          "- Teams: "
          +:+ join ", " (map tpl (List.filter truthy (map (teamName teams) teamIds))) +:+ nl
      | _ => ""
      end
  +:+ match parentObject with
      | Some parent =>
          "### Parent Object" +:+ nl +:+ nl
          +:+ formatModelObjectRelatedItem parent +:+ nl +:+ nl
      | None => ""
      end
  +:+ match childObjects with
      | Some children =>
          "### Child Objects" +:+ nl +:+ nl
          +:+ join (nl +:+ nl) (map formatModelObjectRelatedItem children)
      | None => ""
      end.

(** A call of [formatModelObjectItem] with a model object and a team list
    that may be undefined: the function does not test them, so it throws at
    the first property it reads of the object (line 90) and, when the object
    has team ids, at [teams.find] (line 125). *)
Definition formatModelObjectItemCall (landscapeId : string)
    (modelObject : option ModelObject.t) (teams : option (list Team.t))
    (parentObject : option ModelObject.t) (childObjects : option (list ModelObject.t))
    : Result string :=
  match modelObject with
  | None => Throw (cannotRead "undefined" "name")
  | Some modelObject =>
      match teams, ModelObject.teamIds modelObject with
      | None, Some (_ :: _) => Throw (cannotRead "undefined" "find")
      | _, _ =>
          Ok (formatModelObjectItem landscapeId modelObject (default [] teams)
                parentObject childObjects)
      end
  end.

Definition formatCatalogTechnology (technology : CatalogTechnology.t) : string :=
  ("# " +:+ tpl (CatalogTechnology.name technology) +:+ nl +:+ nl)
  +:+ ("- Name: " +:+ tpl (CatalogTechnology.name technology) +:+ nl)
  +:+ ("- ID: " +:+ tpl (CatalogTechnology.id technology) +:+ nl)
  +:+ when (truthy (CatalogTechnology.nameShort technology))
       ("- Short Name: " +:+ tpl (CatalogTechnology.nameShort technology) +:+ nl)
  +:+ when (truthy (CatalogTechnology.description technology))
       ("- Description: " +:+ tpl (CatalogTechnology.description technology) +:+ nl)
  +:+ when (truthy (CatalogTechnology.docsUrl technology))
       ("- Documentation: "
        +:+ toMarkdownLink "Docs" (tpl (CatalogTechnology.docsUrl technology)) +:+ nl)
  +:+ when (truthy (CatalogTechnology.websiteUrl technology))
       ("- Website: "
        +:+ toMarkdownLink "Website" (tpl (CatalogTechnology.websiteUrl technology)) +:+ nl)
  +:+ when (truthy (CatalogTechnology.status technology))
       ("- Status: " +:+ tpl (CatalogTechnology.status technology) +:+ nl)
  +:+ when (truthy (CatalogTechnology.type technology))
       ("- Type: " +:+ tpl (CatalogTechnology.type technology) +:+ nl)
  +:+ when (truthy (CatalogTechnology.provider technology))
       ("- Provider: " +:+ tpl (CatalogTechnology.provider technology) +:+ nl)
  +:+ when (truthy (CatalogTechnology.category technology))
       ("- Category: " +:+ tpl (CatalogTechnology.category technology) +:+ nl)
  +:+ when (truthy (CatalogTechnology.defaultSlug technology))
       ("- Slug: " +:+ tpl (CatalogTechnology.defaultSlug technology) +:+ nl).

(** A call of [formatCatalogTechnology] with a technology that may be
    undefined: it throws at line 144. *)
Definition formatCatalogTechnologyCall (technology : option CatalogTechnology.t)
    : Result string :=
  match technology with
  | None => Throw (cannotRead "undefined" "name")
  | Some technology => Ok (formatCatalogTechnology technology)
  end.

Definition formatTeam (team : Team.t) : string :=
  when (truthy (Team.name team)) ("# " +:+ tpl (Team.name team) +:+ nl)
  +:+ when (truthy (Team.id team)) ("- ID: " +:+ tpl (Team.id team) +:+ nl)
  +:+ when (truthy (Team.name team)) ("- Name: " +:+ tpl (Team.name team) +:+ nl)
  +:+ match Team.userIds team with
      | Some ((_ :: _) as userIds) => "- Team size: " +:+ decimal (length userIds) +:+ nl
      | _ => ""
      end.

(** [modelObjects.find(o => o.id === id)]. *)
Definition findById (modelObjects : list ModelObject.t) (id : string) : option ModelObject.t :=
  List.find (λ o, bool_decide (ModelObject.id o = Some id)) modelObjects.

(** The callback of the first [map] of [formatConnections] (lines 223-230):
    the text of one incoming connection, empty when its origin is unknown. *)
Definition incomingLine (modelObject : ModelObject.t) (modelObjects : list ModelObject.t)
    (c : ModelConnection.t) : string :=
  match findById modelObjects (ModelConnection.originId c) with
  | None => ""
  | Some connectedModel =>
      tpl (ModelObject.name connectedModel) +:+ " (" +:+ tpl (ModelObject.type connectedModel)
      +:+ ") -[" +:+ tpl (ModelConnection.name c) +:+ "]-> "
      +:+ tpl (ModelObject.name modelObject) +:+ " (" +:+ tpl (ModelObject.type modelObject) +:+ ")"
  end.

(** The callback of the second [map] (lines 236-243): the text of one
    connection leaving [modelObject], empty when its target is unknown. *)
Definition outgoingLine (modelObject : ModelObject.t) (modelObjects : list ModelObject.t)
    (c : ModelConnection.t) : string :=
  match findById modelObjects (ModelConnection.targetId c) with
  | None => ""
  | Some connectedModel =>
      tpl (ModelObject.name modelObject) +:+ " (" +:+ tpl (ModelObject.type modelObject)
      +:+ ") -[" +:+ tpl (ModelConnection.name c) +:+ "]-> "
      +:+ tpl (ModelObject.name connectedModel) +:+ " (" +:+ tpl (ModelObject.type connectedModel) +:+ ")"
  end.

(** The lines joined under the heading "Incoming connections". *)
Definition incomingConnectionLines (modelObject : ModelObject.t)
    (incomingConnections outgoingConnections : list ModelConnection.t)
    (modelObjects : list ModelObject.t) : list string :=
  map (incomingLine modelObject modelObjects) incomingConnections.

(** The lines joined under the heading "Outgoing connections": the source
    maps over [incomingConnections] here (line 236). *)
Definition outgoingConnectionLines (modelObject : ModelObject.t)
    (incomingConnections outgoingConnections : list ModelConnection.t)
    (modelObjects : list ModelObject.t) : list string :=
  map (outgoingLine modelObject modelObjects) incomingConnections.

(** The array [referencedModels] after both blocks have run. *)
Definition referencedModels (incomingConnections outgoingConnections : list ModelConnection.t)
    (modelObjects : list ModelObject.t) : list ModelObject.t :=
  (match incomingConnections with
   | [] => []
   | _ => omap (λ c, findById modelObjects (ModelConnection.originId c)) incomingConnections
   end)
  ++ (match outgoingConnections with
      | [] => []
      | _ => omap (λ c, findById modelObjects (ModelConnection.targetId c)) incomingConnections
      end).

Definition formatConnections (modelObject : ModelObject.t)
    (incomingConnections outgoingConnections : list ModelConnection.t)
    (modelObjects : list ModelObject.t) : string :=
  ("# " +:+ tpl (ModelObject.name modelObject) +:+ " - Connections" +:+ nl +:+ nl)
  +:+ match incomingConnections, outgoingConnections with
      | [], [] => "No connections found." +:+ nl
      | _, _ => ""
      end
  +:+ match incomingConnections with
      | [] => ""
      | _ => "### Incoming connections" +:+ nl
             +:+ join nl (incomingConnectionLines modelObject incomingConnections
                            outgoingConnections modelObjects)
      end
  +:+ match outgoingConnections with
      | [] => ""
      | _ => "### Outgoing connections" +:+ nl
             +:+ join nl (outgoingConnectionLines modelObject incomingConnections
                            outgoingConnections modelObjects)
      end
  +:+ match referencedModels incomingConnections outgoingConnections modelObjects with
      | [] => ""
      | referenced =>
          "### Referenced Model Objects"
          +:+ join nl (map formatModelObjectRelatedItem referenced)
      end.

(** A call of [formatConnections] with arguments that may be undefined.
    The function does not test them: it throws at [modelObject.name] (line
    213); at [incomingConnections.length] (line 215); at
    [outgoingConnections.length], which line 215 reads when there is no
    incoming connection and line 234 reads otherwise; and at
    [modelObjects.find] (line 224), which the first incoming connection
    reaches before line 234.  [modelObjects] is not read when there is no
    incoming connection. *)
Definition formatConnectionsCall (modelObject : option ModelObject.t)
    (incomingConnections outgoingConnections : option (list ModelConnection.t))
    (modelObjects : option (list ModelObject.t)) : Result string :=
  match modelObject with
  | None => Throw (cannotRead "undefined" "name")
  | Some modelObject =>
      match incomingConnections with
      | None => Throw (cannotRead "undefined" "length")
      | Some incomingConnections =>
          match incomingConnections, modelObjects with
          | _ :: _, None => Throw (cannotRead "undefined" "find")
          | _, _ =>
              match outgoingConnections with
              | None => Throw (cannotRead "undefined" "length")
              | Some outgoingConnections =>
                  Ok (formatConnections modelObject incomingConnections
                        outgoingConnections (default [] modelObjects))
              end
          end
      end
  end.

End Format.
End Format.

(** ** [icepanel.ts]: the API client *)

(** *** Filter descriptions

  The [filter] objects handed to the list functions.  A property holds a
  string or a boolean, an array of those, a record of strings (the [labels]
  filter), [null], or [undefined].  A filter is the list of its entries in
  the order [Object.entries] enumerates them. *)

Inductive Scalar :=
| SString (s : string)
| SBool (b : bool).

Inductive FilterValue :=
| FUndefined
| FNull
| FScalar (v : Scalar)
| FArray (items : list Scalar)
| FRecord (entries : list (string * string)).

Abbreviation Filter := (list (string * FilterValue)) (only parsing).

(** The [options] argument of the list functions: [{ filter?: ... }]. *)
Module Options.
Record t := { filter : option Filter }.
End Options.

(** The default [options = {}]. *)
Definition noOptions : Options.t := {| Options.filter := None |}.

Module Icepanel.

(** The conversion to string applied to a value appended to the query
    parameters. *)
Definition scalarToString (v : Scalar) : string :=
  match v with
  | SString s => s
  | SBool b => ofBool b
  end.

(** [String(value)]. *)
Definition String_ (value : FilterValue) : string :=
  match value with
  | FUndefined => "undefined"
  | FNull => "null"
  | FScalar v => scalarToString v
  | FArray items => join "," (map scalarToString items)
  | FRecord _ => "[object Object]"
  end.

(** [typeof value]. *)
Definition typeof (value : FilterValue) : string :=
  match value with
  | FUndefined => "undefined"
  | FScalar (SString _) => "string"
  | FScalar (SBool _) => "boolean"
  | FNull | FArray _ | FRecord _ => "object"
  end.

(** [Object.entries(value)], each value converted to the string that
    [params.append] stores.  It throws on [null] and [undefined]; the
    entries of an array are its elements under their indices. *)
Definition Object_entries (value : FilterValue) : Result (list (string * string)) :=
  match value with
  | FUndefined | FNull =>
      Throw {| message := "Cannot convert undefined or null to object" |}
  | FScalar (SString s) =>
      Ok (imap (λ i c, (decimal i, String c "")) (list_ascii_of_string s))
  | FScalar (SBool _) => Ok []
  | FArray items => Ok (imap (λ i item, (decimal i, scalarToString item)) items)
  | FRecord entries => Ok entries
  end.

(** The body of the [forEach] callback of [getCatalogTechnologies] and
    [getOrganizationTechnologies] (lines 1024-1039 and 1078-1093). *)
Definition appendEntry (params : URLSearchParams.t) (key : string) (value : FilterValue)
    : URLSearchParams.t :=
  match value with
  | FUndefined => params
  | FArray items =>
      fold_left (λ ps item,
                   URLSearchParams.append ps ("filter[" +:+ key +:+ "][]") (scalarToString item))
                items params
  | FNull => URLSearchParams.append params ("filter[" +:+ key +:+ "]") "null"
  | _ => URLSearchParams.append params ("filter[" +:+ key +:+ "]") (String_ value)
  end.

(** The body of the [forEach] callback of [getModelObjects] and
    [getModelConnections] (lines 1162-1182 and 1312-1332): the [labels]
    test comes first. *)
Definition appendEntryLabels (params : URLSearchParams.t) (key : string) (value : FilterValue)
    : Result URLSearchParams.t :=
  match value with
  | FUndefined => Ok params
  | _ =>
      if bool_decide (key = "labels") && bool_decide (typeof value = "object") then
        match Object_entries value with
        | Ok entries =>
            Ok (fold_left (λ ps e,
                             URLSearchParams.append ps ("filter[labels][" +:+ e.1 +:+ "]") e.2)
                          entries params)
        | Throw e => Throw e
        end
      else
        match value with
        | FArray items =>
            Ok (fold_left (λ ps item,
                             URLSearchParams.append ps ("filter[" +:+ key +:+ "][]")
                                                    (scalarToString item))
                          items params)
        | FNull => Ok (URLSearchParams.append params ("filter[" +:+ key +:+ "]") "null")
        | _ => Ok (URLSearchParams.append params ("filter[" +:+ key +:+ "]") (String_ value))
        end
  end.

(** [Object.entries(filter).forEach(...)] for a callback that may throw:
    the entries are visited in order and the first exception ends the loop. *)
Fixpoint forEachEntry (callback : URLSearchParams.t → string → FilterValue → Result URLSearchParams.t)
    (entries : Filter) (params : URLSearchParams.t) : Result URLSearchParams.t :=
  match entries with
  | [] => Ok params
  | (key, value) :: rest =>
      match callback params key value with
      | Ok params' => forEachEntry callback rest params'
      | Throw e => Throw e
      end
  end.

(** The query parameters built by [getCatalogTechnologies] and
    [getOrganizationTechnologies]. *)
Definition technologiesParams (options : Options.t) : URLSearchParams.t :=
  match Options.filter options with
  | Some filter => fold_left (λ ps e, appendEntry ps e.1 e.2) filter []
  | None => []
  end.

(** The query parameters built by [getModelObjects] and
    [getModelConnections]. *)
Definition modelParams (options : Options.t) : Result URLSearchParams.t :=
  match Options.filter options with
  | Some filter => forEachEntry appendEntryLabels filter []
  | None => Ok []
  end.

(** [`${queryString ? `?${queryString}` : ''}`]. *)
Definition querySuffix (params : URLSearchParams.t) : string :=
  let queryString := URLSearchParams.toString params in
  match queryString with
  | "" => ""
  | _ => "?" +:+ queryString
  end.

(** The [options] of [apiRequest]: the callers set [method] and [body] only. *)
Record RequestInit := { method : option string; body : option JsonObject }.

Definition noInit : RequestInit := {| method := None; body := None |}.

Section Client.

Variable env : Env.

Definition API_BASE_URL : string :=
  envOr (ICEPANEL_API_BASE_URL env) "https://api.icepanel.io/v1".

(** The request [apiRequest] hands to [fetch] (lines 870-887). *)
Definition requestOf (path : string) (options : RequestInit) : Request.t :=
  let url := API_BASE_URL +:+ path in
  let headers :=
    [("Accept", "application/json");
     ("Content-Type", "application/json");
     ("Authorization", "ApiKey " +:+ API_KEY env)] in
  {| Request.url := url;
     Request.method := method options;
     Request.headers := headers;
     Request.body := body options |}.

(** Make an authenticated request to the IcePanel API (lines 869-896). *)
Definition apiRequest (path : string) (options : RequestInit) : M (Json env) :=
  response <- fetch env (requestOf path options) ;;
  if negb (Response.ok response) then
    let errorText := Response.bodyText response in
    throw {| message := "IcePanel API error: " +:+ decimal (Response.status response)
                        +:+ " " +:+ Response.statusText response +:+ " - " +:+ errorText |}
  else
    lift (JSON_parse env (Response.bodyText response)).

Definition getLandscapes (organizationId : string) : M (Json env) :=
  apiRequest ("/organizations/" +:+ organizationId +:+ "/landscapes") noInit.

Definition getLandscape (organizationId landscapeId : string) : M (Json env) :=
  apiRequest ("/organizations/" +:+ organizationId +:+ "/landscapes/" +:+ landscapeId) noInit.

Definition createLandscape (organizationId : string) (data : JsonObject) : M (Json env) :=
  apiRequest ("/organizations/" +:+ organizationId +:+ "/landscapes")
             {| method := Some "POST"; body := Some data |}.

Definition getCatalogTechnologies (options : Options.t) : M (Json env) :=
  let params := technologiesParams options in
  apiRequest ("/catalog/technologies" +:+ querySuffix params) noInit.

Definition getOrganizationTechnologies (organizationId : string) (options : Options.t)
    : M (Json env) :=
  let params := technologiesParams options in
  apiRequest ("/organizations/" +:+ organizationId +:+ "/technologies" +:+ querySuffix params)
             noInit.

Definition getTeams (organizationId : string) : M (Json env) :=
  apiRequest ("/organizations/" +:+ organizationId +:+ "/teams") noInit.

Definition getModelObjects (landscapeId versionId : string) (options : Options.t)
    : M (Json env) :=
  params <- lift (modelParams options) ;;
  apiRequest ("/landscapes/" +:+ landscapeId +:+ "/versions/" +:+ versionId
              +:+ "/model/objects" +:+ querySuffix params) noInit.

Definition getModelObject (landscapeId modelObjectId versionId : string) : M (Json env) :=
  apiRequest ("/landscapes/" +:+ landscapeId +:+ "/versions/" +:+ versionId
              +:+ "/model/objects/" +:+ modelObjectId) noInit.

Definition createModelObject (landscapeId : string) (data : JsonObject) (versionId : string)
    : M (Json env) :=
  apiRequest ("/landscapes/" +:+ landscapeId +:+ "/versions/" +:+ versionId +:+ "/model/objects")
             {| method := Some "POST"; body := Some data |}.

Definition getModelConnections (landscapeId versionId : string) (options : Options.t)
    : M (Json env) :=
  params <- lift (modelParams options) ;;
  apiRequest ("/landscapes/" +:+ landscapeId +:+ "/versions/" +:+ versionId
              +:+ "/model/connections" +:+ querySuffix params) noInit.

Definition createModelConnection (landscapeId : string) (data : JsonObject) (versionId : string)
    : M (Json env) :=
  apiRequest ("/landscapes/" +:+ landscapeId +:+ "/versions/" +:+ versionId
              +:+ "/model/connections")
             {| method := Some "POST"; body := Some data |}.

Definition createDomain (landscapeId : string) (data : JsonObject) (versionId : string)
    : M (Json env) :=
  apiRequest ("/landscapes/" +:+ landscapeId +:+ "/versions/" +:+ versionId +:+ "/domains")
             {| method := Some "POST"; body := Some data |}.

Definition getDiagrams (landscapeId versionId : string) : M (Json env) :=
  apiRequest ("/landscapes/" +:+ landscapeId +:+ "/versions/" +:+ versionId +:+ "/diagrams")
             noInit.

Definition getDiagram (landscapeId diagramId versionId : string) : M (Json env) :=
  apiRequest ("/landscapes/" +:+ landscapeId +:+ "/versions/" +:+ versionId
              +:+ "/diagrams/" +:+ diagramId) noInit.

(** The response of [createDiagram] and [updateDiagram] read as a
    [DiagramResponse], with [objectIds] set to [[]] when the diagram is
    there and has none (lines 1535-1543 and 1598-1606); the test reads
    [typedResponse.diagram], which throws when the answer is [null]. *)
Definition typedResponse (response : Json env) : Result DiagramResponse.t :=
  match property env response "diagram" (view_diagram env) with
  | Ok diagram =>
      Ok {| DiagramResponse.diagram :=
              (λ d, {| Diagram.id := Diagram.id d;
                       Diagram.name := Diagram.name d;
                       Diagram.objectIds := Some (default [] (Diagram.objectIds d)) |})
              <$> diagram |}
  | Throw e => Throw e
  end.

(** The arguments of [createDiagram] and [updateDiagram]. *)
Record DiagramData := {
  name : option string;
  viewType : option string;
  description : option string;
  rootObjectId : option string;
  objectIds : option (list string)
}.

(** The properties of the request data in the order the handlers list
    them. *)
Definition diagramProps (data : DiagramData) : list (string * option JsonData) :=
  [("name", DString <$> name data);
   ("viewType", DString <$> viewType data);
   ("description", DString <$> description data);
   ("rootObjectId", DString <$> rootObjectId data);
   ("objectIds", DStrings <$> objectIds data)].

Definition createDiagram (landscapeId : string) (data : DiagramData) (versionId : string)
    : M DiagramResponse.t :=
  let requestData :=
    {| name := name data; viewType := viewType data; description := description data;
       rootObjectId := rootObjectId data;
       objectIds := Some (default [] (objectIds data)) |} in
  response <- apiRequest ("/landscapes/" +:+ landscapeId +:+ "/versions/" +:+ versionId
                          +:+ "/diagrams")
                         {| method := Some "POST";
                            body := Some (definedProps (diagramProps requestData)) |} ;;
  lift (typedResponse response).

Definition updateDiagram (landscapeId diagramId : string) (data : DiagramData)
    (versionId : string) : M DiagramResponse.t :=
  let requestData := data in
  response <- apiRequest ("/landscapes/" +:+ landscapeId +:+ "/versions/" +:+ versionId
                          +:+ "/diagrams/" +:+ diagramId)
                         {| method := Some "PATCH";
                            body := Some (definedProps (diagramProps requestData)) |} ;;
  lift (typedResponse response).

Definition deleteDiagram (landscapeId diagramId versionId : string) : M (Json env) :=
  apiRequest ("/landscapes/" +:+ landscapeId +:+ "/versions/" +:+ versionId
              +:+ "/diagrams/" +:+ diagramId)
             {| method := Some "DELETE"; body := None |}.


(** The functions of the client that no tool calls (lines 939-994, 1109-1125,
    1232-1272, 1344-1346, 1380-1415 and 1444-1458). *)

Definition updateLandscape (organizationId landscapeId : string) (data : JsonObject)
    : M (Json env) :=
  apiRequest ("/organizations/" +:+ organizationId +:+ "/landscapes/" +:+ landscapeId)
             {| method := Some "PATCH"; body := Some data |}.

Definition deleteLandscape (organizationId landscapeId : string)
    : M (Json env) :=
  apiRequest ("/organizations/" +:+ organizationId +:+ "/landscapes/" +:+ landscapeId)
             {| method := Some "DELETE"; body := None |}.

Definition getVersion (landscapeId versionId : string)
    : M (Json env) :=
  apiRequest ("/landscapes/" +:+ landscapeId +:+ "/versions/" +:+ versionId)
             noInit.

Definition createVersion (landscapeId : string) (data : JsonObject)
    : M (Json env) :=
  apiRequest ("/landscapes/" +:+ landscapeId +:+ "/versions")
             {| method := Some "POST"; body := Some data |}.

Definition createOrganizationTechnology (organizationId : string) (data : JsonObject)
    : M (Json env) :=
  apiRequest ("/organizations/" +:+ organizationId +:+ "/technologies")
             {| method := Some "POST"; body := Some data |}.

Definition updateModelObject (landscapeId objectId : string) (data : JsonObject) (versionId : string)
    : M (Json env) :=
  apiRequest ("/landscapes/" +:+ landscapeId +:+ "/versions/" +:+ versionId
              +:+ "/model/objects/" +:+ objectId)
             {| method := Some "PATCH"; body := Some data |}.

Definition deleteModelObject (landscapeId objectId versionId : string)
    : M (Json env) :=
  apiRequest ("/landscapes/" +:+ landscapeId +:+ "/versions/" +:+ versionId
              +:+ "/model/objects/" +:+ objectId)
             {| method := Some "DELETE"; body := None |}.

Definition getConnection (landscapeId versionId connectionId : string)
    : M (Json env) :=
  apiRequest ("/landscapes/" +:+ landscapeId +:+ "/versions/" +:+ versionId
              +:+ "/model/connections/" +:+ connectionId)
             noInit.

Definition updateModelConnection (landscapeId connectionId : string) (data : JsonObject) (versionId : string)
    : M (Json env) :=
  apiRequest ("/landscapes/" +:+ landscapeId +:+ "/versions/" +:+ versionId
              +:+ "/model/connections/" +:+ connectionId)
             {| method := Some "PATCH"; body := Some data |}.

Definition deleteModelConnection (landscapeId connectionId versionId : string)
    : M (Json env) :=
  apiRequest ("/landscapes/" +:+ landscapeId +:+ "/versions/" +:+ versionId
              +:+ "/model/connections/" +:+ connectionId)
             {| method := Some "DELETE"; body := None |}.

Definition updateDomain (landscapeId domainId : string) (data : JsonObject) (versionId : string)
    : M (Json env) :=
  apiRequest ("/landscapes/" +:+ landscapeId +:+ "/versions/" +:+ versionId
              +:+ "/domains/" +:+ domainId)
             {| method := Some "PATCH"; body := Some data |}.

End Client.
End Icepanel.

(** ** [main.ts]: the tools registered on the MCP server *)

(** A validated argument that is one string or an array of strings
  ([z.union([z.string(), z.array(z.string())])]). *)
Inductive OneOrMany :=
| One (s : string)
| Many (l : list string).

Definition filterOfOneOrMany (v : option OneOrMany) : FilterValue :=
match v with
| None => FUndefined
| Some (One s) => FScalar (SString s)
| Some (Many l) => FArray (map SString l)
end.

(** An optional string. *)
Definition filterOfString (v : option string) : FilterValue :=
match v with
| None => FUndefined
| Some s => FScalar (SString s)
end.

(** An optional, nullable argument: [None] when it is absent, [Some None]
  when it is [null]. *)
Definition filterOfNullable {A} (f : option A → FilterValue) (v : option (option A))
  : FilterValue :=
match v with
| None => FUndefined
| Some None => FNull
| Some (Some a) => f (Some a)
end.

(** [new Set(items)] keeps the first occurrence of each element, in
  insertion order. *)
Definition Set_add (set : list string) (x : string) : list string :=
if bool_decide (x ∈ set) then set else set ++ [x].

(** [Array.from(new Set(items))]. *)
Definition Array_from_Set (items : list string) : list string :=
fold_left Set_add items [].

Module Main.

Record TextContent := { type : string; text : string }.

(** What a tool handler returns: [{ content: [...] }]. *)
Record CallToolResult := { content : list TextContent }.

Definition textContent (s : string) : TextContent := {| type := "text"; text := s |}.

(** [{ content: [{ type: "text", text: s }] }]. *)
Definition textResult (s : string) : CallToolResult := {| content := [textContent s] |}.

(** The [catch] block shared by all handlers, up to the prefix of the
    message: [return { content: [{ type: "text", text: `<prefix>${error.message}` }] }]. *)
Definition errorResult (prefix : string) (error : Error) : M CallToolResult :=
  ret (textResult (prefix +:+ message error)).

(** The arguments of [getModelObjects] after validation; [external] has a
    default. *)
Record GetModelObjectsArgs := {
  landscapeId : string;
  domainId : option OneOrMany;
  external : bool;
  name : option string;
  parentId : option (option string);
  status : option OneOrMany;
  type_ : option OneOrMany;
  technologyId : option OneOrMany;
  teamId : option OneOrMany;
  search : option string
}.

(** [({ landscapeId, ...filters })]: the remaining arguments, in the order
    of the schema. *)
Definition filters (args : GetModelObjectsArgs) : Filter :=
  [("domainId", filterOfOneOrMany (domainId args));
   ("external", FScalar (SBool (external args)));
   ("name", filterOfString (name args));
   ("parentId", filterOfNullable filterOfString (parentId args));
   ("status", filterOfOneOrMany (status args));
   ("type", filterOfOneOrMany (type_ args));
   ("technologyId", filterOfOneOrMany (technologyId args));
   ("teamId", filterOfOneOrMany (teamId args));
   ("search", filterOfString (search args))].

Record GetTechnologyCatalogArgs := {
  provider : option (option OneOrMany);
  catalogType : option (option OneOrMany);
  restrictions : option OneOrMany;
  catalogSearch : string
}.

Record CreateLandscapeArgs := {
  landscapeName : string;
  landscapeDescription : option string;
  icon : option string;
  visibility : string
}.

Record CreateModelObjectArgs := {
  objectLandscapeId : string;
  objectName : string;
  objectType : string;
  objectParentId : option string;
  objectDescription : option string;
  objectDomainId : option string;
  objectExternal : bool;
  objectStatus : string;
  objectTechnologyId : option string;
  objectTeamId : option string
}.

Record CreateModelConnectionArgs := {
  connectionLandscapeId : string;
  connectionName : string;
  originId : string;
  targetId : string;
  connectionDescription : option string;
  direction : string;
  connectionStatus : string
}.

Record CreateDomainArgs := {
  domainLandscapeId : string;
  domainName : string;
  domainDescription : option string;
  color : option string
}.

(** The arguments of [createDiagram], [createDiagramWithObjects] and
    [updateDiagram]; the schema of each tool decides which are present. *)
Record DiagramArgs := {
  diagramLandscapeId : string;
  diagramName : option string;
  viewType : option string;
  diagramDescription : option string;
  rootObjectId : option string;
  objectIds : option (list string)
}.

(** [if (search) { ...fuse... }]: the fuzzy filter runs only for a
    non-empty search string. *)
Definition fuseFilter (env : Env) {A} (items : list A) (keys : list string)
    (search : option string) : list A :=
  if truthy search
  then Fuse_search env A {| keys := keys; threshold := 3 # 10 |} items (tpl search)
  else items.

(** The same step on a collection that may be undefined: without a search
    string the collection stays as it is; with one, what
    [new Fuse(undefined, ...)] does is the library's affair. *)
Definition fuseFilterCall (env : Env) {A} (items : option (list A)) (keys : list string)
    (search : option string) : Result (option (list A)) :=
  match items with
  | Some items => Ok (Some (fuseFilter env items keys search))
  | None =>
      if truthy search then
        match Fuse_search_undefined env A {| keys := keys; threshold := 3 # 10 |}
                (tpl search) with
        | Ok found => Ok (Some found)
        | Throw e => Throw e
        end
      else Ok None
  end.

Section Tools.

Variable env : Env.

(** *** getLandscapes (lines 36-52) *)

Definition getLandscapes_try : M CallToolResult :=
  landscapes <- Icepanel.getLandscapes env (ORGANIZATION_ID env) ;;
  ret (textResult (JSON_stringify env landscapes)).

Definition getLandscapes : M CallToolResult :=
  tryCatch getLandscapes_try (errorResult "Error: ").

(** *** getLandscape (lines 55-73) *)

Definition getLandscape_try (landscapeId : string) : M CallToolResult :=
  landscape <- Icepanel.getLandscape env (ORGANIZATION_ID env) landscapeId ;;
  ret (textResult (JSON_stringify env landscape)).

Definition getLandscape (landscapeId : string) : M CallToolResult :=
  tryCatch (getLandscape_try landscapeId) (errorResult "Error: ").

(** *** getModelObjects (lines 76-137) *)

Definition getModelObjects_try (args : GetModelObjectsArgs) : M CallToolResult :=
  result <- Icepanel.getModelObjects env (landscapeId args) "latest"
              {| Options.filter := Some (filters args) |} ;;
  modelObjects <- lift (property env result "modelObjects" (view_modelObjects env)) ;;
  modelObjects <-
    lift (fuseFilterCall env modelObjects ["name"; "description"] (search args)) ;;
  modelObjects <- lift (defined modelObjects "map") ;;
  ret {| content :=
           map (λ o, textContent (Format.formatModelObjectListItem (landscapeId args) o))
               modelObjects |}.

Definition getModelObjects (args : GetModelObjectsArgs) : M CallToolResult :=
  tryCatch (getModelObjects_try args) (errorResult "Error: ").

(** *** getModelObject (lines 139-178) *)

Definition getModelObject_try (landscapeId modelObjectId : string)
    (includeHierarchicalInfo : bool) : M CallToolResult :=
  result <- Icepanel.getModelObject env landscapeId modelObjectId "latest" ;;
  teamResult <- Icepanel.getTeams env (ORGANIZATION_ID env) ;;
  modelObject <- lift (property env result "modelObject" (view_modelObject env)) ;;
  hierarchy <-
    (if includeHierarchicalInfo then
       listResult <- Icepanel.getModelObjects env landscapeId "latest" noOptions ;;
       modelObjectList <-
         lift (property env listResult "modelObjects" (view_modelObjects env)) ;;
       object <- lift (defined modelObject "parentId") ;;
       parentObject <-
         match ModelObject.parentId object with
         | Some parentId =>
             if truthy (Some parentId) && negb (bool_decide (parentId = "root"))
             then objects <- lift (defined modelObjectList "find") ;;
                  ret (Format.findById objects parentId)
             else ret None
         | None => ret None
         end ;;
       childIds <- lift (defined (ModelObject.childIds object) "length") ;;
       childObjects <-
         match childIds with
         | [] => ret None
         | _ =>
             objects <- lift (defined modelObjectList "filter") ;;
             ret (Some (List.filter
                          (λ o, match ModelObject.id o with
                                | Some id => bool_decide (id ∈ childIds)
                                | None => false
                                end)
                          objects))
         end ;;
       ret (parentObject, childObjects)
     else ret (None, None)) ;;
  teams <- lift (property env teamResult "teams" (view_teams env)) ;;
  text <- lift (Format.formatModelObjectItemCall env landscapeId modelObject teams
                  hierarchy.1 hierarchy.2) ;;
  ret (textResult text).

Definition getModelObject (landscapeId modelObjectId : string)
    (includeHierarchicalInfo : bool) : M CallToolResult :=
  tryCatch (getModelObject_try landscapeId modelObjectId includeHierarchicalInfo)
           (errorResult "Error: ").

(** *** getModelObjectRelationships (lines 180-225) *)

Definition getModelObjectRelationships_try (landscapeId modelObjectId : string)
    : M CallToolResult :=
  modelObjectResult <- Icepanel.getModelObject env landscapeId modelObjectId "latest" ;;
  modelObjectsResult <- Icepanel.getModelObjects env landscapeId "latest" noOptions ;;
  outgoingConnectionsResult <-
    Icepanel.getModelConnections env landscapeId "latest"
      {| Options.filter := Some [("originId", FScalar (SString modelObjectId))] |} ;;
  incomingConnectionsResult <-
    Icepanel.getModelConnections env landscapeId "latest"
      {| Options.filter := Some [("targetId", FScalar (SString modelObjectId))] |} ;;
  modelObject <-
    lift (property env modelObjectResult "modelObject" (view_modelObject env)) ;;
  incomingConnections <-
    lift (property env incomingConnectionsResult "modelConnections"
            (view_modelConnections env)) ;;
  outgoingConnections <-
    lift (property env outgoingConnectionsResult "modelConnections"
            (view_modelConnections env)) ;;
  modelObjects <-
    lift (property env modelObjectsResult "modelObjects" (view_modelObjects env)) ;;
  formattedText <-
    lift (Format.formatConnectionsCall modelObject incomingConnections
            outgoingConnections modelObjects) ;;
  ret (textResult formattedText).

Definition getModelObjectRelationships (landscapeId modelObjectId : string)
    : M CallToolResult :=
  tryCatch (getModelObjectRelationships_try landscapeId modelObjectId)
           (errorResult "Error: ").

(** *** getTechnologyCatalog (lines 227-267) *)

Definition getTechnologyCatalog_try (args : GetTechnologyCatalogArgs) : M CallToolResult :=
  let provider := filterOfNullable filterOfOneOrMany (provider args) in
  let type := filterOfNullable filterOfOneOrMany (catalogType args) in
  let restrictions := filterOfOneOrMany (restrictions args) in
  result <- Icepanel.getCatalogTechnologies env
              {| Options.filter := Some [("provider", provider); ("type", type);
                                 ("restrictions", restrictions);
                                 ("status", FScalar (SString "approved"))] |} ;;
  organizationResult <-
    Icepanel.getOrganizationTechnologies env (ORGANIZATION_ID env)
      {| Options.filter := Some [("provider", provider); ("type", type);
                         ("restrictions", restrictions)] |} ;;
  catalogTechnologies <-
    lift (property env result "catalogTechnologies" (view_catalogTechnologies env)) ;;
  catalogTechnologies <- lift (defined catalogTechnologies "concat") ;;
  organizationTechnologies <-
    lift (property env organizationResult "catalogTechnologies"
            (view_catalogTechnologies env)) ;;
  (* [a.concat(b)] appends the elements of an array [b], and [b] itself, as
     one element, when it is undefined *)
  let combinedTechnologies :=
    map Some catalogTechnologies
    ++ match organizationTechnologies with
       | Some technologies => map Some technologies
       | None => [None]
       end in
  let combinedTechnologies :=
    fuseFilter env combinedTechnologies ["name"; "description"] (Some (catalogSearch args)) in
  texts <- lift (mapResult Format.formatCatalogTechnologyCall combinedTechnologies) ;;
  ret {| content := map textContent texts |}.

Definition getTechnologyCatalog (args : GetTechnologyCatalogArgs) : M CallToolResult :=
  tryCatch (getTechnologyCatalog_try args) (errorResult "Error: ").

(** *** getTeams (lines 269-305) *)

Definition getTeams_try (search : option string) : M CallToolResult :=
  teamResult <- Icepanel.getTeams env (ORGANIZATION_ID env) ;;
  teams <- lift (property env teamResult "teams" (view_teams env)) ;;
  teams <- lift (fuseFilterCall env teams ["name"] search) ;;
  teams <- lift (defined teams "map") ;;
  ret {| content := map (λ team, textContent (Format.formatTeam team)) teams |}.

Definition getTeams (search : option string) : M CallToolResult :=
  tryCatch (getTeams_try search) (errorResult "Error: ").

(** *** createLandscape (lines 307-341) *)

Definition createLandscape_try (args : CreateLandscapeArgs) : M CallToolResult :=
  landscape <-
    Icepanel.createLandscape env (ORGANIZATION_ID env)
      (definedProps [("name", Some (DString (landscapeName args)));
                     ("description", DString <$> landscapeDescription args);
                     ("icon", DString <$> icon args);
                     ("visibility", Some (DString (visibility args)))]) ;;
  landscapeId <- lift (property env landscape "id" (view_id env)) ;;
  ret (textResult ("Successfully created landscape: " +:+ quote +:+ landscapeName args
                   +:+ quote +:+ " (ID: " +:+ tpl landscapeId +:+ ")")).

Definition createLandscape (args : CreateLandscapeArgs) : M CallToolResult :=
  tryCatch (createLandscape_try args) (errorResult "Error creating landscape: ").

(** *** createModelObject (lines 343-392) *)

Definition createModelObject_try (args : CreateModelObjectArgs) : M CallToolResult :=
  modelObject <-
    Icepanel.createModelObject env (objectLandscapeId args)
      (definedProps [("name", Some (DString (objectName args)));
                     ("type", Some (DString (objectType args)));
                     ("parentId", DString <$> objectParentId args);
                     ("description", DString <$> objectDescription args);
                     ("domainId", DString <$> objectDomainId args);
                     ("external", Some (DBool (objectExternal args)));
                     ("status", Some (DString (objectStatus args)));
                     ("technologyId", DString <$> objectTechnologyId args);
                     ("teamId", DString <$> objectTeamId args)])
      "latest" ;;
  id <- lift (property env modelObject "id" (view_id env)) ;;
  let objectId := if truthy id then tpl id else "unknown" in
  ret (textResult ("Successfully created " +:+ objectType args +:+ " " +:+ quote +:+ objectName args
                   +:+ quote +:+ " (ID: " +:+ objectId +:+ ")")).

Definition createModelObject (args : CreateModelObjectArgs) : M CallToolResult :=
  tryCatch (createModelObject_try args) (errorResult "Error creating model object: ").

(** *** createModelConnection (lines 394-436) *)

Definition createModelConnection_try (args : CreateModelConnectionArgs) : M CallToolResult :=
  connection <-
    Icepanel.createModelConnection env (connectionLandscapeId args)
      (definedProps [("name", Some (DString (connectionName args)));
                     ("originId", Some (DString (originId args)));
                     ("targetId", Some (DString (targetId args)));
                     ("description", DString <$> connectionDescription args);
                     ("direction", Some (DString (direction args)));
                     ("status", Some (DString (connectionStatus args)))])
      "latest" ;;
  connectionId <- lift (property env connection "id" (view_id env)) ;;
  ret (textResult ("Successfully created connection " +:+ quote +:+ connectionName args
                   +:+ quote +:+ " (ID: " +:+ tpl connectionId +:+ ")")).

Definition createModelConnection (args : CreateModelConnectionArgs) : M CallToolResult :=
  tryCatch (createModelConnection_try args) (errorResult "Error creating connection: ").

(** *** createDomain (lines 438-474) *)

Definition createDomain_try (args : CreateDomainArgs) : M CallToolResult :=
  domain <-
    Icepanel.createDomain env (domainLandscapeId args)
      (definedProps [("name", Some (DString (domainName args)));
                     ("description", DString <$> domainDescription args);
                     ("color", DString <$> color args)])
      "latest" ;;
  domainId <- lift (property env domain "id" (view_id env)) ;;
  ret (textResult ("Successfully created domain " +:+ quote +:+ domainName args
                   +:+ quote +:+ " (ID: " +:+ tpl domainId +:+ ")")).

Definition createDomain (args : CreateDomainArgs) : M CallToolResult :=
  tryCatch (createDomain_try args) (errorResult "Error creating domain: ").

(** *** verifyLandscape (lines 476-500) *)

Definition verifyLandscape_try (landscapeId : string) : M CallToolResult :=
  landscape <- Icepanel.getLandscape env (ORGANIZATION_ID env) landscapeId ;;
  name <- lift (property env landscape "name" (view_name env)) ;;
  let name := if truthy name then tpl name else "Unknown" in
  ret (textResult ("Landscape exists: " +:+ quote +:+ name +:+ quote +:+ " (ID: " +:+ landscapeId +:+ ")")).

Definition verifyLandscape (landscapeId : string) : M CallToolResult :=
  tryCatch (verifyLandscape_try landscapeId) (errorResult "Error verifying landscape: ").

(** *** createTestSystem (lines 502-534) *)

Definition createTestSystem_try (landscapeId : string) : M CallToolResult :=
  modelObject <-
    Icepanel.createModelObject env landscapeId
      [("name", DString "Test System");
       ("type", DString "system");
       ("description", DString "A test system to verify API functionality")]
      "latest" ;;
  ret (textResult ("Successfully created test system. Response: "
                   +:+ JSON_stringify env modelObject)).

Definition createTestSystem (landscapeId : string) : M CallToolResult :=
  tryCatch (createTestSystem_try landscapeId) (errorResult "Error creating test system: ").

(** *** getDiagrams (lines 536-555) *)

Definition getDiagrams_try (landscapeId : string) : M CallToolResult :=
  result <- Icepanel.getDiagrams env landscapeId "latest" ;;
  ret (textResult (JSON_stringify env result)).

Definition getDiagrams (landscapeId : string) : M CallToolResult :=
  tryCatch (getDiagrams_try landscapeId) (errorResult "Error getting diagrams: ").

(** *** getDiagram (lines 557-577) *)

Definition getDiagram_try (landscapeId diagramId : string) : M CallToolResult :=
  diagram <- Icepanel.getDiagram env landscapeId diagramId "latest" ;;
  ret (textResult (JSON_stringify env diagram)).

Definition getDiagram (landscapeId diagramId : string) : M CallToolResult :=
  tryCatch (getDiagram_try landscapeId diagramId) (errorResult "Error getting diagram: ").

(** [diagram.diagram?.id], followed by the test [if (!diagramId) throw ...]. *)
Definition diagramIdOf (diagram : DiagramResponse.t) : M string :=
  let diagramId := d ← DiagramResponse.diagram diagram; Diagram.id d in
  if truthy diagramId then ret (tpl diagramId)
  else throw {| message := "Failed to get diagram ID from response" |}.

(** *** createDiagram (lines 579-647) *)

Definition createDiagram_try (args : DiagramArgs) : M CallToolResult :=
  let validatedObjectIds := default [] (objectIds args) in
  diagram <-
    Icepanel.createDiagram env (diagramLandscapeId args)
      {| Icepanel.name := diagramName args;
         Icepanel.viewType := viewType args;
         Icepanel.description := diagramDescription args;
         Icepanel.rootObjectId := rootObjectId args;
         Icepanel.objectIds := Some validatedObjectIds |}
      "latest" ;;
  diagramId <- diagramIdOf diagram ;;
  verifiedDiagram <- Icepanel.getDiagram env (diagramLandscapeId args) diagramId "latest" ;;
  let objectCount := length validatedObjectIds in
  let objectsText :=
    if decide (0 < objectCount)%nat
    then " with " +:+ decimal objectCount +:+ " objects" else "" in
  ret (textResult ("Successfully created diagram " +:+ quote +:+ tpl (diagramName args)
                   +:+ quote +:+ " (ID: " +:+ diagramId +:+ ")" +:+ objectsText)).

Definition createDiagram (args : DiagramArgs) : M CallToolResult :=
  tryCatch (createDiagram_try args) (errorResult "Error creating diagram: ").

(** [if (!objectIds || !Array.isArray(objectIds) || objectIds.length === 0) throw ...]. *)
Definition nonEmptyObjectIds (objectIds : option (list string)) : M (list string) :=
  match objectIds with
  | Some ((_ :: _) as ids) => ret ids
  | _ => throw {| message := "objectIds must be a non-empty array of strings" |}
  end.

(** *** createDiagramWithObjects (lines 648-712) *)

Definition createDiagramWithObjects_try (args : DiagramArgs) : M CallToolResult :=
  objectIds <- nonEmptyObjectIds (objectIds args) ;;
  diagram <-
    Icepanel.createDiagram env (diagramLandscapeId args)
      {| Icepanel.name := diagramName args;
         Icepanel.viewType := viewType args;
         Icepanel.description := diagramDescription args;
         Icepanel.rootObjectId := rootObjectId args;
         Icepanel.objectIds := Some objectIds |}
      "latest" ;;
  diagramId <- diagramIdOf diagram ;;
  ret (textResult ("Successfully created diagram " +:+ quote +:+ tpl (diagramName args)
                   +:+ quote +:+ " (ID: " +:+ diagramId +:+ ") with "
                   +:+ decimal (length objectIds) +:+ " objects.")).

Definition createDiagramWithObjects (args : DiagramArgs) : M CallToolResult :=
  tryCatch (createDiagramWithObjects_try args)
           (errorResult "Error creating diagram with objects: ").

(** *** updateDiagram (lines 713-752) *)

Definition updateDiagram_try (args : DiagramArgs) (diagramId : string) : M CallToolResult :=
  diagram <-
    Icepanel.updateDiagram env (diagramLandscapeId args) diagramId
      {| Icepanel.name := diagramName args;
         Icepanel.viewType := viewType args;
         Icepanel.description := diagramDescription args;
         Icepanel.rootObjectId := rootObjectId args;
         Icepanel.objectIds := objectIds args |}
      "latest" ;;
  ret (textResult ("Successfully updated diagram " +:+ quote +:+ tpl (diagramName args)
                   +:+ quote +:+ " (ID: " +:+ diagramId +:+ ")")).

Definition updateDiagram (args : DiagramArgs) (diagramId : string) : M CallToolResult :=
  tryCatch (updateDiagram_try args diagramId) (errorResult "Error updating diagram: ").

(** *** deleteDiagram (lines 754-778) *)

Definition deleteDiagram_try (landscapeId diagramId : string) : M CallToolResult :=
  Icepanel.deleteDiagram env landscapeId diagramId "latest" ;;;
  ret (textResult ("Successfully deleted diagram with ID: " +:+ diagramId)).

Definition deleteDiagram (landscapeId diagramId : string) : M CallToolResult :=
  tryCatch (deleteDiagram_try landscapeId diagramId) (errorResult "Error deleting diagram: ").

(** Reading [response.diagram.<property>] throws when [diagram] is missing. *)
Definition diagramOf (response : option Diagram.t) (property : string) : M Diagram.t :=
  lift (defined response property).

(** *** addObjectsToDiagram (lines 780-842) *)

Definition addObjectsToDiagram_try (landscapeId diagramId : string)
    (objectIds : list string) : M CallToolResult :=
  objectIds <- nonEmptyObjectIds (Some objectIds) ;;
  currentDiagram <- Icepanel.getDiagram env landscapeId diagramId "latest" ;;
  diagram <- lift (property env currentDiagram "diagram" (view_diagram env)) ;;
  current <- diagramOf diagram "objectIds" ;;
  let currentObjectIds := default [] (Diagram.objectIds current) in
  let updatedObjectIds := Array_from_Set (currentObjectIds ++ objectIds) in
  updatedDiagram <-
    Icepanel.updateDiagram env landscapeId diagramId
      {| Icepanel.name := None; Icepanel.viewType := None; Icepanel.description := None;
         Icepanel.rootObjectId := None; Icepanel.objectIds := Some updatedObjectIds |}
      "latest" ;;
  verifiedDiagram <- Icepanel.getDiagram env landscapeId diagramId "latest" ;;
  updated <- diagramOf (DiagramResponse.diagram updatedDiagram) "name" ;;
  ret (textResult ("Successfully added " +:+ decimal (length objectIds)
                   +:+ " objects to diagram " +:+ quote +:+ tpl (Diagram.name updated)
                   +:+ quote +:+ " (ID: " +:+ diagramId +:+ ")." +:+ Format.nl
                   +:+ "The diagram now contains " +:+ decimal (length updatedObjectIds)
                   +:+ " objects.")).

Definition addObjectsToDiagram (landscapeId diagramId : string) (objectIds : list string)
    : M CallToolResult :=
  tryCatch (addObjectsToDiagram_try landscapeId diagramId objectIds)
           (errorResult "Error adding objects to diagram: ").

(** *** Dispatch: a validated invocation of one of the twenty tools *)

Inductive ToolCall :=
| GetLandscapes
| GetLandscape (landscapeId : string)
| GetModelObjects (args : GetModelObjectsArgs)
| GetModelObject (landscapeId modelObjectId : string) (includeHierarchicalInfo : bool)
| GetModelObjectRelationships (landscapeId modelObjectId : string)
| GetTechnologyCatalog (args : GetTechnologyCatalogArgs)
| GetTeams (search : option string)
| CreateLandscape (args : CreateLandscapeArgs)
| CreateModelObject (args : CreateModelObjectArgs)
| CreateModelConnection (args : CreateModelConnectionArgs)
| CreateDomain (args : CreateDomainArgs)
| VerifyLandscape (landscapeId : string)
| CreateTestSystem (landscapeId : string)
| GetDiagrams (landscapeId : string)
| GetDiagram (landscapeId diagramId : string)
| CreateDiagram (args : DiagramArgs)
| CreateDiagramWithObjects (args : DiagramArgs)
| UpdateDiagram (args : DiagramArgs) (diagramId : string)
| DeleteDiagram (landscapeId diagramId : string)
| AddObjectsToDiagram (landscapeId diagramId : string) (objectIds : list string).

(** The handler the server runs for an invocation. *)
Definition callTool (call : ToolCall) : M CallToolResult :=
  match call with
  | GetLandscapes => getLandscapes
  | GetLandscape landscapeId => getLandscape landscapeId
  | GetModelObjects args => getModelObjects args
  | GetModelObject landscapeId modelObjectId includeHierarchicalInfo =>
      getModelObject landscapeId modelObjectId includeHierarchicalInfo
  | GetModelObjectRelationships landscapeId modelObjectId =>
      getModelObjectRelationships landscapeId modelObjectId
  | GetTechnologyCatalog args => getTechnologyCatalog args
  | GetTeams search => getTeams search
  | CreateLandscape args => createLandscape args
  | CreateModelObject args => createModelObject args
  | CreateModelConnection args => createModelConnection args
  | CreateDomain args => createDomain args
  | VerifyLandscape landscapeId => verifyLandscape landscapeId
  | CreateTestSystem landscapeId => createTestSystem landscapeId
  | GetDiagrams landscapeId => getDiagrams landscapeId
  | GetDiagram landscapeId diagramId => getDiagram landscapeId diagramId
  | CreateDiagram args => createDiagram args
  | CreateDiagramWithObjects args => createDiagramWithObjects args
  | UpdateDiagram args diagramId => updateDiagram args diagramId
  | DeleteDiagram landscapeId diagramId => deleteDiagram landscapeId diagramId
  | AddObjectsToDiagram landscapeId diagramId objectIds =>
      addObjectsToDiagram landscapeId diagramId objectIds
  end.

(** The [try] block of the handler. *)
Definition tryBlock (call : ToolCall) : M CallToolResult :=
  match call with
  | GetLandscapes => getLandscapes_try
  | GetLandscape landscapeId => getLandscape_try landscapeId
  | GetModelObjects args => getModelObjects_try args
  | GetModelObject landscapeId modelObjectId includeHierarchicalInfo =>
      getModelObject_try landscapeId modelObjectId includeHierarchicalInfo
  | GetModelObjectRelationships landscapeId modelObjectId =>
      getModelObjectRelationships_try landscapeId modelObjectId
  | GetTechnologyCatalog args => getTechnologyCatalog_try args
  | GetTeams search => getTeams_try search
  | CreateLandscape args => createLandscape_try args
  | CreateModelObject args => createModelObject_try args
  | CreateModelConnection args => createModelConnection_try args
  | CreateDomain args => createDomain_try args
  | VerifyLandscape landscapeId => verifyLandscape_try landscapeId
  | CreateTestSystem landscapeId => createTestSystem_try landscapeId
  | GetDiagrams landscapeId => getDiagrams_try landscapeId
  | GetDiagram landscapeId diagramId => getDiagram_try landscapeId diagramId
  | CreateDiagram args => createDiagram_try args
  | CreateDiagramWithObjects args => createDiagramWithObjects_try args
  | UpdateDiagram args diagramId => updateDiagram_try args diagramId
  | DeleteDiagram landscapeId diagramId => deleteDiagram_try landscapeId diagramId
  | AddObjectsToDiagram landscapeId diagramId objectIds =>
      addObjectsToDiagram_try landscapeId diagramId objectIds
  end.

(** The text the [catch] block of the handler puts before the message. *)
Definition errorPrefix (call : ToolCall) : string :=
  match call with
  | GetLandscapes | GetLandscape _ | GetModelObjects _ | GetModelObject _ _ _
  | GetModelObjectRelationships _ _ | GetTechnologyCatalog _ | GetTeams _ => "Error: "
  | CreateLandscape _ => "Error creating landscape: "
  | CreateModelObject _ => "Error creating model object: "
  | CreateModelConnection _ => "Error creating connection: "
  | CreateDomain _ => "Error creating domain: "
  | VerifyLandscape _ => "Error verifying landscape: "
  | CreateTestSystem _ => "Error creating test system: "
  | GetDiagrams _ => "Error getting diagrams: "
  | GetDiagram _ _ => "Error getting diagram: "
  | CreateDiagram _ => "Error creating diagram: "
  | CreateDiagramWithObjects _ => "Error creating diagram with objects: "
  | UpdateDiagram _ _ => "Error updating diagram: "
  | DeleteDiagram _ _ => "Error deleting diagram: "
  | AddObjectsToDiagram _ _ _ => "Error adding objects to diagram: "
  end.

End Tools.
End Main.

(** * Properties *)

(** ** Vocabulary of the statements *)

(** The pairs of a parameter list that carry a given name, in order. *)
Definition pairsNamed (name : string) (params : list (string * string))
    : list (string * string) :=
  filter (λ p, p.1 = name) params.

(** Whether a character occurs in a string. *)
Fixpoint occurs (c : ascii) (s : string) : bool :=
  match s with
  | "" => false
  | String d s' => if decide (d = c) then true else occurs c s'
  end.

(** A filter-key name: the closing bracket does not occur in it. *)
Definition keyName (k : string) : Prop := occurs "]" k = false.

(** A filter description: a mapping, so its keys are distinct, and they are
    key names. *)
Definition FilterDescription (f : Filter) : Prop :=
  NoDup f.*1 ∧ Forall keyName f.*1.

#[global] Instance Scalar_eq_dec : EqDecision Scalar.
Proof. solve_decision. Defined.

#[global] Instance FilterValue_eq_dec : EqDecision FilterValue.
Proof. solve_decision. Defined.

(** What an entry adds under the encoder of the model functions, when it
    does not throw. *)
Definition added (e : string * FilterValue) : list (string * string) :=
  match Icepanel.appendEntryLabels [] e.1 e.2 with
  | Ok ps => ps
  | Throw _ => []
  end.

(** The values the data model calls scalar, and the unset marker. *)
Definition scalarOrUnset (v : FilterValue) : Prop :=
  v = FUndefined ∨ ∃ s, v = FScalar s.

(** The keys of a filter that are set. *)
Definition setKeys (f : Filter) : list string :=
  (filter (λ e, e.2 ≠ FUndefined) f).*1.

(** The outcome of [apiRequest] for a request, given the requests before it. *)
Definition answer (env : Env) (tr : list Request.t) (request : Request.t)
    : Result (Json env) :=
  match network env tr request with
  | Responded response =>
      if Response.ok response then JSON_parse env (Response.bodyText response)
      else Throw {| message := "IcePanel API error: " +:+ decimal (Response.status response)
                               +:+ " " +:+ Response.statusText response
                               +:+ " - " +:+ Response.bodyText response |}
  | Rejected e => Throw e
  end.

(** The same environment with another JSON parser. *)
Definition withParser (env : Env) (parse : string → Result (Json env)) : Env :=
  {| API_KEY := API_KEY env;
     ORGANIZATION_ID := ORGANIZATION_ID env;
     ICEPANEL_API_BASE_URL := ICEPANEL_API_BASE_URL env;
     ICEPANEL_APP_BASE_URL := ICEPANEL_APP_BASE_URL env;
     network := network env;
     Json := Json env;
     JSON_parse := parse;
     JSON_stringify := JSON_stringify env;
     is_null := is_null env;
     view_id := view_id env;
     view_name := view_name env;
     view_modelObjects := view_modelObjects env;
     view_modelObject := view_modelObject env;
     view_catalogTechnologies := view_catalogTechnologies env;
     view_teams := view_teams env;
     view_modelConnections := view_modelConnections env;
     view_diagram := view_diagram env;
     Fuse_search := Fuse_search env;
     Fuse_search_undefined := Fuse_search_undefined env |}.

(** The request by which the tool [getModelObjects] fetches the objects. *)
Definition modelObjectsRequest (env : Env) (args : Main.GetModelObjectsArgs) : Request.t :=
  Icepanel.requestOf env
    ("/landscapes/" +:+ Main.landscapeId args +:+ "/versions/latest/model/objects"
     +:+ Icepanel.querySuffix (flat_map added (Main.filters args)))
    Icepanel.noInit.

(** The request for the teams of the organization. *)
Definition teamsRequest (env : Env) : Request.t :=
  Icepanel.requestOf env ("/organizations/" +:+ ORGANIZATION_ID env +:+ "/teams")
                     Icepanel.noInit.

(** The request for one model object. *)
Definition objectRequest (env : Env) (landscapeId modelObjectId : string) : Request.t :=
  Icepanel.requestOf env
    ("/landscapes/" +:+ landscapeId +:+ "/versions/latest/model/objects/" +:+ modelObjectId)
    Icepanel.noInit.

(** The request for the full object collection of a landscape. *)
Definition collectionRequest (env : Env) (landscapeId : string) : Request.t :=
  Icepanel.requestOf env
    ("/landscapes/" +:+ landscapeId +:+ "/versions/latest/model/objects") Icepanel.noInit.

(** The request for one diagram. *)
Definition diagramRequest (env : Env) (landscapeId diagramId : string) : Request.t :=
  Icepanel.requestOf env
    ("/landscapes/" +:+ landscapeId +:+ "/versions/latest/diagrams/" +:+ diagramId)
    Icepanel.noInit.

(** The update of a diagram that carries nothing but a list of object ids. *)
Definition objectIdsUpdate (env : Env) (landscapeId diagramId : string) (ids : list string)
    : Request.t :=
  Icepanel.requestOf env
    ("/landscapes/" +:+ landscapeId +:+ "/versions/latest/diagrams/" +:+ diagramId)
    {| Icepanel.method := Some "PATCH";
       Icepanel.body := Some [("objectIds", DStrings ids)] |}.

(** The ids of [ids] in order, without those in [seen] and without
    repetition: the first occurrence of each is kept. *)
Fixpoint firstOccurrences (seen ids : list string) : list string :=
  match ids with
  | [] => []
  | x :: rest =>
      if bool_decide (x ∈ seen) then firstOccurrences seen rest
      else x :: firstOccurrences (seen ++ [x]) rest
  end.

(** The union of two id lists in first-seen order, as the specification words
    it: every existing id first, in its original order, then each new id not
    already present, in the supplied order. *)
Definition orderedUnion (existing new : list string) : list string :=
  firstOccurrences [] existing ++ firstOccurrences existing new.

(** ** Sample data for the examples *)

Definition sampleObject (id name type : string) : ModelObject.t :=
  {| ModelObject.id := Some id; ModelObject.name := Some name;
     ModelObject.description := None; ModelObject.type := Some type;
     ModelObject.status := Some "live"; ModelObject.external := Some false;
     ModelObject.handleId := Some id; ModelObject.parentId := None;
     ModelObject.childIds := Some []; ModelObject.teamIds := None;
     ModelObject.technologies := None |}.

Definition sampleConnection (name originId targetId : string) : ModelConnection.t :=
  {| ModelConnection.name := Some name; ModelConnection.originId := originId;
     ModelConnection.targetId := targetId |}.

Definition payments : ModelObject.t := sampleObject "p1" "Payments" "system".
Definition ledger : ModelObject.t := sampleObject "l1" "Ledger" "store".
Definition shop : ModelObject.t := sampleObject "s1" "Shop" "app".

(** *** A sample landscape

  Ids have the twenty characters the schemas of the tools ask for. *)

Definition landscape1 : string := "landscape00000000001".
Definition gatewayId : string := "object00000000000001".
Definition ordersId : string := "object00000000000002".
Definition archiveId : string := "object00000000000003".
Definition platformId : string := "team0000000000000001".
Definition diagram1 : string := "diagram1".

Definition gateway : ModelObject.t :=
  {| ModelObject.id := Some gatewayId; ModelObject.name := Some "Gateway";
     ModelObject.description := None; ModelObject.type := Some "system";
     ModelObject.status := Some "live"; ModelObject.external := Some false;
     ModelObject.handleId := Some "gateway"; ModelObject.parentId := Some "root";
     ModelObject.childIds := Some [ordersId; archiveId];
     ModelObject.teamIds := Some [platformId];
     ModelObject.technologies := None |}.

Definition orders : ModelObject.t :=
  {| ModelObject.id := Some ordersId; ModelObject.name := Some "Orders";
     ModelObject.description := None; ModelObject.type := Some "app";
     ModelObject.status := Some "live"; ModelObject.external := Some false;
     ModelObject.handleId := Some "orders"; ModelObject.parentId := Some gatewayId;
     ModelObject.childIds := Some []; ModelObject.teamIds := None;
     ModelObject.technologies := None |}.

Definition archive : ModelObject.t :=
  {| ModelObject.id := Some archiveId; ModelObject.name := Some "Archive";
     ModelObject.description := None; ModelObject.type := Some "store";
     ModelObject.status := Some "live"; ModelObject.external := Some false;
     ModelObject.handleId := Some "archive"; ModelObject.parentId := Some gatewayId;
     ModelObject.childIds := Some []; ModelObject.teamIds := None;
     ModelObject.technologies := None |}.

Definition platform : Team.t :=
  {| Team.id := Some platformId; Team.name := Some "Platform";
     Team.userIds := Some ["user1"; "user2"] |}.

Definition places : ModelConnection.t := sampleConnection "places" gatewayId ordersId.
Definition stores : ModelConnection.t := sampleConnection "stores" ordersId archiveId.

Definition overview : Diagram.t :=
  {| Diagram.id := Some diagram1; Diagram.name := Some "Overview";
     Diagram.objectIds := Some [gatewayId; ordersId] |}.

(** *** Sample answers as JSON

  The JSON values of the samples: no numbers, and strings that need no
  escaping. *)

#[warnings="-register-all"]
Inductive Tree :=
| TNull
| TBool (b : bool)
| TString (s : string)
| TArray (items : list Tree)
| TObject (properties : list (string * Tree)).

(** The JSON text of a value, as the remote API sends it. *)
Fixpoint print (v : Tree) : string :=
  match v with
  | TNull => "null"
  | TBool b => ofBool b
  | TString s => quote +:+ s +:+ quote
  | TArray items => "[" +:+ join "," (map print items) +:+ "]"
  | TObject properties =>
      "{" +:+ join "," (map (λ p, quote +:+ p.1 +:+ quote +:+ ":" +:+ print p.2) properties)
      +:+ "}"
  end.

(** [JSON.stringify(v, null, 2)]. *)
Fixpoint pretty (indent : string) (v : Tree) : string :=
  let inner := indent +:+ "  " in
  match v with
  | TNull => "null"
  | TBool b => ofBool b
  | TString s => quote +:+ s +:+ quote
  | TArray [] => "[]"
  | TArray items =>
      "[" +:+ Format.nl
      +:+ join ("," +:+ Format.nl) (map (λ item, inner +:+ pretty inner item) items)
      +:+ Format.nl +:+ indent +:+ "]"
  | TObject [] => "{}"
  | TObject properties =>
      "{" +:+ Format.nl
      +:+ join ("," +:+ Format.nl)
            (map (λ p, inner +:+ quote +:+ p.1 +:+ quote +:+ ": " +:+ pretty inner p.2)
                 properties)
      +:+ Format.nl +:+ indent +:+ "}"
  end.

(** [v.name]. *)
Definition field (name : string) (v : Tree) : option Tree :=
  match v with
  | TObject properties =>
      snd <$> List.find (λ p, bool_decide (p.1 = name)) properties
  | _ => None
  end.

Definition asString (v : option Tree) : option string :=
  match v with
  | Some (TString s) => Some s
  | _ => None
  end.

Definition asBool (v : option Tree) : option bool :=
  match v with
  | Some (TBool b) => Some b
  | _ => None
  end.

Definition asArray (v : option Tree) : option (list Tree) :=
  match v with
  | Some (TArray items) => Some items
  | _ => None
  end.

Definition asStrings (v : option Tree) : option (list string) :=
  match v with
  | Some (TArray items) => Some (omap (λ item, asString (Some item)) items)
  | _ => None
  end.

(** The code units of a string of ASCII characters. *)
Definition unitsOfAscii (s : string) : Utf16.t :=
  map N_of_ascii (list_ascii_of_string s).

(** The values read through the interfaces of [types.ts]. *)
Definition readModelObject (v : Tree) : ModelObject.t :=
  {| ModelObject.id := asString (field "id" v);
     ModelObject.name := asString (field "name" v);
     ModelObject.description := unitsOfAscii <$> asString (field "description" v);
     ModelObject.type := asString (field "type" v);
     ModelObject.status := asString (field "status" v);
     ModelObject.external := asBool (field "external" v);
     ModelObject.handleId := asString (field "handleId" v);
     ModelObject.parentId := asString (field "parentId" v);
     ModelObject.childIds := asStrings (field "childIds" v);
     ModelObject.teamIds := asStrings (field "teamIds" v);
     ModelObject.technologies :=
       match field "technologies" v with
       | Some (TObject entries) =>
           Some (map (λ e, (e.1, asString (field "name" e.2))) entries)
       | _ => None
       end |}.

Definition readCatalogTechnology (v : Tree) : CatalogTechnology.t :=
  {| CatalogTechnology.id := asString (field "id" v);
     CatalogTechnology.name := asString (field "name" v);
     CatalogTechnology.nameShort := asString (field "nameShort" v);
     CatalogTechnology.description := asString (field "description" v);
     CatalogTechnology.docsUrl := asString (field "docsUrl" v);
     CatalogTechnology.websiteUrl := asString (field "websiteUrl" v);
     CatalogTechnology.status := asString (field "status" v);
     CatalogTechnology.type := asString (field "type" v);
     CatalogTechnology.provider := asString (field "provider" v);
     CatalogTechnology.category := asString (field "category" v);
     CatalogTechnology.defaultSlug := asString (field "defaultSlug" v) |}.

Definition readTeam (v : Tree) : Team.t :=
  {| Team.id := asString (field "id" v);
     Team.name := asString (field "name" v);
     Team.userIds := asStrings (field "userIds" v) |}.

Definition readModelConnection (v : Tree) : ModelConnection.t :=
  {| ModelConnection.name := asString (field "name" v);
     ModelConnection.originId := tpl (asString (field "originId" v));
     ModelConnection.targetId := tpl (asString (field "targetId" v)) |}.

Definition readDiagram (v : Tree) : Diagram.t :=
  {| Diagram.id := asString (field "id" v);
     Diagram.name := asString (field "name" v);
     Diagram.objectIds := asStrings (field "objectIds" v) |}.

(** The JSON value of a record of the samples. *)
Definition optional (name : string) (v : option Tree) : list (string * Tree) :=
  match v with
  | Some v => [(name, v)]
  | None => []
  end.

Definition ofStrings (l : list string) : Tree := TArray (map TString l).

Definition jsonOfModelObject (o : ModelObject.t) : Tree :=
  TObject (optional "id" (TString <$> ModelObject.id o)
           ++ optional "name" (TString <$> ModelObject.name o)
           ++ optional "type" (TString <$> ModelObject.type o)
           ++ optional "status" (TString <$> ModelObject.status o)
           ++ optional "external" (TBool <$> ModelObject.external o)
           ++ optional "handleId" (TString <$> ModelObject.handleId o)
           ++ optional "parentId" (TString <$> ModelObject.parentId o)
           ++ optional "childIds" (ofStrings <$> ModelObject.childIds o)
           ++ optional "teamIds" (ofStrings <$> ModelObject.teamIds o)).

Definition jsonOfTeam (t : Team.t) : Tree :=
  TObject (optional "id" (TString <$> Team.id t)
           ++ optional "name" (TString <$> Team.name t)
           ++ optional "userIds" (ofStrings <$> Team.userIds t)).

Definition jsonOfModelConnection (c : ModelConnection.t) : Tree :=
  TObject (optional "name" (TString <$> ModelConnection.name c)
           ++ [("originId", TString (ModelConnection.originId c));
               ("targetId", TString (ModelConnection.targetId c))]).

Definition jsonOfDiagram (d : Diagram.t) : Tree :=
  TObject (optional "id" (TString <$> Diagram.id d)
           ++ optional "name" (TString <$> Diagram.name d)
           ++ optional "objectIds" (ofStrings <$> Diagram.objectIds d)).

(** The answers of the sample API. *)
Definition objectAnswer : Tree := TObject [("modelObject", jsonOfModelObject gateway)].
Definition collectionAnswer : Tree :=
  TObject [("modelObjects", TArray (map jsonOfModelObject [gateway; orders; archive]))].
Definition teamsAnswer : Tree := TObject [("teams", TArray [jsonOfTeam platform])].
Definition outgoingAnswer : Tree :=
  TObject [("modelConnections", TArray [jsonOfModelConnection places])].
Definition incomingAnswer : Tree := TObject [("modelConnections", TArray [])].
Definition technologiesAnswer : Tree := TObject [("catalogTechnologies", TArray [])].
Definition diagramAnswer : Tree := TObject [("diagram", jsonOfDiagram overview)].
Definition notFound : Tree := TObject [("message", TString "Not found")].

Definition sampleAnswers : list Tree :=
  [objectAnswer; collectionAnswer; teamsAnswer; outgoingAnswer; incomingAnswer;
   technologiesAnswer; diagramAnswer; TObject []; TNull].

(** A parser for the texts of the sample answers; the empty text is not
    JSON. *)
Definition sampleParse (text : string) : Result Tree :=
  match List.find (λ v, bool_decide (print v = text)) sampleAnswers with
  | Some v => Ok v
  | None =>
      match text with
      | "" => Throw {| message := "Unexpected end of JSON input" |}
      | _ => Throw {| message := "Unexpected token in JSON" |}
      end
  end.

(** Whether [prefix] begins [s], and whether [part] occurs in [s]. *)
Fixpoint startsWith (prefix s : string) : bool :=
  match prefix, s with
  | "", _ => true
  | String a prefix', String b s' => if decide (a = b) then startsWith prefix' s' else false
  | _, _ => false
  end.

Fixpoint contains (part s : string) : bool :=
  startsWith part s
  || match s with
     | "" => false
     | String _ s' => contains part s'
     end.

(** The part of a URL before its query. *)
Fixpoint beforeQuery (url : string) : string :=
  match url with
  | "" => ""
  | String c url' => if decide (c = "?"%char) then "" else String c (beforeQuery url')
  end.

Definition respond (status : nat) (statusText bodyText : string) : FetchOutcome :=
  Responded {| Response.status := status; Response.statusText := statusText;
               Response.bodyText := bodyText |}.

(** A remote API that gives the same answer to every request. *)
Definition always (status : nat) (statusText bodyText : string)
    : list Request.t → Request.t → FetchOutcome :=
  λ _ _, respond status statusText bodyText.

(** A remote API that holds the sample landscape; a deletion is answered
    with an empty body. *)
Definition sampleApi : list Request.t → Request.t → FetchOutcome :=
  λ _ request,
    let url := Request.url request in
    let resource := beforeQuery url in
    let version :=
      "https://api.icepanel.io/v1/landscapes/" +:+ landscape1 +:+ "/versions/latest" in
    let organization := "https://api.icepanel.io/v1/organizations/org1" in
    if bool_decide (Request.method request = Some "DELETE")
    then respond 204 "No Content" ""
    else if bool_decide (resource = version +:+ "/model/objects/" +:+ gatewayId)
    then respond 200 "OK" (print objectAnswer)
    else if bool_decide (resource = version +:+ "/model/objects")
    then respond 200 "OK" (print collectionAnswer)
    else if bool_decide (resource = organization +:+ "/teams")
    then respond 200 "OK" (print teamsAnswer)
    else if bool_decide (resource = version +:+ "/model/connections")
    then respond 200 "OK"
           (print (if contains "filter%5BoriginId%5D=" url
                   then outgoingAnswer else incomingAnswer))
    else if bool_decide (resource = "https://api.icepanel.io/v1/catalog/technologies")
            || bool_decide (resource = organization +:+ "/technologies")
    then respond 200 "OK" (print technologiesAnswer)
    else if bool_decide (resource = version +:+ "/diagrams")
            || bool_decide (resource = version +:+ "/diagrams/" +:+ diagram1)
    then respond 200 "OK" (print diagramAnswer)
    else respond 404 "Not Found" (print notFound).

(** An environment over a given network.  The fuzzy search of the samples
    keeps the first item. *)
Definition sampleEnv (network : list Request.t → Request.t → FetchOutcome) : Env :=
  {| API_KEY := "secret";
     ORGANIZATION_ID := "org1";
     ICEPANEL_API_BASE_URL := None;
     ICEPANEL_APP_BASE_URL := None;
     network := network;
     Json := Tree;
     JSON_parse := sampleParse;
     JSON_stringify := pretty "";
     is_null := λ v, match v with TNull => true | _ => false end;
     view_id := λ v, asString (field "id" v);
     view_name := λ v, asString (field "name" v);
     view_modelObjects := λ v, map readModelObject <$> asArray (field "modelObjects" v);
     view_modelObject := λ v, readModelObject <$> field "modelObject" v;
     view_catalogTechnologies :=
       λ v, map readCatalogTechnology <$> asArray (field "catalogTechnologies" v);
     view_teams := λ v, map readTeam <$> asArray (field "teams" v);
     view_modelConnections :=
       λ v, map readModelConnection <$> asArray (field "modelConnections" v);
     view_diagram := λ v, readDiagram <$> field "diagram" v;
     Fuse_search := λ A _ items _, take 1 items;
     Fuse_search_undefined := λ A _ _, Throw (cannotRead "undefined" "length") |}.

(** The sample landscape behind the sample API. *)
Definition sample : Env := sampleEnv sampleApi.

(** The filter of the scenario of the specification. *)
Definition sampleFilter : Filter :=
  [("type", FArray [SString "system"; SString "actor"]);
   ("external", FScalar (SBool false));
   ("parentId", FNull);
   ("name", FUndefined)].

Definition sampleArgs (search : option string) : Main.GetModelObjectsArgs :=
  {| Main.landscapeId := landscape1; Main.domainId := None; Main.external := false;
     Main.name := None; Main.parentId := None; Main.status := None;
     Main.type_ := Some (Many ["system"; "actor"]); Main.technologyId := None;
     Main.teamId := None; Main.search := search |}.

(** ** Vocabulary of the further properties *)

(** A computation only adds requests to those issued before it, at most [n]
    of them, and each of them satisfies [P]. *)
Definition Issues {A} (P : Request.t → Prop) (n : nat) (c : M A) : Prop :=
  ∀ tr, ∃ suffix, (c tr).2 = tr ++ suffix ∧ (length suffix ≤ n)%nat ∧ Forall P suffix.

(** A request goes to the configured API and carries the three headers of
    the client, the API key among them. *)
Definition addressed (env : Env) (r : Request.t) : Prop :=
  (∃ path, Request.url r = Icepanel.API_BASE_URL env +:+ path)
  ∧ Request.headers r
    = [("Accept", "application/json");
       ("Content-Type", "application/json");
       ("Authorization", "ApiKey " +:+ API_KEY env)].

(** A request that reads: the default method of [fetch] and no body. *)
Definition reading (r : Request.t) : Prop :=
  Request.method r = None ∧ Request.body r = None.

(** The tools whose names say that they query. *)
Definition queries (call : Main.ToolCall) : bool :=
  match call with
  | Main.GetLandscapes | Main.GetLandscape _ | Main.GetModelObjects _
  | Main.GetModelObject _ _ _ | Main.GetModelObjectRelationships _ _
  | Main.GetTechnologyCatalog _ | Main.GetTeams _ | Main.VerifyLandscape _
  | Main.GetDiagrams _ | Main.GetDiagram _ _ => true
  | _ => false
  end.

(** The request for the connections of a landscape that have a given object
    at one end; [key] is [originId] or [targetId]. *)
Definition connectionsRequest (env : Env) (landscapeId key modelObjectId : string)
    : Request.t :=
  Icepanel.requestOf env
    ("/landscapes/" +:+ landscapeId +:+ "/versions/latest/model/connections?"
     +:+ URLSearchParams.toString [("filter[" +:+ key +:+ "]", modelObjectId)])
    Icepanel.noInit.

(** The filter the tool [getTechnologyCatalog] builds from its arguments,
    without the status. *)
Definition catalogFilter (args : Main.GetTechnologyCatalogArgs) : Filter :=
  [("provider", filterOfNullable filterOfOneOrMany (Main.provider args));
   ("type", filterOfNullable filterOfOneOrMany (Main.catalogType args));
   ("restrictions", filterOfOneOrMany (Main.restrictions args))].

(** The two requests of [getTechnologyCatalog]: the catalog, restricted to
    approved technologies, and the technologies of the organization. *)
Definition catalogRequest (env : Env) (args : Main.GetTechnologyCatalogArgs) : Request.t :=
  Icepanel.requestOf env
    ("/catalog/technologies"
     +:+ Icepanel.querySuffix
           (Icepanel.technologiesParams
              {| Options.filter :=
                   Some (catalogFilter args ++ [("status", FScalar (SString "approved"))]) |}))
    Icepanel.noInit.

Definition organizationRequest (env : Env) (args : Main.GetTechnologyCatalogArgs)
    : Request.t :=
  Icepanel.requestOf env
    ("/organizations/" +:+ ORGANIZATION_ID env +:+ "/technologies"
     +:+ Icepanel.querySuffix
           (Icepanel.technologiesParams {| Options.filter := Some (catalogFilter args) |}))
    Icepanel.noInit.

(** The request that deletes a diagram. *)
Definition deleteRequest (env : Env) (landscapeId diagramId : string) : Request.t :=
  Icepanel.requestOf env
    ("/landscapes/" +:+ landscapeId +:+ "/versions/latest/diagrams/" +:+ diagramId)
    {| Icepanel.method := Some "DELETE"; Icepanel.body := None |}.

(** The data the tool [createDiagram] hands to the client. *)
Definition createData (args : Main.DiagramArgs) : Icepanel.DiagramData :=
  {| Icepanel.name := Main.diagramName args;
     Icepanel.viewType := Main.viewType args;
     Icepanel.description := Main.diagramDescription args;
     Icepanel.rootObjectId := Main.rootObjectId args;
     Icepanel.objectIds := Some (default [] (Main.objectIds args)) |}.

(** The first [n] requests of [suffix], issued one after the other after
    those of [tr], were all answered without failure. *)
Definition answeredUpTo (env : Env) (tr suffix : list Request.t) (n : nat) : Prop :=
  ∀ i r, (i < n)%nat → suffix !! i = Some r →
         ∃ json, answer env (tr ++ take i suffix) r = Ok json.

(** A computation stops at the first call that fails: of the requests it
    issues all but the last were answered without failure, and all of them
    when it completes. *)
Definition Sequential (env : Env) {A} (c : M A) : Prop :=
  ∀ tr, ∃ suffix,
    (c tr).2 = tr ++ suffix
    ∧ answeredUpTo env tr suffix (length suffix - 1)
    ∧ (∀ a, (c tr).1 = Ok a → answeredUpTo env tr suffix (length suffix)).

(** A call of one of the functions the client exports, with its arguments. *)
Inductive ClientCall :=
| CallGetLandscapes (organizationId : string)
| CallGetLandscape (organizationId landscapeId : string)
| CallCreateLandscape (organizationId : string) (data : JsonObject)
| CallUpdateLandscape (organizationId landscapeId : string) (data : JsonObject)
| CallDeleteLandscape (organizationId landscapeId : string)
| CallGetVersion (landscapeId versionId : string)
| CallCreateVersion (landscapeId : string) (data : JsonObject)
| CallGetCatalogTechnologies (options : Options.t)
| CallGetOrganizationTechnologies (organizationId : string) (options : Options.t)
| CallCreateOrganizationTechnology (organizationId : string) (data : JsonObject)
| CallGetTeams (organizationId : string)
| CallGetModelObjects (landscapeId versionId : string) (options : Options.t)
| CallGetModelObject (landscapeId modelObjectId versionId : string)
| CallCreateModelObject (landscapeId : string) (data : JsonObject) (versionId : string)
| CallUpdateModelObject (landscapeId objectId : string) (data : JsonObject)
    (versionId : string)
| CallDeleteModelObject (landscapeId objectId versionId : string)
| CallGetModelConnections (landscapeId versionId : string) (options : Options.t)
| CallGetConnection (landscapeId versionId connectionId : string)
| CallCreateModelConnection (landscapeId : string) (data : JsonObject) (versionId : string)
| CallUpdateModelConnection (landscapeId connectionId : string) (data : JsonObject)
    (versionId : string)
| CallDeleteModelConnection (landscapeId connectionId versionId : string)
| CallCreateDomain (landscapeId : string) (data : JsonObject) (versionId : string)
| CallUpdateDomain (landscapeId domainId : string) (data : JsonObject) (versionId : string)
| CallGetDiagrams (landscapeId versionId : string)
| CallGetDiagram (landscapeId diagramId versionId : string)
| CallCreateDiagram (landscapeId : string) (data : Icepanel.DiagramData)
    (versionId : string)
| CallUpdateDiagram (landscapeId diagramId : string) (data : Icepanel.DiagramData)
    (versionId : string)
| CallDeleteDiagram (landscapeId diagramId versionId : string).

(** The name of the function called. *)
Definition clientName (call : ClientCall) : string :=
  match call with
  | CallGetLandscapes _ => "getLandscapes"
  | CallGetLandscape _ _ => "getLandscape"
  | CallCreateLandscape _ _ => "createLandscape"
  | CallUpdateLandscape _ _ _ => "updateLandscape"
  | CallDeleteLandscape _ _ => "deleteLandscape"
  | CallGetVersion _ _ => "getVersion"
  | CallCreateVersion _ _ => "createVersion"
  | CallGetCatalogTechnologies _ => "getCatalogTechnologies"
  | CallGetOrganizationTechnologies _ _ => "getOrganizationTechnologies"
  | CallCreateOrganizationTechnology _ _ => "createOrganizationTechnology"
  | CallGetTeams _ => "getTeams"
  | CallGetModelObjects _ _ _ => "getModelObjects"
  | CallGetModelObject _ _ _ => "getModelObject"
  | CallCreateModelObject _ _ _ => "createModelObject"
  | CallUpdateModelObject _ _ _ _ => "updateModelObject"
  | CallDeleteModelObject _ _ _ => "deleteModelObject"
  | CallGetModelConnections _ _ _ => "getModelConnections"
  | CallGetConnection _ _ _ => "getConnection"
  | CallCreateModelConnection _ _ _ => "createModelConnection"
  | CallUpdateModelConnection _ _ _ _ => "updateModelConnection"
  | CallDeleteModelConnection _ _ _ => "deleteModelConnection"
  | CallCreateDomain _ _ _ => "createDomain"
  | CallUpdateDomain _ _ _ _ => "updateDomain"
  | CallGetDiagrams _ _ => "getDiagrams"
  | CallGetDiagram _ _ _ => "getDiagram"
  | CallCreateDiagram _ _ _ => "createDiagram"
  | CallUpdateDiagram _ _ _ _ => "updateDiagram"
  | CallDeleteDiagram _ _ _ => "deleteDiagram"
  end.

(** Running the function called, its result forgotten. *)
Definition clientCall (env : Env) (call : ClientCall) : M unit :=
  let forget {A} (c : M A) : M unit := bind c (λ _, ret tt) in
  match call with
  | CallGetLandscapes o => forget (Icepanel.getLandscapes env o)
  | CallGetLandscape o l => forget (Icepanel.getLandscape env o l)
  | CallCreateLandscape o d => forget (Icepanel.createLandscape env o d)
  | CallUpdateLandscape o l d => forget (Icepanel.updateLandscape env o l d)
  | CallDeleteLandscape o l => forget (Icepanel.deleteLandscape env o l)
  | CallGetVersion l v => forget (Icepanel.getVersion env l v)
  | CallCreateVersion l d => forget (Icepanel.createVersion env l d)
  | CallGetCatalogTechnologies opts => forget (Icepanel.getCatalogTechnologies env opts)
  | CallGetOrganizationTechnologies o opts =>
      forget (Icepanel.getOrganizationTechnologies env o opts)
  | CallCreateOrganizationTechnology o d =>
      forget (Icepanel.createOrganizationTechnology env o d)
  | CallGetTeams o => forget (Icepanel.getTeams env o)
  | CallGetModelObjects l v opts => forget (Icepanel.getModelObjects env l v opts)
  | CallGetModelObject l i v => forget (Icepanel.getModelObject env l i v)
  | CallCreateModelObject l d v => forget (Icepanel.createModelObject env l d v)
  | CallUpdateModelObject l i d v => forget (Icepanel.updateModelObject env l i d v)
  | CallDeleteModelObject l i v => forget (Icepanel.deleteModelObject env l i v)
  | CallGetModelConnections l v opts => forget (Icepanel.getModelConnections env l v opts)
  | CallGetConnection l v i => forget (Icepanel.getConnection env l v i)
  | CallCreateModelConnection l d v => forget (Icepanel.createModelConnection env l d v)
  | CallUpdateModelConnection l i d v =>
      forget (Icepanel.updateModelConnection env l i d v)
  | CallDeleteModelConnection l i v => forget (Icepanel.deleteModelConnection env l i v)
  | CallCreateDomain l d v => forget (Icepanel.createDomain env l d v)
  | CallUpdateDomain l i d v => forget (Icepanel.updateDomain env l i d v)
  | CallGetDiagrams l v => forget (Icepanel.getDiagrams env l v)
  | CallGetDiagram l i v => forget (Icepanel.getDiagram env l i v)
  | CallCreateDiagram l d v => forget (Icepanel.createDiagram env l d v)
  | CallUpdateDiagram l i d v => forget (Icepanel.updateDiagram env l i d v)
  | CallDeleteDiagram l i v => forget (Icepanel.deleteDiagram env l i v)
  end.

(** The HTTP method a function name announces; [None] stands for GET. *)
Definition announcedMethod (name : string) : option string :=
  if startsWith "create" name then Some "POST"
  else if startsWith "update" name then Some "PATCH"
  else if startsWith "delete" name then Some "DELETE"
  else None.

(** Sample arguments of the diagram tools and of the catalog tool, and an
    environment whose remote API answers every request with an empty
    body. *)
Definition sampleDiagramArgs (objectIds : option (list string)) : Main.DiagramArgs :=
  {| Main.diagramLandscapeId := landscape1; Main.diagramName := Some "Overview";
     Main.viewType := Some "landscape"; Main.diagramDescription := None;
     Main.rootObjectId := None; Main.objectIds := objectIds |}.

Definition sampleCatalogArgs : Main.GetTechnologyCatalogArgs :=
  {| Main.provider := Some (Some (One "aws")); Main.catalogType := None;
     Main.restrictions := None; Main.catalogSearch := "" |}.

Definition emptyBodies : Env := sampleEnv (always 204 "No Content" "").

(** The answers of an API that sends the empty object to every request. *)
Definition emptyObjects : Env := sampleEnv (always 200 "OK" "{}").

(** ** Vocabulary of the revised statements *)

(** A filter as the declared parameter types allow it: [labels], when it is
    set, holds a record of strings ([labels?: Record<string, string>],
    lines 1149 and 1298). *)
Definition TypedLabels (f : Filter) : Prop :=
  ∀ v, ("labels", v) ∈ f → v = FUndefined ∨ ∃ entries, v = FRecord entries.

(** *** Reading a query string, as its receiver does

  The parser of [application/x-www-form-urlencoded]: the query is split at
  [&], each non-empty part at its first [=], and names and values are
  percent-decoded, a [+] standing for a space. *)

Definition hexValue (c : ascii) : option nat :=
  let n := nat_of_ascii c in
  if ((48 <=? n) && (n <=? 57))%nat then Some (n - 48)%nat
  else if ((65 <=? n) && (n <=? 70))%nat then Some (n - 55)%nat
  else if ((97 <=? n) && (n <=? 102))%nat then Some (n - 87)%nat
  else None.

Fixpoint decode (s : string) : string :=
  match s with
  | "" => ""
  | String c s' =>
      if decide (c = "+"%char) then String " " (decode s')
      else if decide (c = "%"%char) then
        match s' with
        | String a (String b s'') =>
            match hexValue a, hexValue b with
            | Some x, Some y => String (ascii_of_nat (16 * x + y)) (decode s'')
            | _, _ => String c (decode s')
            end
        | _ => String c (decode s')
        end
      else String c (decode s')
  end.

(** The parts of [s] between the occurrences of [c]. *)
Fixpoint splitOn (c : ascii) (s : string) : list string :=
  match s with
  | "" => [""]
  | String d s' =>
      if decide (d = c) then "" :: splitOn c s'
      else match splitOn c s' with
           | part :: parts => String d part :: parts
           | [] => [String d ""]
           end
  end.

(** [s] cut at the first occurrence of [c]. *)
Fixpoint cut (c : ascii) (s : string) : string * string :=
  match s with
  | "" => ("", "")
  | String d s' =>
      if decide (d = c) then ("", s')
      else (String d (cut c s').1, (cut c s').2)
  end.

Definition parseQuery (query : string) : list (string * string) :=
  map (λ part, (decode (cut "=" part).1, decode (cut "=" part).2))
      (filter (λ part, part ≠ "") (splitOn "&" query)).

(** What the serializer writes for one byte. *)
Definition encodeByte (c : ascii) : string :=
  if decide (c = " "%char) then "+"
  else if URLSearchParams.unreserved c then String c ""
  else URLSearchParams.percentEncodeByte c.

(** The failure of the call issued last is the failure of the computation:
    when the request a computation issued last was answered by a failure,
    the computation throws that failure. *)
Definition Surfacing (env : Env) {A} (c : M A) : Prop :=
  ∀ tr, ∃ suffix,
    (c tr).2 = tr ++ suffix
    ∧ ∀ before request e,
        suffix = before ++ [request] →
        answer env (tr ++ before) request = Throw e →
        (c tr).1 = Throw e.

(** What a computation returns satisfies [Q], when it returns. *)
Definition Returns {A} (Q : A → Prop) (c : M A) : Prop :=
  ∀ tr a, (c tr).1 = Ok a → Q a.

(** ** The filter encoder *)

Section FilterEncoder.

Import Icepanel.

Lemma fold_append {A} (name : string) (f : A → string) (items : list A) params :
  fold_left (λ ps item, URLSearchParams.append ps name (f item)) items params
  = params ++ map (λ item, (name, f item)) items.
Proof.
  revert params. induction items as [|x items IH]; intros params; simpl.
  - by rewrite app_nil_r.
  - rewrite IH. unfold URLSearchParams.append. by rewrite <- app_assoc.
Qed.

Lemma fold_append_labels (entries : list (string * string)) params :
  fold_left (λ ps e, URLSearchParams.append ps ("filter[labels][" +:+ e.1 +:+ "]") e.2)
            entries params
  = params ++ map (λ e, ("filter[labels][" +:+ e.1 +:+ "]", e.2)) entries.
Proof.
  revert params. induction entries as [|x entries IH]; intros params; simpl.
  - by rewrite app_nil_r.
  - rewrite IH. unfold URLSearchParams.append. by rewrite <- app_assoc.
Qed.

(** What one entry adds to the parameters. *)
Lemma appendEntry_app params key value :
  appendEntry params key value = params ++ appendEntry [] key value.
Proof.
  destruct value as [| |v|items|entries]; simpl;
    rewrite ?fold_append, ?app_nil_r; try done.
Qed.

Lemma appendEntryLabels_app params key value :
  appendEntryLabels params key value
  = match appendEntryLabels [] key value with
    | Ok ps => Ok (params ++ ps)
    | Throw e => Throw e
    end.
Proof.
  unfold appendEntryLabels.
  destruct value as [| |v|items|entries]; simpl.
  - by rewrite app_nil_r.
  - destruct (bool_decide (key = "labels")); simpl; done.
  - destruct (bool_decide (key = "labels")); simpl; [destruct v; simpl|]; done.
  - destruct (bool_decide (key = "labels")); simpl;
      by rewrite ?fold_append_labels, ?fold_append.
  - destruct (bool_decide (key = "labels")); simpl;
      by rewrite ?fold_append_labels.
Qed.

(** The loops as concatenations of what the entries add. *)
Lemma technologiesParams_flat (f : Filter) :
  technologiesParams {| Options.filter := Some f |}
  = flat_map (λ e, appendEntry [] e.1 e.2) f.
Proof.
  unfold technologiesParams; simpl.
  assert (H : ∀ params, fold_left (λ ps e, appendEntry ps e.1 e.2) f params
                        = params ++ flat_map (λ e, appendEntry [] e.1 e.2) f).
  { induction f as [|[k v] f IH]; intros params; simpl.
    - by rewrite app_nil_r.
    - rewrite IH, (appendEntry_app params). by rewrite <- app_assoc. }
  by rewrite H.
Qed.


Lemma appendEntryLabels_throws key value e :
  appendEntryLabels [] key value = Throw e → key = "labels" ∧ value = FNull.
Proof.
  unfold appendEntryLabels.
  destruct value as [| |v|items|entries]; simpl; try done;
    case_bool_decide; simpl; try done.
  destruct v; simpl; done.
Qed.

Lemma forEachEntry_flat (f : Filter) params :
  ("labels", FNull) ∉ f →
  forEachEntry appendEntryLabels f params = Ok (params ++ flat_map added f).
Proof.
  revert params. induction f as [|[k v] f IH]; intros params Hnull; simpl.
  - by rewrite app_nil_r.
  - rewrite appendEntryLabels_app. unfold added at 1; simpl.
    destruct (appendEntryLabels [] k v) as [ps|e] eqn:Hkv.
    + rewrite IH; [by rewrite <- app_assoc|].
      by apply not_elem_of_cons in Hnull as [_ ?].
    + apply appendEntryLabels_throws in Hkv as [-> ->].
      by apply not_elem_of_cons in Hnull as [? _].
Qed.

Lemma modelParams_flat (f : Filter) :
  ("labels", FNull) ∉ f →
  modelParams {| Options.filter := Some f |} = Ok (flat_map added f).
Proof. intros H. unfold modelParams; simpl. by rewrite forEachEntry_flat. Qed.

Lemma forEachEntry_null_labels (f : Filter) params :
  ("labels", FNull) ∈ f →
  forEachEntry appendEntryLabels f params
  = Throw {| message := "Cannot convert undefined or null to object" |}.
Proof.
  revert params. induction f as [|[k v] f IH]; intros params Hin.
  - by apply elem_of_nil in Hin.
  - simpl. rewrite appendEntryLabels_app.
    destruct (decide ((k, v) = ("labels", FNull))) as [[= -> ->]|Hne]; [done|].
    destruct (appendEntryLabels [] k v) as [ps|e] eqn:Hkv.
    + apply IH. by apply elem_of_cons in Hin as [?|?].
    + apply appendEntryLabels_throws in Hkv as [-> ->]. done.
Qed.


(** *** Names of the emitted pairs *)

Lemma filter_none {A} (P : A → Prop) `{∀ x, Decision (P x)} (l : list A) :
  (∀ x, x ∈ l → ¬ P x) → filter P l = [].
Proof.
  induction l as [|x l IH]; intros Hl; [done|].
  rewrite filter_cons_False; [|apply Hl; left].
  apply IH. intros y Hy. apply Hl. by right.
Qed.

Lemma filter_all {A} (P : A → Prop) `{∀ x, Decision (P x)} (l : list A) :
  (∀ x, x ∈ l → P x) → filter P l = l.
Proof.
  induction l as [|x l IH]; intros Hl; [done|].
  rewrite filter_cons_True; [|apply Hl; left].
  f_equal. apply IH. intros y Hy. apply Hl. by right.
Qed.

(** Two key names followed by a closing bracket start equal strings only
    when they are the same name. *)
Lemma bracket_split (a b x y : string) :
  keyName a → keyName b →
  a +:+ String "]" x = b +:+ String "]" y → a = b ∧ x = y.
Proof.
  unfold keyName. revert b.
  induction a as [|c a IH]; intros [|d b]; simpl; intros Ha Hb Heq.
  - by injection Heq as ->.
  - injection Heq as <- _. by rewrite decide_True in Hb.
  - injection Heq as -> _. by rewrite decide_True in Ha.
  - injection Heq as -> Heq.
    destruct (decide (d = "]"%char)); [done|].
    destruct (IH b Ha Hb Heq) as [-> ->]. done.
Qed.

(** Every pair an entry adds is named [filter[<key>]] followed by more. *)
Lemma appendEntry_names key value p :
  p ∈ appendEntry [] key value → ∃ rest, p.1 = "filter[" +:+ key +:+ String "]" rest.
Proof.
  destruct value as [| |v|items|entries]; simpl; rewrite ?fold_append; simpl;
    unfold URLSearchParams.append; simpl; intros Hp.
  - by apply elem_of_nil in Hp.
  - apply list_elem_of_singleton in Hp as ->. by exists "".
  - apply list_elem_of_singleton in Hp as ->. by exists "".
  - apply list_elem_of_fmap in Hp as (item & -> & _). by exists "[]".
  - apply list_elem_of_singleton in Hp as ->. by exists "".
Qed.

Lemma added_names key value p :
  p ∈ added (key, value) → ∃ rest, p.1 = "filter[" +:+ key +:+ String "]" rest.
Proof.
  unfold added, appendEntryLabels; simpl.
  destruct value as [| |v|items|entries]; simpl.
  - intros Hp. by apply elem_of_nil in Hp.
  - case_bool_decide; simpl; intros Hp; [by apply elem_of_nil in Hp|].
    apply list_elem_of_singleton in Hp as ->. by exists "".
  - replace (bool_decide (key = "labels") && bool_decide (typeof (FScalar v) = "object"))
      with false by (destruct v; simpl; by rewrite andb_false_r).
    intros Hp. apply list_elem_of_singleton in Hp as ->. by exists "".
  - case_bool_decide as Hk; simpl; rewrite ?fold_append_labels, ?fold_append; simpl; intros Hp.
    + apply list_elem_of_fmap in Hp as (e & -> & _). subst key.
      by exists ("[" +:+ e.1 +:+ "]").
    + apply list_elem_of_fmap in Hp as (item & -> & _). by exists "[]".
  - case_bool_decide as Hk; simpl; rewrite ?fold_append_labels; simpl; intros Hp.
    + apply list_elem_of_fmap in Hp as (e & -> & _). subst key.
      by exists ("[" +:+ e.1 +:+ "]").
    + unfold URLSearchParams.append in Hp; simpl in Hp.
      apply list_elem_of_singleton in Hp as ->. by exists "".
Qed.

(** Entries under other keys add no pair named after [k]. *)
Lemma others_silent (contribution : string * FilterValue → URLSearchParams.t)
    (f : Filter) (k rest : string) :
  (∀ e p, p ∈ contribution e → ∃ r, p.1 = "filter[" +:+ e.1 +:+ String "]" r) →
  keyName k → Forall keyName f.*1 → k ∉ f.*1 →
  pairsNamed ("filter[" +:+ k +:+ String "]" rest) (flat_map contribution f) = [].
Proof.
  intros Hnames Hk Hf Hnotin. apply filter_none. intros p Hp Hname.
  apply list_elem_of_In, in_flat_map in Hp as ([k' v'] & He%list_elem_of_In & Hp%list_elem_of_In).
  destruct (Hnames _ _ Hp) as [r Hr]. simpl in Hr.
  rewrite Hname in Hr. apply String.app_inj in Hr.
  assert (keyName k') as Hk'.
  { rewrite Forall_forall in Hf. apply Hf. apply list_elem_of_fmap. by exists (k', v'). }
  destruct (bracket_split _ _ _ _ Hk Hk' Hr) as [-> _].
  apply Hnotin, list_elem_of_fmap. by exists (k', v').
Qed.

(** The pairs named after the key of one entry are those the entry adds. *)
Lemma pairsNamed_entry (contribution : string * FilterValue → URLSearchParams.t)
    (f : Filter) (k rest : string) (v : FilterValue) :
  (∀ e p, p ∈ contribution e → ∃ r, p.1 = "filter[" +:+ e.1 +:+ String "]" r) →
  FilterDescription f → (k, v) ∈ f →
  pairsNamed ("filter[" +:+ k +:+ String "]" rest) (flat_map contribution f)
  = pairsNamed ("filter[" +:+ k +:+ String "]" rest) (contribution (k, v)).
Proof.
  intros Hnames [Hnodup Hkeys] Hin.
  induction f as [|[k' v'] f IH]; [by apply elem_of_nil in Hin|].
  rewrite fmap_cons in Hnodup, Hkeys.
  apply NoDup_cons in Hnodup as [Hfresh Hnodup].
  apply Forall_cons in Hkeys as [Hk' Hkeys].
  change (flat_map contribution ((k', v') :: f))
    with (contribution (k', v') ++ flat_map contribution f).
  unfold pairsNamed in *. rewrite filter_app.
  apply elem_of_cons in Hin as [[= <- <-]|Hin].
  - fold (pairsNamed ("filter[" +:+ k +:+ String "]" rest) (flat_map contribution f)).
    rewrite (others_silent contribution f k rest); [by rewrite app_nil_r|done..].
  - rewrite IH by done.
    rewrite (filter_none _ (contribution (k', v'))); [done|].
    intros p Hp Hname. destruct (Hnames _ _ Hp) as [r Hr]. simpl in Hr.
    rewrite Hname in Hr. apply String.app_inj in Hr.
    assert (keyName k) as Hk.
    { rewrite Forall_forall in Hkeys. apply Hkeys, list_elem_of_fmap. by exists (k, v). }
    destruct (bracket_split _ _ _ _ Hk Hk' Hr) as [-> _].
    apply Hfresh, list_elem_of_fmap. by exists (k', v).
Qed.

(** *** Lists, nulls and scalars *)

Lemma added_list (k : string) (items : list Scalar) :
  k ≠ "labels" →
  added (k, FArray items) = map (λ item, ("filter[" +:+ k +:+ "][]", scalarToString item)) items.
Proof.
  intros Hk. unfold added, appendEntryLabels; simpl.
  rewrite bool_decide_eq_false_2 by done. simpl. by rewrite fold_append.
Qed.

Lemma added_null (k : string) :
  k ≠ "labels" → added (k, FNull) = [("filter[" +:+ k +:+ "]", "null")].
Proof.
  intros Hk. unfold added, appendEntryLabels; simpl.
  by rewrite bool_decide_eq_false_2 by done.
Qed.

(** A filter of the declared type holds neither a list nor [null] under
    [labels]. *)
Lemma typed_labels_key (f : Filter) (k : string) (v : FilterValue) :
  TypedLabels f → (k, v) ∈ f → (v = FNull ∨ ∃ items, v = FArray items) → k ≠ "labels".
Proof.
  intros Hf Hin Hv ->. destruct (Hf v Hin) as [->|[entries ->]];
    destruct Hv as [?|[items ?]]; done.
Qed.

Lemma typed_labels_not_null (f : Filter) : TypedLabels f → ("labels", FNull) ∉ f.
Proof. intros Hf Hin. destruct (Hf _ Hin) as [?|[entries ?]]; done. Qed.

(** C1.  A list of length N under a key [k] of a filter description yields
    exactly the N pairs named [filter[k][]], one per element with the
    element converted to a string, in the order of the list: for the encoder
    of the technology functions, and for the encoder of the model functions
    on every filter of the declared type, in which [labels] holds a record
    of strings or nothing. *)
Theorem list_value_pairs (f : Filter) (k : string) (items : list Scalar) :
  FilterDescription f → (k, FArray items) ∈ f →
  let name := "filter[" +:+ k +:+ "][]" in
  let expected := map (λ item, (name, scalarToString item)) items in
  pairsNamed name (technologiesParams {| Options.filter := Some f |}) = expected
  ∧ length expected = length items
  ∧ (TypedLabels f →
     ∃ out, modelParams {| Options.filter := Some f |} = Ok out
            ∧ pairsNamed name out = expected).
Proof.
  intros Hf Hin. cbv zeta. split; [|split].
  - rewrite technologiesParams_flat.
    rewrite (pairsNamed_entry (λ e, appendEntry [] e.1 e.2) f k "[]" (FArray items));
      [|intros [k' v'] p; apply appendEntry_names|done..].
    simpl. rewrite fold_append. simpl.
    apply filter_all. intros p (item & -> & _)%list_elem_of_fmap. done.
  - apply length_map.
  - intros Htyped.
    assert (k ≠ "labels") as Hk by (eapply typed_labels_key; eauto).
    eexists. split; [by apply modelParams_flat, typed_labels_not_null|].
    rewrite (pairsNamed_entry added f k "[]" (FArray items));
      [|intros [k' v'] p; apply added_names|done..].
    rewrite added_list by done.
    apply filter_all. intros p (item & -> & _)%list_elem_of_fmap. done.
Qed.

(** C2.  An explicit [null] under a key [k] of a filter description yields
    exactly one pair named [filter[k]], with the value ["null"]: for the
    encoder of the technology functions, and for the encoder of the model
    functions on every filter of the declared type. *)
Theorem null_value_pair (f : Filter) (k : string) :
  FilterDescription f → (k, FNull) ∈ f →
  let name := "filter[" +:+ k +:+ "]" in
  pairsNamed name (technologiesParams {| Options.filter := Some f |}) = [(name, "null")]
  ∧ (TypedLabels f →
     ∃ out, modelParams {| Options.filter := Some f |} = Ok out
            ∧ pairsNamed name out = [(name, "null")]).
Proof.
  intros Hf Hin. cbv zeta. split.
  - rewrite technologiesParams_flat.
    rewrite (pairsNamed_entry (λ e, appendEntry [] e.1 e.2) f k "" FNull);
      [|intros [k' v'] p; apply appendEntry_names|done..].
    simpl. unfold pairsNamed, URLSearchParams.append. simpl. by rewrite filter_cons_True.
  - intros Htyped. eexists.
    split; [by apply modelParams_flat, typed_labels_not_null|].
    assert (k ≠ "labels") as Hk by (eapply typed_labels_key; eauto).
    rewrite (pairsNamed_entry added f k "" FNull);
      [|intros [k' v'] p; apply added_names|done..].
    rewrite added_null by done.
    unfold pairsNamed. by rewrite filter_cons_True.
Qed.

(** C3.  When every value of a filter is a scalar or unset (an explicit
    [null] is admitted as well, except under [labels]), both encoders emit
    as many pairs as there are keys that are set, and an unset key adds
    nothing. *)
Theorem scalar_pair_count (f : Filter) :
  Forall (λ e, scalarOrUnset e.2 ∨ (e.2 = FNull ∧ e.1 ≠ "labels")) f →
  length (technologiesParams {| Options.filter := Some f |}) = length (setKeys f)
  ∧ (∃ out, modelParams {| Options.filter := Some f |} = Ok out
            ∧ length out = length (setKeys f))
  ∧ (∀ params k, appendEntry params k FUndefined = params
                 ∧ appendEntryLabels params k FUndefined = Ok params).
Proof.
  intros Hf. split; [|split].
  - rewrite technologiesParams_flat. unfold setKeys. rewrite length_fmap.
    induction Hf as [|[k v] f Hv Hf IH]; [done|].
    simpl. rewrite length_app, IH, filter_cons.
    destruct Hv as [[Hv|[s Hv]]|[Hv _]]; simpl in Hv; subst v; simpl; done.
  - assert (("labels", FNull) ∉ f) as Hnull.
    { intros Hin. rewrite Forall_forall in Hf. specialize (Hf _ Hin). simpl in Hf.
      destruct Hf as [[?|[s ?]]|[_ ?]]; done. }
    eexists. split; [by apply modelParams_flat|].
    unfold setKeys. rewrite length_fmap. clear Hnull.
    induction Hf as [|[k v] f Hv Hf IH]; [done|].
    simpl. rewrite length_app, IH, filter_cons.
    destruct Hv as [[Hv|[s Hv]]|[Hv Hk]]; simpl in *; subst v; simpl; try done.
    + unfold added, appendEntryLabels; simpl.
      replace (bool_decide (k = "labels") && bool_decide (typeof (FScalar s) = "object"))
        with false by (destruct s; simpl; by rewrite andb_false_r).
      done.
    + by rewrite added_null.
  - done.
Qed.

End FilterEncoder.

(** ** Remote calls and the tools *)

(** What [apiRequest] does: one request, then its answer. *)
Lemma apiRequest_run (env : Env) path options tr :
  Icepanel.apiRequest env path options tr
  = (answer env tr (Icepanel.requestOf env path options),
     tr ++ [Icepanel.requestOf env path options]).
Proof.
  unfold Icepanel.apiRequest, bind, fetch, answer.
  destruct (network env tr _) as [response|e]; [|done].
  destruct (Response.ok response); done.
Qed.

Section Runs.

Variable env : Env.

Lemma bind_ok {A B} (c : M A) (k : A → M B) tr a tr' :
  c tr = (Ok a, tr') → bind c k tr = k a tr'.
Proof. intros H. unfold bind. by rewrite H. Qed.

Lemma bind_throw {A B} (c : M A) (k : A → M B) tr e tr' :
  c tr = (Throw e, tr') → bind c k tr = (Throw e, tr').
Proof. intros H. unfold bind. by rewrite H. Qed.

Lemma tryCatch_ok {A} (c : M A) handler tr a tr' :
  c tr = (Ok a, tr') → tryCatch c handler tr = (Ok a, tr').
Proof. intros H. unfold tryCatch. by rewrite H. Qed.

Lemma tryCatch_throw {A} (c : M A) handler tr e tr' :
  c tr = (Throw e, tr') → tryCatch c handler tr = handler e tr'.
Proof. intros H. unfold tryCatch. by rewrite H. Qed.


Lemma filters_no_labels args : ("labels", FNull) ∉ Main.filters args.
Proof.
  unfold Main.filters. intros H.
  repeat (apply elem_of_cons in H as [[=]|H]). by apply elem_of_nil in H.
Qed.

Lemma getModelObjects_run args tr :
  Icepanel.getModelObjects env (Main.landscapeId args) "latest"
    {| Options.filter := Some (Main.filters args) |} tr
  = (answer env tr (modelObjectsRequest env args), tr ++ [modelObjectsRequest env args]).
Proof.
  unfold Icepanel.getModelObjects.
  rewrite (modelParams_flat _ (filters_no_labels args)).
  unfold bind, lift. by rewrite apiRequest_run.
Qed.

Lemma getModelObject_run landscapeId modelObjectId tr :
  Icepanel.getModelObject env landscapeId modelObjectId "latest" tr
  = (answer env tr (objectRequest env landscapeId modelObjectId),
     tr ++ [objectRequest env landscapeId modelObjectId]).
Proof. apply apiRequest_run. Qed.

Lemma getTeams_run tr :
  Icepanel.getTeams env (ORGANIZATION_ID env) tr
  = (answer env tr (teamsRequest env), tr ++ [teamsRequest env]).
Proof. apply apiRequest_run. Qed.

Lemma getModelObjects_all_run landscapeId tr :
  Icepanel.getModelObjects env landscapeId "latest" noOptions tr
  = (answer env tr (collectionRequest env landscapeId),
     tr ++ [collectionRequest env landscapeId]).
Proof. unfold Icepanel.getModelObjects; simpl. unfold bind, lift. apply apiRequest_run. Qed.

Lemma getDiagram_run landscapeId diagramId tr :
  Icepanel.getDiagram env landscapeId diagramId "latest" tr
  = (answer env tr (diagramRequest env landscapeId diagramId),
     tr ++ [diagramRequest env landscapeId diagramId]).
Proof. apply apiRequest_run. Qed.

(** The handler, as a function of what its [try] block does. *)
Lemma callTool_tryCatch call :
  Main.callTool env call
  = tryCatch (Main.tryBlock env call) (Main.errorResult (Main.errorPrefix call)).
Proof. by destruct call. Qed.

End Runs.

(** ** The requests of the tools *)

Section Requests.

Context {A B : Type} (P : Request.t → Prop).

Lemma Issues_ret (a : A) : Issues P 0 (ret a).
Proof. intros tr. exists []. by rewrite app_nil_r. Qed.

Lemma Issues_throw (e : Error) : Issues P 0 (throw (A:=A) e).
Proof. intros tr. exists []. by rewrite app_nil_r. Qed.

Lemma Issues_lift (r : Result A) : Issues P 0 (lift r).
Proof. intros tr. exists []. by rewrite app_nil_r. Qed.

Lemma Issues_mono n m (c : M A) : (n ≤ m)%nat → Issues P n c → Issues P m c.
Proof.
  intros Hnm Hc tr. destruct (Hc tr) as (suffix & Htr & Hlen & HP).
  exists suffix. repeat split; [done|lia|done].
Qed.

Lemma Issues_bind n m (c : M A) (k : A → M B) :
  Issues P n c → (∀ a, Issues P m (k a)) → Issues P (n + m) (bind c k).
Proof.
  intros Hc Hk tr. unfold bind.
  destruct (Hc tr) as (s1 & Htr & Hlen & HP).
  destruct (c tr) as [[a|e] tr1]; simpl in Htr; subst tr1.
  - destruct (Hk a (tr ++ s1)) as (s2 & Htr2 & Hlen2 & HP2).
    exists (s1 ++ s2). rewrite Htr2, app_assoc, length_app.
    repeat split; [lia|by apply Forall_app].
  - exists s1. repeat split; [lia|done].
Qed.

Lemma Issues_tryCatch n m (c : M A) (handler : Error → M A) :
  Issues P n c → (∀ e, Issues P m (handler e)) → Issues P (n + m) (tryCatch c handler).
Proof.
  intros Hc Hh tr. unfold tryCatch.
  destruct (Hc tr) as (s1 & Htr & Hlen & HP).
  destruct (c tr) as [[a|e] tr1]; simpl in Htr; subst tr1.
  - exists s1. repeat split; [lia|done].
  - destruct (Hh e (tr ++ s1)) as (s2 & Htr2 & Hlen2 & HP2).
    exists (s1 ++ s2). rewrite Htr2, app_assoc, length_app.
    repeat split; [lia|by apply Forall_app].
Qed.

Lemma Issues_apiRequest (env : Env) path options :
  P (Icepanel.requestOf env path options) →
  Issues P 1 (Icepanel.apiRequest env path options).
Proof.
  intros HP tr. rewrite apiRequest_run. simpl.
  exists [Icepanel.requestOf env path options]. repeat split; [done|].
  by apply Forall_singleton.
Qed.

End Requests.

Lemma Issues_errorResult P prefix e : Issues P 0 (Main.errorResult prefix e).
Proof. apply Issues_ret. Qed.

Lemma Issues_diagramIdOf P diagram : Issues P 0 (Main.diagramIdOf diagram).
Proof.
  unfold Main.diagramIdOf. destruct (truthy _); [apply Issues_ret|apply Issues_throw].
Qed.

Lemma Issues_nonEmptyObjectIds P ids : Issues P 0 (Main.nonEmptyObjectIds ids).
Proof.
  destruct ids as [[|? ?]|]; [apply Issues_throw|apply Issues_ret|apply Issues_throw].
Qed.

Lemma Issues_diagramOf P response property : Issues P 0 (Main.diagramOf response property).
Proof. apply Issues_lift. Qed.

(** Splits a computation along its binds; the leaves are left to [tac]. *)
Ltac issues tac :=
  lazymatch goal with
  | |- Issues _ _ (bind _ _) => eapply Issues_bind; [issues tac|intros; issues tac]
  | |- Issues _ _ (tryCatch _ _) => eapply Issues_tryCatch; [issues tac|intros; issues tac]
  | |- Issues _ _ (ret _) => apply Issues_ret
  | |- Issues _ _ (throw _) => apply Issues_throw
  | |- Issues _ _ (lift _) => apply Issues_lift
  | |- Issues _ _ (Main.errorResult _ _) => apply Issues_errorResult
  | |- Issues _ _ (Main.diagramIdOf _) => apply Issues_diagramIdOf
  | |- Issues _ _ (Main.nonEmptyObjectIds _) => apply Issues_nonEmptyObjectIds
  | |- Issues _ _ (Main.diagramOf _ _) => apply Issues_diagramOf
  | |- Issues _ _ (Icepanel.apiRequest _ _ _) => apply Issues_apiRequest; tac
  | |- Issues _ _ (let _ := _ in _) => cbv zeta; issues tac
  | |- Issues _ _ (match ?x with _ => _ end) =>
      destruct x;
      [eapply Issues_mono; [apply Nat.le_max_l|issues tac]
      |eapply Issues_mono; [apply Nat.le_max_r|issues tac]]
  end.

Lemma addressed_requestOf env path options :
  addressed env (Icepanel.requestOf env path options).
Proof. split; [by exists path|done]. Qed.

Lemma reading_requestOf env path :
  reading (Icepanel.requestOf env path Icepanel.noInit).
Proof. done. Qed.

Local Ltac unfold_tools :=
  unfold Main.callTool,
    Main.getLandscapes, Main.getLandscapes_try, Main.getLandscape, Main.getLandscape_try,
    Main.getModelObjects, Main.getModelObjects_try, Main.getModelObject,
    Main.getModelObject_try, Main.getModelObjectRelationships,
    Main.getModelObjectRelationships_try, Main.getTechnologyCatalog,
    Main.getTechnologyCatalog_try, Main.getTeams, Main.getTeams_try,
    Main.createLandscape, Main.createLandscape_try, Main.createModelObject,
    Main.createModelObject_try, Main.createModelConnection, Main.createModelConnection_try,
    Main.createDomain, Main.createDomain_try, Main.verifyLandscape, Main.verifyLandscape_try,
    Main.createTestSystem, Main.createTestSystem_try, Main.getDiagrams, Main.getDiagrams_try,
    Main.getDiagram, Main.getDiagram_try, Main.createDiagram, Main.createDiagram_try,
    Main.createDiagramWithObjects, Main.createDiagramWithObjects_try,
    Main.updateDiagram, Main.updateDiagram_try, Main.deleteDiagram, Main.deleteDiagram_try,
    Main.addObjectsToDiagram, Main.addObjectsToDiagram_try;
  unfold Icepanel.getLandscapes, Icepanel.getLandscape, Icepanel.createLandscape,
    Icepanel.getCatalogTechnologies, Icepanel.getOrganizationTechnologies,
    Icepanel.getTeams, Icepanel.getModelObjects, Icepanel.getModelObject,
    Icepanel.createModelObject, Icepanel.getModelConnections,
    Icepanel.createModelConnection, Icepanel.createDomain, Icepanel.getDiagrams,
    Icepanel.getDiagram, Icepanel.createDiagram, Icepanel.updateDiagram,
    Icepanel.deleteDiagram.


(** ** No call after a failed call *)

Section Sequence.

Variable env : Env.

Lemma answeredUpTo_app tr s1 s2 n :
  answeredUpTo env tr s1 (length s1) →
  answeredUpTo env (tr ++ s1) s2 n →
  answeredUpTo env tr (s1 ++ s2) (length s1 + n).
Proof.
  intros H1 H2 i r Hi Hr.
  destruct (decide (i < length s1)%nat) as [Hlt|Hge].
  - rewrite lookup_app_l in Hr by done.
    rewrite take_app_le by lia. by apply H1.
  - rewrite lookup_app_r in Hr by lia.
    destruct (H2 (i - length s1)%nat r ltac:(lia) Hr) as [json Hjson].
    exists json. rewrite take_app_ge by lia. by rewrite app_assoc.
Qed.

Lemma answeredUpTo_mono tr s n m :
  (m ≤ n)%nat → answeredUpTo env tr s n → answeredUpTo env tr s m.
Proof. intros Hmn H i r Hi. apply H. lia. Qed.

Lemma Sequential_pure {A} (c : M A) : (∀ tr, (c tr).2 = tr) → Sequential env c.
Proof.
  intros Hc tr. exists []. rewrite Hc, app_nil_r.
  repeat split; intros; intros i r Hi; simpl in Hi; lia.
Qed.

Lemma Sequential_bind {A B} (c : M A) (k : A → M B) :
  Sequential env c → (∀ a, Sequential env (k a)) → Sequential env (bind c k).
Proof.
  intros Hc Hk tr. unfold bind.
  destruct (Hc tr) as (s1 & Htr & Hlast & Hall).
  destruct (c tr) as [[a|e] tr1]; simpl in Htr; subst tr1.
  - specialize (Hall a eq_refl).
    destruct (Hk a (tr ++ s1)) as (s2 & Htr2 & Hlast2 & Hall2).
    exists (s1 ++ s2). rewrite Htr2, app_assoc, length_app. repeat split.
    + destruct s2 as [|r2 s2].
      * rewrite app_nil_r. simpl. rewrite Nat.add_0_r. done.
      * replace (length s1 + length (r2 :: s2) - 1)%nat
          with (length s1 + (length (r2 :: s2) - 1))%nat by (simpl; lia).
        by apply answeredUpTo_app.
    + intros b Hb. apply answeredUpTo_app; [done|]. by apply (Hall2 b).
  - exists s1. repeat split; [done|]. intros b Hb. discriminate Hb.
Qed.

Lemma Sequential_apiRequest path options :
  Sequential env (Icepanel.apiRequest env path options).
Proof.
  intros tr. rewrite apiRequest_run. simpl.
  exists [Icepanel.requestOf env path options]. repeat split.
  - intros i r Hi. simpl in Hi. lia.
  - intros a Ha i r Hi Hr. simpl in Hi.
    assert (i = 0)%nat as -> by lia. simpl in Hr. injection Hr as <-.
    exists a. by rewrite app_nil_r.
Qed.

Ltac sequential :=
  lazymatch goal with
  | |- Sequential _ (bind _ _) => apply Sequential_bind; [sequential|intros; sequential]
  | |- Sequential _ (Icepanel.apiRequest _ _ _) => apply Sequential_apiRequest
  | |- Sequential _ (Main.diagramIdOf ?d) =>
      apply Sequential_pure; intros; unfold Main.diagramIdOf; by destruct (truthy _)
  | |- Sequential _ (Main.nonEmptyObjectIds ?ids) =>
      apply Sequential_pure; intros; by destruct ids as [[|? ?]|]
  | |- Sequential _ (let _ := _ in _) => cbv zeta; sequential
  | |- Sequential _ (match ?x with _ => _ end) => destruct x; sequential
  | |- Sequential _ _ => by apply Sequential_pure
  end.

Lemma tryBlock_sequential (call : Main.ToolCall) : Sequential env (Main.tryBlock env call).
Proof.
  destruct call; unfold Main.tryBlock;
    unfold Main.getLandscapes_try, Main.getLandscape_try, Main.getModelObjects_try,
      Main.getModelObject_try, Main.getModelObjectRelationships_try,
      Main.getTechnologyCatalog_try, Main.getTeams_try, Main.createLandscape_try,
      Main.createModelObject_try, Main.createModelConnection_try, Main.createDomain_try,
      Main.verifyLandscape_try, Main.createTestSystem_try, Main.getDiagrams_try,
      Main.getDiagram_try, Main.createDiagram_try, Main.createDiagramWithObjects_try,
      Main.updateDiagram_try, Main.deleteDiagram_try, Main.addObjectsToDiagram_try;
    unfold Icepanel.getLandscapes, Icepanel.getLandscape, Icepanel.createLandscape,
      Icepanel.getCatalogTechnologies, Icepanel.getOrganizationTechnologies,
      Icepanel.getTeams, Icepanel.getModelObjects, Icepanel.getModelObject,
      Icepanel.createModelObject, Icepanel.getModelConnections,
      Icepanel.createModelConnection, Icepanel.createDomain, Icepanel.getDiagrams,
      Icepanel.getDiagram, Icepanel.createDiagram, Icepanel.updateDiagram,
      Icepanel.deleteDiagram;
    sequential.
Qed.

End Sequence.

(** ** The error of a failed call is the error of the computation *)

Section Surfaces.

Variable env : Env.

Lemma Surfacing_pure {A} (c : M A) : (∀ tr, (c tr).2 = tr) → Surfacing env c.
Proof.
  intros Hc tr. exists []. rewrite Hc, app_nil_r. split; [done|].
  intros before request e H. by destruct before.
Qed.

Lemma Surfacing_bind {A B} (c : M A) (k : A → M B) :
  Surfacing env c → (∀ a, Surfacing env (k a)) → Surfacing env (bind c k).
Proof.
  intros Hc Hk tr. unfold bind.
  destruct (Hc tr) as (s1 & Htr & H1).
  destruct (c tr) as [[a|e1] tr1]; simpl in Htr, H1; subst tr1.
  - destruct (Hk a (tr ++ s1)) as (s2 & Htr2 & H2).
    exists (s1 ++ s2). rewrite Htr2, app_assoc. split; [done|].
    intros before request e Heq Hanswer.
    destruct s2 as [|r2 s2 _] using rev_ind.
    + rewrite app_nil_r in Heq. by specialize (H1 _ _ _ Heq Hanswer).
    + rewrite app_assoc in Heq. apply app_inj_tail in Heq as [<- <-].
      apply (H2 s2 r2 e eq_refl). by rewrite <- app_assoc.
  - exists s1. split; [done|]. simpl. intros before request e Heq Hanswer.
    by injection (H1 _ _ _ Heq Hanswer) as ->.
Qed.

Lemma Surfacing_apiRequest path options :
  Surfacing env (Icepanel.apiRequest env path options).
Proof.
  intros tr. rewrite apiRequest_run. simpl.
  exists [Icepanel.requestOf env path options]. split; [done|].
  intros before request e Heq Hanswer.
  destruct before as [|? [|? ?]]; try discriminate Heq.
  injection Heq as <-. by rewrite app_nil_r in Hanswer.
Qed.

Ltac surfacing :=
  lazymatch goal with
  | |- Surfacing _ (bind _ _) => apply Surfacing_bind; [surfacing|intros; surfacing]
  | |- Surfacing _ (Icepanel.apiRequest _ _ _) => apply Surfacing_apiRequest
  | |- Surfacing _ (Main.diagramIdOf ?d) =>
      apply Surfacing_pure; intros; unfold Main.diagramIdOf; by destruct (truthy _)
  | |- Surfacing _ (Main.nonEmptyObjectIds ?ids) =>
      apply Surfacing_pure; intros; by destruct ids as [[|? ?]|]
  | |- Surfacing _ (let _ := _ in _) => cbv zeta; surfacing
  | |- Surfacing _ (match ?x with _ => _ end) => destruct x; surfacing
  | |- Surfacing _ _ => by apply Surfacing_pure
  end.

Lemma tryBlock_surfacing (call : Main.ToolCall) : Surfacing env (Main.tryBlock env call).
Proof.
  destruct call; unfold Main.tryBlock;
    unfold Main.getLandscapes_try, Main.getLandscape_try, Main.getModelObjects_try,
      Main.getModelObject_try, Main.getModelObjectRelationships_try,
      Main.getTechnologyCatalog_try, Main.getTeams_try, Main.createLandscape_try,
      Main.createModelObject_try, Main.createModelConnection_try, Main.createDomain_try,
      Main.verifyLandscape_try, Main.createTestSystem_try, Main.getDiagrams_try,
      Main.getDiagram_try, Main.createDiagram_try, Main.createDiagramWithObjects_try,
      Main.updateDiagram_try, Main.deleteDiagram_try, Main.addObjectsToDiagram_try;
    unfold Icepanel.getLandscapes, Icepanel.getLandscape, Icepanel.createLandscape,
      Icepanel.getCatalogTechnologies, Icepanel.getOrganizationTechnologies,
      Icepanel.getTeams, Icepanel.getModelObjects, Icepanel.getModelObject,
      Icepanel.createModelObject, Icepanel.getModelConnections,
      Icepanel.createModelConnection, Icepanel.createDomain, Icepanel.getDiagrams,
      Icepanel.getDiagram, Icepanel.createDiagram, Icepanel.updateDiagram,
      Icepanel.deleteDiagram;
    surfacing.
Qed.

End Surfaces.

(** ** The claims about remote calls *)

(** A computation that issues no request leaves the list of requests as it
    is. *)
Lemma Issues_none {A} (P : Request.t → Prop) (n : nat) (c : M A) :
  Issues P n c → n = 0%nat → ∀ tr, (c tr).2 = tr.
Proof.
  intros Hc -> tr. destruct (Hc tr) as (suffix & -> & Hlen & _).
  destruct suffix; [by rewrite app_nil_r|simpl in Hlen; lia].
Qed.

Lemma bind_trace {A B} (P : Request.t → Prop) (c : M A) (k : A → M B) tr :
  (∀ a, ∃ n, Issues P n (k a) ∧ n = 0%nat) → (bind c k tr).2 = (c tr).2.
Proof.
  intros Hk. unfold bind. destruct (c tr) as [[a|e] tr']; [|done].
  destruct (Hk a) as (n & Hn & ->). by apply (Issues_none P 0).
Qed.

(** The [catch] block issues no request. *)
Lemma tryCatch_trace (c : M Main.CallToolResult) (prefix : string) tr :
  (tryCatch c (Main.errorResult prefix) tr).2 = (c tr).2.
Proof. unfold tryCatch. by destruct (c tr) as [[a|e] tr']. Qed.

Section Transport.

Variable env : Env.

(** C7.  A response whose status is outside 200-299 makes [apiRequest] throw
    an error whose message carries the status code, the status text and the
    body text as received; the outcome is the same whatever the JSON parser
    is, so the body is not parsed.  The tool [getModelObjects] turns that
    error into its result: one block of type text whose text is that message
    after the prefix of the handler. *)
Theorem non_success_response path options (args : Main.GetModelObjectsArgs) tr response :
  Response.ok response = false →
  let text :=
    "IcePanel API error: " +:+ decimal (Response.status response)
    +:+ " " +:+ Response.statusText response
    +:+ " - " +:+ Response.bodyText response in
  (network env tr (Icepanel.requestOf env path options) = Responded response →
   Icepanel.apiRequest env path options tr
   = (Throw {| message := text |}, tr ++ [Icepanel.requestOf env path options])
   ∧ ∀ parse,
       Icepanel.apiRequest (withParser env parse) path options tr
       = (Throw {| message := text |}, tr ++ [Icepanel.requestOf env path options]))
  ∧ (network env tr (modelObjectsRequest env args) = Responded response →
     Main.getModelObjects env args tr
     = (Ok {| Main.content :=
                [{| Main.type := "text"; Main.text := "Error: " +:+ text |}] |},
        tr ++ [modelObjectsRequest env args])).
Proof.
  intros Hok. cbv zeta. split; intros Hnet.
  - split.
    + rewrite apiRequest_run. unfold answer. by rewrite Hnet, Hok.
    + intros parse. rewrite apiRequest_run. unfold answer.
      change (network (withParser env parse)) with (network env).
      change (Icepanel.requestOf (withParser env parse) path options)
        with (Icepanel.requestOf env path options).
      by rewrite Hnet, Hok.
  - unfold Main.getModelObjects, Main.getModelObjects_try, tryCatch.
    unfold bind at 1. rewrite getModelObjects_run. unfold answer.
    by rewrite Hnet, Hok.
Qed.

(** C8.  Every tool invocation returns a result and never throws.  When
    anything in the [try] block of the handler throws, the result is one
    block of type text whose text is the handler's prefix followed by the
    message of the error; and the failure of a remote call is such an error:
    when the request issued last was answered by a failure (a rejected
    [fetch], a status outside 200-299, a body that is not JSON), the text of
    the result carries the message of that failure. *)
Theorem tool_never_throws (call : Main.ToolCall) tr :
  ∃ result suffix,
    Main.callTool env call tr = (Ok result, tr ++ suffix)
    ∧ (∀ e, (Main.tryBlock env call tr).1 = Throw e →
            Main.content result
            = [{| Main.type := "text";
                  Main.text := Main.errorPrefix call +:+ message e |}])
    ∧ (∀ before request e,
         suffix = before ++ [request] →
         answer env (tr ++ before) request = Throw e →
         Main.content result
         = [{| Main.type := "text";
               Main.text := Main.errorPrefix call +:+ message e |}]).
Proof.
  rewrite callTool_tryCatch. unfold tryCatch.
  destruct (tryBlock_surfacing env call tr) as (suffix & Htr & Hlast).
  destruct (Main.tryBlock env call tr) as [[r|e1] tr1]; simpl in Htr, Hlast; subst tr1.
  - exists r, suffix. split; [done|]. split; [intros e [=]|].
    intros before request e Heq Hanswer. by specialize (Hlast _ _ _ Heq Hanswer).
  - eexists _, suffix. split; [reflexivity|]. split.
    + by intros e [= ->].
    + intros before request e Heq Hanswer.
      by injection (Hlast _ _ _ Heq Hanswer) as ->.
Qed.

(** C4.  With an absent or empty search string the fuzzy filter returns the
    collection it is given, and the tools [getModelObjects] and [getTeams]
    render every fetched record in the fetched order; an answer that is
    [null] or has no collection makes them report the [TypeError] of the
    read. *)
Theorem empty_search_is_identity (search : option string) :
  search = None ∨ search = Some "" →
  let report text := {| Main.content := [{| Main.type := "text"; Main.text := text |}] |} in
  (∀ A (items : list A) keys, Main.fuseFilter env items keys search = items)
  ∧ (∀ args tr result,
       Main.search args = search →
       answer env tr (modelObjectsRequest env args) = Ok result →
       (Main.getModelObjects env args tr).1
       = Ok (if is_null env result
             then report "Error: Cannot read properties of null (reading 'modelObjects')"
             else match view_modelObjects env result with
                  | Some modelObjects =>
                      {| Main.content :=
                           map (λ o, {| Main.type := "text";
                                        Main.text :=
                                          Format.formatModelObjectListItem
                                            (Main.landscapeId args) o |})
                               modelObjects |}
                  | None =>
                      report "Error: Cannot read properties of undefined (reading 'map')"
                  end))
  ∧ (∀ tr teamResult,
       answer env tr (teamsRequest env) = Ok teamResult →
       (Main.getTeams env search tr).1
       = Ok (if is_null env teamResult
             then report "Error: Cannot read properties of null (reading 'teams')"
             else match view_teams env teamResult with
                  | Some teams =>
                      {| Main.content :=
                           map (λ team, {| Main.type := "text";
                                           Main.text := Format.formatTeam team |}) teams |}
                  | None =>
                      report "Error: Cannot read properties of undefined (reading 'map')"
                  end)).
Proof.
  intros Hsearch. cbv zeta.
  assert (Hid : ∀ A (items : list A) keys, Main.fuseFilter env items keys search = items).
  { intros. unfold Main.fuseFilter. by destruct Hsearch as [-> | ->]. }
  assert (Hfalsy : truthy search = false) by (by destruct Hsearch as [-> | ->]).
  split; [done|]. split.
  - intros args tr result Hargs Hanswer.
    unfold Main.getModelObjects, Main.getModelObjects_try, tryCatch.
    unfold bind at 1. rewrite getModelObjects_run, Hanswer.
    unfold bind, lift, property, Main.fuseFilterCall. rewrite Hargs, Hfalsy.
    destruct (is_null env result); [done|].
    destruct (view_modelObjects env result) as [modelObjects|]; [|done].
    simpl. by rewrite Hid.
  - intros tr teamResult Hteams.
    unfold Main.getTeams, Main.getTeams_try, tryCatch.
    unfold bind at 1. rewrite getTeams_run, Hteams.
    unfold bind, lift, property, Main.fuseFilterCall. rewrite Hfalsy.
    destruct (is_null env teamResult); [done|].
    destruct (view_teams env teamResult) as [teams|]; [|done].
    simpl. by rewrite Hid.
Qed.

(** *** The calls of [getModelObject] *)

(** C5, amended.  The tool [getModelObject] requests the object; then, when
    that call succeeded, the teams; then, when that call succeeded too,
    hierarchical information is asked for and the answer about the object is
    not [null], the full object collection, and nothing else.  So a run in
    which no call fails and the object is there issues exactly two calls
    without hierarchical information and exactly three with it, in the order
    object, teams, collection. *)
Theorem getModelObject_calls landscapeId modelObjectId include tr :
  let r1 := objectRequest env landscapeId modelObjectId in
  let r2 := teamsRequest env in
  let r3 := collectionRequest env landscapeId in
  (Main.getModelObject env landscapeId modelObjectId include tr).2
  = tr ++ [r1]
       ++ match answer env tr r1 with
          | Throw _ => []
          | Ok object =>
              [r2]
              ++ match answer env (tr ++ [r1]) r2 with
                 | Throw _ => []
                 | Ok _ => if include && negb (is_null env object) then [r3] else []
                 end
          end
  ∧ map Request.url [r1; r2; r3]
    = [Icepanel.API_BASE_URL env +:+ "/landscapes/" +:+ landscapeId
       +:+ "/versions/latest/model/objects/" +:+ modelObjectId;
       Icepanel.API_BASE_URL env +:+ "/organizations/" +:+ ORGANIZATION_ID env +:+ "/teams";
       Icepanel.API_BASE_URL env +:+ "/landscapes/" +:+ landscapeId
       +:+ "/versions/latest/model/objects"]
  ∧ map Request.method [r1; r2; r3] = [None; None; None].
Proof.
  cbv zeta. split; [|done].
  unfold Main.getModelObject. rewrite tryCatch_trace.
  unfold Main.getModelObject_try.
  unfold bind at 1. rewrite getModelObject_run.
  destruct (answer env tr _) as [object|e1]; [|done].
  unfold bind at 1. rewrite getTeams_run.
  destruct (answer env _ (teamsRequest env)) as [teams|e2];
    [|by rewrite <- app_assoc].
  unfold bind at 1, lift at 1, property at 1.
  destruct (is_null env object); [by rewrite andb_false_r, <- !app_assoc|].
  rewrite andb_true_r.
  rewrite (bind_trace (λ _, True))
    by (intros; eexists; split; [issues idtac|reflexivity]).
  destruct include; [|by rewrite <- !app_assoc].
  rewrite (bind_trace (λ _, True))
    by (intros; eexists; split; [issues idtac|reflexivity]).
  rewrite getModelObjects_all_run. by rewrite <- !app_assoc.
Qed.

End Transport.

(** *** Merging object ids *)

Lemma fold_Set_add (ids acc : list string) :
  fold_left Set_add ids acc = acc ++ firstOccurrences acc ids.
Proof.
  revert acc. induction ids as [|x ids IH]; intros acc; simpl.
  - by rewrite app_nil_r.
  - rewrite IH. unfold Set_add. case_bool_decide; [done|].
    by rewrite <- app_assoc.
Qed.

Lemma firstOccurrences_ext (s1 s2 ids : list string) :
  (∀ x, x ∈ s1 ↔ x ∈ s2) → firstOccurrences s1 ids = firstOccurrences s2 ids.
Proof.
  revert s1 s2. induction ids as [|x ids IH]; intros s1 s2 Hs; simpl; [done|].
  rewrite (bool_decide_ext (x ∈ s1) (x ∈ s2)) by apply Hs.
  case_bool_decide; [by apply IH|].
  f_equal. apply IH. intros y. rewrite !elem_of_app. by rewrite Hs.
Qed.

Lemma elem_of_firstOccurrences (seen ids : list string) x :
  x ∈ seen ++ firstOccurrences seen ids ↔ x ∈ seen ∨ x ∈ ids.
Proof.
  revert seen. induction ids as [|y ids IH]; intros seen; simpl.
  - rewrite app_nil_r, elem_of_nil. tauto.
  - case_bool_decide as Hy.
    + rewrite IH, elem_of_cons. split; [tauto|]. intros [?|[->|?]]; tauto.
    + change (y :: firstOccurrences (seen ++ [y]) ids)
        with ([y] ++ firstOccurrences (seen ++ [y]) ids).
      rewrite app_assoc, IH, elem_of_app, list_elem_of_singleton, elem_of_cons. tauto.
Qed.

Lemma NoDup_firstOccurrences (seen ids : list string) :
  NoDup seen → NoDup (seen ++ firstOccurrences seen ids).
Proof.
  revert seen. induction ids as [|y ids IH]; intros seen Hseen; simpl.
  - by rewrite app_nil_r.
  - case_bool_decide as Hy; [by apply IH|].
    change (y :: firstOccurrences (seen ++ [y]) ids)
      with ([y] ++ firstOccurrences (seen ++ [y]) ids).
    rewrite app_assoc. apply IH.
    apply NoDup_app. split; [done|]. split; [|apply NoDup_singleton].
    intros z Hz ->%list_elem_of_singleton. done.
Qed.

Lemma firstOccurrences_fresh (seen ids : list string) :
  NoDup ids → (∀ x, x ∈ ids → x ∉ seen) → firstOccurrences seen ids = ids.
Proof.
  revert seen. induction ids as [|y ids IH]; intros seen Hnodup Hfresh; simpl; [done|].
  apply NoDup_cons in Hnodup as [Hy Hnodup].
  rewrite bool_decide_eq_false_2 by (apply Hfresh; left).
  f_equal. apply IH; [done|].
  intros x Hx [Hin| ->%list_elem_of_singleton]%elem_of_app; [|done].
  by apply (Hfresh x); [right|].
Qed.

Lemma elem_of_firstOccurrences_nil (ids : list string) x :
  x ∈ firstOccurrences [] ids ↔ x ∈ ids.
Proof.
  pose proof (elem_of_firstOccurrences [] ids x) as H. simpl in H.
  rewrite H, elem_of_nil. tauto.
Qed.

Lemma NoDup_firstOccurrences_nil (ids : list string) : NoDup (firstOccurrences [] ids).
Proof. apply (NoDup_firstOccurrences [] ids), NoDup_nil_2. Qed.

(** The list built through [Set] is the ordered union. *)
Lemma Array_from_Set_union (existing new : list string) :
  Array_from_Set (existing ++ new) = orderedUnion existing new.
Proof.
  unfold Array_from_Set, orderedUnion.
  rewrite fold_left_app, !fold_Set_add. simpl. f_equal.
  apply firstOccurrences_ext. intros x. apply elem_of_firstOccurrences_nil.
Qed.

Lemma orderedUnion_alt (existing new : list string) :
  orderedUnion existing new
  = firstOccurrences [] existing
    ++ firstOccurrences (firstOccurrences [] existing) new.
Proof.
  unfold orderedUnion. f_equal. apply firstOccurrences_ext. intros x.
  by rewrite elem_of_firstOccurrences_nil.
Qed.

Lemma bind_trace_app {A B} (P : Request.t → Prop) (c : M A) (k : A → M B) tr :
  (∀ a, ∃ n, Issues P n (k a)) → ∃ rest, (bind c k tr).2 = (c tr).2 ++ rest.
Proof.
  intros Hk. unfold bind. destruct (c tr) as [[a|e] tr'].
  - destruct (Hk a) as (n & Hn). destruct (Hn tr') as (rest & -> & _). by exists rest.
  - exists []. by rewrite app_nil_r.
Qed.

Section Diagrams.

Variable env : Env.

(** The request of the client's [updateDiagram]. *)
Lemma updateDiagram_run landscapeId diagramId data tr :
  (Icepanel.updateDiagram env landscapeId diagramId data "latest" tr).2
  = tr ++ [Icepanel.requestOf env
             ("/landscapes/" +:+ landscapeId +:+ "/versions/latest/diagrams/" +:+ diagramId)
             {| Icepanel.method := Some "PATCH";
                Icepanel.body := Some (definedProps (Icepanel.diagramProps data)) |}].
Proof.
  unfold Icepanel.updateDiagram.
  rewrite (bind_trace (λ _, True))
    by (intros; eexists; split; [issues idtac|reflexivity]).
  by rewrite apiRequest_run.
Qed.

(** C9.  When [addObjectsToDiagram] reaches its update (the supplied list is
    not empty and the diagram was fetched), the request it sends is a PATCH
    of the diagram whose body holds, under [objectIds] and nothing else, the
    ordered union of the existing and the supplied ids: no id twice, exactly
    the ids of either list, every existing id first in its original order,
    then each new id not already present, in the supplied order. *)
Theorem addObjectsToDiagram_sends_union landscapeId diagramId (newIds : list string) tr
    current diagram :
  newIds ≠ [] →
  answer env tr (diagramRequest env landscapeId diagramId) = Ok current →
  is_null env current = false →
  view_diagram env current = Some diagram →
  let existing := default [] (Diagram.objectIds diagram) in
  let sent := orderedUnion existing newIds in
  (∃ update rest,
     (Main.addObjectsToDiagram env landscapeId diagramId newIds tr).2
     = tr ++ [diagramRequest env landscapeId diagramId; update] ++ rest
     ∧ Request.method update = Some "PATCH"
     ∧ Request.url update
       = Icepanel.API_BASE_URL env +:+ "/landscapes/" +:+ landscapeId
         +:+ "/versions/latest/diagrams/" +:+ diagramId
     ∧ Request.body update = Some [("objectIds", DStrings sent)])
  ∧ Array_from_Set (existing ++ newIds) = sent
  ∧ NoDup sent
  ∧ (∀ x, x ∈ sent ↔ x ∈ existing ∨ x ∈ newIds)
  ∧ (NoDup existing → sent = existing ++ firstOccurrences existing newIds).
Proof.
  intros Hnew Hcurrent Hnull Hview. cbv zeta.
  set (existing := default [] (Diagram.objectIds diagram)).
  split; [|split; [|split; [|split]]].
  - unfold Main.addObjectsToDiagram. rewrite tryCatch_trace.
    unfold Main.addObjectsToDiagram_try.
    destruct newIds as [|id newIds]; [done|].
    erewrite (bind_ok (Main.nonEmptyObjectIds _)); [|reflexivity].
    erewrite bind_ok; [|rewrite getDiagram_run, Hcurrent; reflexivity].
    erewrite bind_ok; [|unfold lift, property; rewrite Hnull, Hview; reflexivity].
    erewrite bind_ok; [|reflexivity].
    fold existing. rewrite Array_from_Set_union.
    match goal with
    | |- ∃ update rest, (bind ?c ?k ?t).2 = _ ∧ _ =>
        destruct (bind_trace_app (λ _, True) c k t) as [rest Hrest];
          [intros; eexists; unfold Main.diagramOf, Icepanel.getDiagram;
           issues ltac:(exact I)|]
    end.
    rewrite Hrest, updateDiagram_run.
    eexists _, rest. split; [by rewrite <- !app_assoc|]. done.
  - apply Array_from_Set_union.
  - rewrite orderedUnion_alt.
    apply NoDup_firstOccurrences, NoDup_firstOccurrences_nil.
  - intros x. rewrite orderedUnion_alt.
    by rewrite elem_of_firstOccurrences, elem_of_firstOccurrences_nil.
  - intros Hnodup. unfold orderedUnion. rewrite firstOccurrences_fresh; [done..|].
    intros x _. apply not_elem_of_nil.
Qed.

End Diagrams.

(** *** The search string in the remote filter *)

Lemma join_cons_empty sep x l : join sep (x :: l) = "" → x = "".
Proof. destruct l; simpl; [done|]. by destruct x. Qed.

Lemma querySuffix_cons p (ps : list (string * string)) :
  Icepanel.querySuffix (p :: ps) = "?" +:+ URLSearchParams.toString (p :: ps).
Proof.
  unfold Icepanel.querySuffix.
  destruct (URLSearchParams.toString (p :: ps)) eqn:E; [|done].
  apply join_cons_empty in E. by destruct (URLSearchParams.encode p.1).
Qed.

Lemma filters_description args : FilterDescription (Main.filters args).
Proof.
  split.
  - unfold Main.filters. simpl. apply (bool_decide_unpack _). by vm_compute.
  - unfold Main.filters. simpl. repeat constructor.
Qed.

Lemma params_nonempty args : flat_map added (Main.filters args) ≠ [].
Proof.
  intros H.
  assert (("filter[external]", ofBool (Main.external args))
          ∈ flat_map added (Main.filters args)) as Hin.
  { apply list_elem_of_In, in_flat_map.
    exists ("external", FScalar (SBool (Main.external args))).
    split; [right; left; reflexivity|left; reflexivity]. }
  rewrite H in Hin. by apply elem_of_nil in Hin.
Qed.

Lemma string_app_assoc (s1 s2 s3 : string) : (s1 +:+ s2) +:+ s3 = s1 +:+ s2 +:+ s3.
Proof.
  induction s1 as [|a s1 IH]; [done|].
  change (String a ((s1 +:+ s2) +:+ s3) = String a (s1 +:+ s2 +:+ s3)).
  by rewrite IH.
Qed.

(** *** The query string read back *)

Lemma append_String (c : ascii) (s t : string) : String c s +:+ t = String c (s +:+ t).
Proof. reflexivity. Qed.

Lemma occurs_app (c : ascii) (s t : string) :
  occurs c (s +:+ t) = occurs c s || occurs c t.
Proof.
  induction s as [|d s IH]; [done|].
  change (String d s +:+ t) with (String d (s +:+ t)).
  cbn [occurs]. by destruct (decide (d = c)).
Qed.

Lemma splitOn_whole (c : ascii) (s : string) : occurs c s = false → splitOn c s = [s].
Proof.
  induction s as [|d s IH]; [done|]. cbn [occurs splitOn].
  destruct (decide (d = c)); [done|]. intros H. by rewrite IH.
Qed.

Lemma splitOn_app (c : ascii) (s t : string) :
  occurs c s = false → splitOn c (s +:+ String c t) = s :: splitOn c t.
Proof.
  induction s as [|d s IH]; cbn [occurs].
  - intros _. change ("" +:+ String c t) with (String c t). cbn [splitOn].
    by rewrite decide_True.
  - change (String d s +:+ String c t) with (String d (s +:+ String c t)).
    cbn [splitOn]. destruct (decide (d = c)); [done|]. intros H. by rewrite IH.
Qed.

Lemma splitOn_join (c : ascii) (parts : list string) :
  parts ≠ [] → Forall (λ part, occurs c part = false) parts →
  splitOn c (join (String c "") parts) = parts.
Proof.
  intros Hne Hparts. induction Hparts as [|p parts Hp Hparts IH]; [done|].
  destruct parts as [|p' parts]; [by apply splitOn_whole|].
  change (join (String c "") (p :: p' :: parts))
    with (p +:+ String c "" +:+ join (String c "") (p' :: parts)).
  change (String c "" +:+ join (String c "") (p' :: parts))
    with (String c (join (String c "") (p' :: parts))).
  rewrite splitOn_app by done. by rewrite IH.
Qed.

Lemma cut_app (c : ascii) (s t : string) :
  occurs c s = false → cut c (s +:+ String c t) = (s, t).
Proof.
  induction s as [|d s IH]; cbn [occurs].
  - intros _. change ("" +:+ String c t) with (String c t). cbn [cut].
    by rewrite decide_True.
  - change (String d s +:+ String c t) with (String d (s +:+ String c t)).
    cbn [cut]. destruct (decide (d = c)); [done|]. intros H. by rewrite IH.
Qed.

Lemma encode_String (c : ascii) (s : string) :
  URLSearchParams.encode (String c s) = encodeByte c +:+ URLSearchParams.encode s.
Proof. reflexivity. Qed.

Lemma decode_encodeByte (c : ascii) (rest : string) :
  decode (encodeByte c +:+ rest) = String c (decode rest).
Proof. destruct c as [[] [] [] [] [] [] [] []]; reflexivity. Qed.

Lemma occurs_encodeByte (c : ascii) :
  occurs "&" (encodeByte c) = false ∧ occurs "=" (encodeByte c) = false.
Proof. destruct c as [[] [] [] [] [] [] [] []]; split; reflexivity. Qed.

Lemma decode_encode (s : string) : decode (URLSearchParams.encode s) = s.
Proof.
  induction s as [|c s IH]; [done|].
  by rewrite encode_String, decode_encodeByte, IH.
Qed.

Lemma occurs_encode (s : string) :
  occurs "&" (URLSearchParams.encode s) = false
  ∧ occurs "=" (URLSearchParams.encode s) = false.
Proof.
  induction s as [|c s [IH1 IH2]]; [done|].
  rewrite encode_String, !occurs_app, IH1, IH2.
  by destruct (occurs_encodeByte c) as [-> ->].
Qed.

(** A receiver reads from the query string the pairs the client put in. *)
Lemma parseQuery_toString (params : list (string * string)) :
  parseQuery (URLSearchParams.toString params) = params.
Proof.
  unfold parseQuery, URLSearchParams.toString.
  destruct params as [|p params]; [done|].
  set (component := λ p : string * string,
         URLSearchParams.encode p.1 +:+ "=" +:+ URLSearchParams.encode p.2).
  change "&" with (String "&"%char "") at 1.
  rewrite splitOn_join.
  - rewrite filter_all.
    + rewrite map_map. rewrite <- (map_id (p :: params)) at 2.
      apply map_ext. intros [name value]. unfold component. simpl.
      change ("=" +:+ URLSearchParams.encode value)
        with (String "="%char (URLSearchParams.encode value)).
      rewrite cut_app by apply occurs_encode. simpl.
      by rewrite !decode_encode.
    + intros part (q & -> & _)%list_elem_of_fmap. unfold component.
      change ("=" +:+ URLSearchParams.encode q.2)
        with (String "="%char (URLSearchParams.encode q.2)).
      by destruct (URLSearchParams.encode q.1).
  - done.
  - apply Forall_forall. intros part (q & -> & _)%list_elem_of_fmap. unfold component.
    change ("=" +:+ URLSearchParams.encode q.2)
      with (String "="%char (URLSearchParams.encode q.2)).
    rewrite occurs_app. simpl.
    destruct (occurs_encode q.1) as [-> _]. by destruct (occurs_encode q.2) as [-> _].
Qed.


Section Search.

Variable env : Env.

(** C10.  When [getModelObjects] is invoked with a non-empty search string,
    its one remote request goes to the model objects of the landscape with a
    query string from which the receiver reads exactly one pair named
    [filter[search]], whose value is the search string; and the fetched
    objects then go through the fuzzy filter with that string. *)
Theorem search_reaches_remote_filter (args : Main.GetModelObjectsArgs) (s : string) tr :
  Main.search args = Some s → s ≠ "" →
  ∃ request query,
    (Main.getModelObjects env args tr).2 = tr ++ [request]
    ∧ Request.url request
      = Icepanel.API_BASE_URL env +:+ "/landscapes/" +:+ Main.landscapeId args
        +:+ "/versions/latest/model/objects?" +:+ query
    ∧ pairsNamed "filter[search]" (parseQuery query) = [("filter[search]", s)]
    ∧ (∀ result modelObjects,
         answer env tr request = Ok result →
         is_null env result = false →
         view_modelObjects env result = Some modelObjects →
         (Main.getModelObjects env args tr).1
         = Ok {| Main.content :=
                   map (λ o, {| Main.type := "text";
                                Main.text :=
                                  Format.formatModelObjectListItem
                                    (Main.landscapeId args) o |})
                       (Fuse_search env _ {| keys := ["name"; "description"];
                                             threshold := 3 # 10 |}
                                    modelObjects s) |}).
Proof.
  intros Hsearch Hs.
  exists (modelObjectsRequest env args),
         (URLSearchParams.toString (flat_map added (Main.filters args))).
  split; [|split; [|split]].
  - unfold Main.getModelObjects. rewrite tryCatch_trace.
    unfold Main.getModelObjects_try.
    rewrite (bind_trace (λ _, True))
      by (intros; eexists; split; [issues idtac|reflexivity]).
    by rewrite getModelObjects_run.
  - unfold modelObjectsRequest, Icepanel.requestOf. cbn [Request.url].
    destruct (flat_map added (Main.filters args)) as [|p ps] eqn:E;
      [by apply params_nonempty in E|].
    rewrite querySuffix_cons. reflexivity.
  - rewrite parseQuery_toString.
    etrans;
      [apply (pairsNamed_entry added (Main.filters args) "search" "" (FScalar (SString s)));
       [intros [k' v'] p; apply added_names|apply filters_description|]
      |by apply filter_all; intros p ->%list_elem_of_singleton].
    unfold Main.filters. rewrite Hsearch. simpl.
    do 8 right. left.
  - intros result modelObjects Hresult Hnull Hview.
    unfold Main.getModelObjects, Main.getModelObjects_try, tryCatch.
    unfold bind at 1. rewrite getModelObjects_run, Hresult.
    unfold bind, lift, property, Main.fuseFilterCall. rewrite Hnull, Hview. simpl.
    unfold Main.fuseFilter. rewrite Hsearch. by destruct s.
Qed.

End Search.

(** *** The rendering of connections *)

(** The lines under "Outgoing connections" number as many as the incoming
    connections, whatever the outgoing ones are. *)
Lemma outgoingConnectionLines_length modelObject incoming outgoing modelObjects :
  length (Format.outgoingConnectionLines modelObject incoming outgoing modelObjects)
  = length incoming.
Proof. apply length_map. Qed.

(** What a list entry adds, whatever the other entries are. *)
Lemma appendEntry_list params (k : string) (items : list Scalar) :
  Icepanel.appendEntry params k (FArray items)
  = params ++ map (λ item, ("filter[" +:+ k +:+ "][]", Icepanel.scalarToString item)) items.
Proof. simpl. apply fold_append. Qed.

Lemma appendEntryLabels_list params (k : string) (items : list Scalar) :
  k ≠ "labels" →
  Icepanel.appendEntryLabels params k (FArray items)
  = Ok (params
        ++ map (λ item, ("filter[" +:+ k +:+ "][]", Icepanel.scalarToString item)) items).
Proof.
  intros Hk. unfold Icepanel.appendEntryLabels.
  rewrite bool_decide_eq_false_2 by done. simpl. by rewrite fold_append.
Qed.

Lemma map_imap {A B C} (g : B → C) (f : nat → A → B) (l : list A) :
  map g (imap f l) = imap (λ i x, g (f i x)) l.
Proof.
  revert f. induction l as [|x l IH]; intros f; [done|].
  simpl. f_equal. apply IH.
Qed.

(** Under [labels] a list goes through the branch for records: its elements
    are named after their indices. *)
Lemma appendEntryLabels_list_labels params (items : list Scalar) :
  Icepanel.appendEntryLabels params "labels" (FArray items)
  = Ok (params
        ++ imap (λ i item, ("filter[labels][" +:+ decimal i +:+ "]",
                            Icepanel.scalarToString item)) items).
Proof.
  unfold Icepanel.appendEntryLabels. simpl. rewrite fold_append_labels.
  do 2 f_equal. apply map_imap.
Qed.

(** ** Examples, counterexamples and instances *)

(** The scenario of the specification: a list, a boolean, a null and an
    unset key. *)
Example sampleFilter_technologies :
  Icepanel.technologiesParams {| Options.filter := Some sampleFilter |}
  = [("filter[type][]", "system"); ("filter[type][]", "actor");
     ("filter[external]", "false"); ("filter[parentId]", "null")].
Proof. reflexivity. Qed.

Example sampleFilter_model :
  Icepanel.modelParams {| Options.filter := Some sampleFilter |}
  = Ok [("filter[type][]", "system"); ("filter[type][]", "actor");
        ("filter[external]", "false"); ("filter[parentId]", "null")].
Proof. reflexivity. Qed.

Example sampleFilter_query :
  Icepanel.querySuffix [("filter[type][]", "system"); ("filter[external]", "false")]
  = "?filter%5Btype%5D%5B%5D=system&filter%5Bexternal%5D=false"
  ∧ Icepanel.querySuffix [] = "".
Proof. split; reflexivity. Qed.

Example labels_record :
  Icepanel.modelParams {| Options.filter := Some [("labels", FRecord [("env", "prod")])] |}
  = Ok [("filter[labels][env]", "prod")].
Proof. reflexivity. Qed.

Example Array_from_Set_example :
  Array_from_Set (["x"; "y"] ++ ["y"; "z"; "z"; "x"; "w"]) = ["x"; "y"; "z"; "w"].
Proof. reflexivity. Qed.

Example formatConnections_both :
  Format.formatConnections payments
    [sampleConnection "orders" "s1" "p1"] [sampleConnection "writes" "p1" "l1"]
    [payments; ledger; shop]
  = "# Payments - Connections" +:+ Format.nl +:+ Format.nl
    +:+ "### Incoming connections" +:+ Format.nl
    +:+ "Shop (app) -[orders]-> Payments (system)"
    +:+ "### Outgoing connections" +:+ Format.nl
    +:+ "Payments (system) -[orders]-> Payments (system)"
    +:+ "### Referenced Model Objects"
    +:+ Format.formatModelObjectRelatedItem shop +:+ Format.nl
    +:+ Format.formatModelObjectRelatedItem payments.
Proof. reflexivity. Qed.

(** C5, as stated, fails on the order of the calls: with hierarchical
    information the teams are fetched before the object collection. *)
Lemma getModelObject_order_counterexample :
  let object :=
    "https://api.icepanel.io/v1/landscapes/landscape00000000001/versions/latest"
    +:+ "/model/objects/object00000000000001" in
  let teams := "https://api.icepanel.io/v1/organizations/org1/teams" in
  let collection :=
    "https://api.icepanel.io/v1/landscapes/landscape00000000001/versions/latest"
    +:+ "/model/objects" in
  map Request.url (Main.getModelObject sample landscape1 gatewayId true []).2
  = [object; teams; collection]
  ∧ map Request.url (Main.getModelObject sample landscape1 gatewayId true []).2
    ≠ [object; collection; teams].
Proof.
  cbv zeta. split; [reflexivity|].
  vm_compute. intros H. discriminate H.
Qed.

(** When the answer about the object is [null], the handler stops after the
    teams, also with hierarchical information. *)
Example getModelObject_null_answer :
  let env := sampleEnv (always 200 "OK" "null") in
  Main.getModelObject env landscape1 gatewayId true []
  = (Ok {| Main.content :=
             [{| Main.type := "text";
                 Main.text :=
                   "Error: Cannot read properties of null (reading 'modelObject')" |}] |},
     [objectRequest env landscape1 gatewayId; teamsRequest env]).
Proof. reflexivity. Qed.

(** C6.  The outgoing section is built from the incoming connections.  For
    every object and every non-empty list of outgoing connections, when there
    is no incoming connection the rendering is the title and the heading
    "Outgoing connections" with not a single line under it; and with one
    connection of each kind the line under that heading names the incoming
    connection. *)
Theorem outgoing_section_from_incoming :
  (∀ modelObject c outgoing modelObjects,
     Format.outgoingConnectionLines modelObject [] (c :: outgoing) modelObjects = []
     ∧ Format.formatConnections modelObject [] (c :: outgoing) modelObjects
       = "# " +:+ tpl (ModelObject.name modelObject) +:+ " - Connections"
         +:+ Format.nl +:+ Format.nl +:+ "### Outgoing connections" +:+ Format.nl)
  ∧ Format.formatConnections payments [] [sampleConnection "writes" "p1" "l1"]
      [payments; ledger; shop]
    = "# Payments - Connections" +:+ Format.nl +:+ Format.nl
      +:+ "### Outgoing connections" +:+ Format.nl
  ∧ Format.outgoingConnectionLines payments
      [sampleConnection "orders" "s1" "p1"] [sampleConnection "writes" "p1" "l1"]
      [payments; ledger; shop]
    = ["Payments (system) -[orders]-> Payments (system)"].
Proof.
  split; [|split; reflexivity].
  intros modelObject c outgoing modelObjects. split; [reflexivity|].
  unfold Format.formatConnections, Format.referencedModels,
    Format.outgoingConnectionLines. simpl.
  by rewrite !string_app_assoc.
Qed.

(** *** Instances of the theorems *)

(** The sample values are read back from their JSON texts. *)
Example sample_answers_read :
  JSON_parse sample (print collectionAnswer) = Ok collectionAnswer
  ∧ view_modelObjects sample collectionAnswer = Some [gateway; orders; archive]
  ∧ view_modelObject sample objectAnswer = Some gateway
  ∧ view_teams sample teamsAnswer = Some [platform]
  ∧ view_modelConnections sample outgoingAnswer = Some [places]
  ∧ view_diagram sample diagramAnswer = Some overview.
Proof. repeat split; reflexivity. Qed.

Lemma sampleFilter_description : FilterDescription sampleFilter.
Proof.
  split; [apply (bool_decide_unpack _); by vm_compute|by repeat constructor].
Defined.

Lemma sampleFilter_typed : TypedLabels sampleFilter.
Proof.
  intros v H. apply list_elem_of_In in H. simpl in H.
  repeat destruct H as [H|H]; try discriminate H. destruct H.
Defined.

Lemma list_value_pairs_witness :
  FilterDescription sampleFilter
  ∧ ("type", FArray [SString "system"; SString "actor"]) ∈ sampleFilter
  ∧ TypedLabels sampleFilter
  ∧ pairsNamed "filter[type][]"
      (Icepanel.technologiesParams {| Options.filter := Some sampleFilter |})
    = [("filter[type][]", "system"); ("filter[type][]", "actor")]
  ∧ ∃ out, Icepanel.modelParams {| Options.filter := Some sampleFilter |} = Ok out
           ∧ pairsNamed "filter[type][]" out
             = [("filter[type][]", "system"); ("filter[type][]", "actor")].
Proof.
  assert (Hin : ("type", FArray [SString "system"; SString "actor"]) ∈ sampleFilter)
    by (apply list_elem_of_In; left; reflexivity).
  pose proof (list_value_pairs sampleFilter "type" [SString "system"; SString "actor"]
                sampleFilter_description Hin) as H.
  cbv zeta in H. destruct H as (H1 & _ & H3).
  exact (conj sampleFilter_description
           (conj Hin (conj sampleFilter_typed (conj H1 (H3 sampleFilter_typed))))).
Defined.

Lemma null_value_pair_witness :
  FilterDescription sampleFilter
  ∧ ("parentId", FNull) ∈ sampleFilter
  ∧ TypedLabels sampleFilter
  ∧ pairsNamed "filter[parentId]"
      (Icepanel.technologiesParams {| Options.filter := Some sampleFilter |})
    = [("filter[parentId]", "null")]
  ∧ ∃ out, Icepanel.modelParams {| Options.filter := Some sampleFilter |} = Ok out
           ∧ pairsNamed "filter[parentId]" out = [("filter[parentId]", "null")].
Proof.
  assert (Hin : ("parentId", FNull) ∈ sampleFilter)
    by (apply list_elem_of_In; right; right; left; reflexivity).
  pose proof (null_value_pair sampleFilter "parentId" sampleFilter_description Hin) as H.
  cbv zeta in H. destruct H as (H1 & H2).
  exact (conj sampleFilter_description
           (conj Hin (conj sampleFilter_typed (conj H1 (H2 sampleFilter_typed))))).
Defined.

Lemma scalar_pair_count_witness :
  let f : Filter :=
    [("external", FScalar (SBool false)); ("name", FUndefined);
     ("search", FScalar (SString "pay")); ("parentId", FNull)] in
  Forall (λ e, scalarOrUnset e.2 ∨ (e.2 = FNull ∧ e.1 ≠ "labels")) f
  ∧ length (Icepanel.technologiesParams {| Options.filter := Some f |}) = 3%nat
  ∧ ∃ out, Icepanel.modelParams {| Options.filter := Some f |} = Ok out
           ∧ length out = 3%nat.
Proof.
  cbv zeta.
  assert (Hf : Forall (λ e : string * FilterValue,
                         scalarOrUnset e.2 ∨ (e.2 = FNull ∧ e.1 ≠ "labels"))
                 [("external", FScalar (SBool false)); ("name", FUndefined);
                  ("search", FScalar (SString "pay")); ("parentId", FNull)]).
  { repeat apply Forall_cons_2; try apply Forall_nil_2; simpl.
    - left. right. by eexists.
    - left. by left.
    - left. right. by eexists.
    - right. split; [reflexivity|discriminate]. }
  split; [exact Hf|].
  destruct (scalar_pair_count _ Hf) as (H1 & H2 & _).
  split; [exact H1|exact H2].
Defined.

Lemma non_success_response_witness :
  let notFound :=
    {| Response.status := 404; Response.statusText := "Not Found";
       Response.bodyText := "no such landscape" |} in
  let env := sampleEnv (always 404 "Not Found" "no such landscape") in
  Response.ok notFound = false
  ∧ Icepanel.apiRequest env "/organizations/org1/landscapes" Icepanel.noInit []
    = (Throw {| message := "IcePanel API error: 404 Not Found - no such landscape" |},
       [Icepanel.requestOf env "/organizations/org1/landscapes" Icepanel.noInit])
  ∧ Main.getModelObjects env (sampleArgs None) []
    = (Ok {| Main.content :=
               [{| Main.type := "text";
                   Main.text :=
                     "Error: IcePanel API error: 404 Not Found - no such landscape" |}] |},
       [modelObjectsRequest env (sampleArgs None)]).
Proof.
  cbv zeta.
  pose proof (non_success_response (sampleEnv (always 404 "Not Found" "no such landscape"))
                "/organizations/org1/landscapes" Icepanel.noInit (sampleArgs None) []
                {| Response.status := 404; Response.statusText := "Not Found";
                   Response.bodyText := "no such landscape" |} eq_refl) as H.
  cbv zeta in H. destruct H as [H1 H2].
  exact (conj eq_refl (conj (proj1 (H1 eq_refl)) (H2 eq_refl))).
Defined.

Lemma empty_search_is_identity_witness :
  (Some "" = None ∨ Some "" = Some "")
  ∧ Main.fuseFilter sample [gateway; orders; archive] ["name"; "description"] (Some "")
    = [gateway; orders; archive]
  ∧ (Main.getModelObjects sample (sampleArgs (Some "")) []).1
    = Ok {| Main.content :=
              map (λ o, {| Main.type := "text";
                           Main.text := Format.formatModelObjectListItem landscape1 o |})
                  [gateway; orders; archive] |}.
Proof.
  pose proof (empty_search_is_identity sample (Some "") (or_intror eq_refl)) as H.
  cbv zeta in H. destruct H as (H1 & H2 & _).
  exact (conj (or_intror eq_refl)
           (conj (H1 _ _ _)
                 (H2 (sampleArgs (Some "")) [] collectionAnswer eq_refl eq_refl))).
Defined.

Lemma addObjectsToDiagram_sends_union_witness :
  let newIds := [ordersId; archiveId; archiveId] in
  newIds ≠ []
  ∧ answer sample [] (diagramRequest sample landscape1 diagram1) = Ok diagramAnswer
  ∧ is_null sample diagramAnswer = false
  ∧ view_diagram sample diagramAnswer = Some overview
  ∧ ∃ update rest,
      (Main.addObjectsToDiagram sample landscape1 diagram1 newIds []).2
      = [diagramRequest sample landscape1 diagram1; update] ++ rest
      ∧ Request.method update = Some "PATCH"
      ∧ Request.url update
        = "https://api.icepanel.io/v1/landscapes/landscape00000000001/versions/latest"
          +:+ "/diagrams/diagram1"
      ∧ Request.body update
        = Some [("objectIds", DStrings [gatewayId; ordersId; archiveId])].
Proof.
  cbv zeta.
  assert (Hnew : [ordersId; archiveId; archiveId] ≠ ([] : list string)) by discriminate.
  pose proof (addObjectsToDiagram_sends_union sample landscape1 diagram1
                [ordersId; archiveId; archiveId] [] diagramAnswer overview
                Hnew eq_refl eq_refl eq_refl) as H.
  cbv zeta in H. destruct H as (H1 & _).
  exact (conj Hnew (conj eq_refl (conj eq_refl (conj eq_refl H1)))).
Defined.

Lemma search_reaches_remote_filter_witness :
  Main.search (sampleArgs (Some "gate way")) = Some "gate way"
  ∧ "gate way" ≠ ""
  ∧ ∃ request query,
      (Main.getModelObjects sample (sampleArgs (Some "gate way")) []).2 = [request]
      ∧ Request.url request
        = "https://api.icepanel.io/v1/landscapes/landscape00000000001/versions/latest"
          +:+ "/model/objects?" +:+ query
      ∧ pairsNamed "filter[search]" (parseQuery query) = [("filter[search]", "gate way")].
Proof.
  assert (Hs : "gate way" ≠ "") by discriminate.
  destruct (search_reaches_remote_filter sample (sampleArgs (Some "gate way")) "gate way"
              [] eq_refl Hs)
    as (request & query & H1 & H2 & H3 & _).
  exact (conj eq_refl (conj Hs (ex_intro _ request (ex_intro _ query
           (conj H1 (conj H2 H3)))))).
Defined.

Example search_request_url :
  map Request.url (Main.getModelObjects sample (sampleArgs (Some "gate way")) []).2
  = ["https://api.icepanel.io/v1/landscapes/landscape00000000001/versions/latest"
     +:+ "/model/objects?filter%5Bexternal%5D=false&filter%5Btype%5D%5B%5D=system"
     +:+ "&filter%5Btype%5D%5B%5D=actor&filter%5Bsearch%5D=gate+way"]
  ∧ parseQuery ("filter%5Bexternal%5D=false&filter%5Btype%5D%5B%5D=system"
                +:+ "&filter%5Btype%5D%5B%5D=actor&filter%5Bsearch%5D=gate+way")
    = [("filter[external]", "false"); ("filter[type][]", "system");
       ("filter[type][]", "actor"); ("filter[search]", "gate way")].
Proof. split; reflexivity. Qed.

Example addObjectsToDiagram_example :
  Main.addObjectsToDiagram sample landscape1 diagram1 [ordersId; archiveId; archiveId] []
  = (Ok (Main.textResult
           ("Successfully added 3 objects to diagram " +:+ quote +:+ "Overview" +:+ quote
            +:+ " (ID: diagram1)." +:+ Format.nl +:+ "The diagram now contains 3 objects.")),
     [diagramRequest sample landscape1 diagram1;
      objectIdsUpdate sample landscape1 diagram1 [gatewayId; ordersId; archiveId];
      diagramRequest sample landscape1 diagram1]).
Proof. reflexivity. Qed.

Example empty_objectIds_rejected :
  Main.addObjectsToDiagram sample landscape1 diagram1 [] []
  = (Ok (Main.textResult
           "Error adding objects to diagram: objectIds must be a non-empty array of strings"),
     []).
Proof. reflexivity. Qed.

(** X1.  Whatever the remote API answers, a tool invocation only adds
    requests to those issued before it, at most four of them, and every one
    of them goes to the configured API base URL with the three headers of
    the client, the API key among them. *)
Theorem tool_requests_bounded (env : Env) (call : Main.ToolCall) :
  Issues (addressed env) 4 (Main.callTool env call).
Proof.
  destruct call; unfold_tools;
    (eapply Issues_mono; [|issues ltac:(apply addressed_requestOf)]); simpl; lia.
Qed.

(** X2.  The querying tools issue nothing but reading requests: no method
    other than the default GET and no body. *)
Theorem querying_tools_only_read (env : Env) (call : Main.ToolCall) :
  queries call = true →
  Issues reading 4 (Main.callTool env call).
Proof.
  destruct call; try discriminate; intros _; unfold_tools;
    (eapply Issues_mono; [|issues ltac:(apply reading_requestOf)]); simpl; lia.
Qed.

(** ** More on the filter encoder *)

Lemma flat_map_added_nil (f : Filter) :
  Forall (λ e, e.2 = FUndefined) f → flat_map added f = [].
Proof.
  induction 1 as [|[k v] f Hv _ IH]; [done|].
  simpl in *. subst v. by rewrite IH.
Qed.

Lemma unset_no_null (f : Filter) :
  Forall (λ e, e.2 = FUndefined) f → ("labels", FNull) ∉ f.
Proof.
  intros Hf Hin. rewrite Forall_forall in Hf. by specialize (Hf _ Hin).
Qed.

Lemma querySuffix_empty_iff (params : list (string * string)) :
  Icepanel.querySuffix params = "" ↔ params = [].
Proof.
  split; [|by intros ->].
  destruct params as [|p ps]; [done|]. by rewrite querySuffix_cons.
Qed.

(** X3.  The encoder of [getModelObjects] and [getModelConnections] throws
    exactly when the filter holds [null] under [labels]; the error is the
    one of [Object.entries], and the function then issues no request. *)
Theorem encoder_throws_iff_null_labels (f : Filter) :
  (("labels", FNull) ∈ f
   ↔ Icepanel.modelParams {| Options.filter := Some f |}
     = Throw {| message := "Cannot convert undefined or null to object" |})
  ∧ (("labels", FNull) ∉ f
     ↔ ∃ out, Icepanel.modelParams {| Options.filter := Some f |} = Ok out)
  ∧ (("labels", FNull) ∈ f →
     ∀ env landscapeId versionId tr,
       Icepanel.getModelObjects env landscapeId versionId {| Options.filter := Some f |} tr
       = (Throw {| message := "Cannot convert undefined or null to object" |}, tr)
       ∧ Icepanel.getModelConnections env landscapeId versionId
           {| Options.filter := Some f |} tr
         = (Throw {| message := "Cannot convert undefined or null to object" |}, tr)).
Proof.
  assert (Hthrow : ("labels", FNull) ∈ f →
            Icepanel.modelParams {| Options.filter := Some f |}
            = Throw {| message := "Cannot convert undefined or null to object" |}).
  { intros Hin. unfold Icepanel.modelParams; simpl. by apply forEachEntry_null_labels. }
  split; [|split].
  - split; [done|]. intros Hp.
    destruct (decide (("labels", FNull) ∈ f)) as [|Hnot]; [done|].
    by rewrite modelParams_flat in Hp.
  - split; [intros Hnot; eexists; by apply modelParams_flat|].
    intros [out Hout] Hin. by rewrite Hthrow in Hout.
  - intros Hin env landscapeId versionId tr.
    unfold Icepanel.getModelObjects, Icepanel.getModelConnections, bind, lift.
    by rewrite Hthrow.
Qed.

(** X4.  Filters compose: encoding the entries of two filters one after the
    other gives the pairs of the first followed by the pairs of the second,
    and the encoder of the model functions throws when either part does. *)
Theorem encoders_compose (f1 f2 : Filter) :
  Icepanel.technologiesParams {| Options.filter := Some (f1 ++ f2) |}
  = Icepanel.technologiesParams {| Options.filter := Some f1 |}
    ++ Icepanel.technologiesParams {| Options.filter := Some f2 |}
  ∧ Icepanel.modelParams {| Options.filter := Some (f1 ++ f2) |}
    = match Icepanel.modelParams {| Options.filter := Some f1 |},
            Icepanel.modelParams {| Options.filter := Some f2 |} with
      | Ok ps1, Ok ps2 => Ok (ps1 ++ ps2)
      | Throw e, _ => Throw e
      | Ok _, Throw e => Throw e
      end.
Proof.
  split.
  - rewrite !technologiesParams_flat. apply flat_map_app.
  - destruct (decide (("labels", FNull) ∈ f1)) as [H1|H1].
    + unfold Icepanel.modelParams; simpl.
      rewrite !forEachEntry_null_labels; [done..|].
      apply elem_of_app. by left.
    + rewrite (modelParams_flat f1 H1).
      destruct (decide (("labels", FNull) ∈ f2)) as [H2|H2].
      * unfold Icepanel.modelParams; simpl.
        rewrite !forEachEntry_null_labels; [done..|].
        apply elem_of_app. by right.
      * rewrite (modelParams_flat f2 H2), modelParams_flat, flat_map_app; [done|].
        intros [?|?]%elem_of_app; done.
Qed.

(** X5.  Every pair an encoder emits is named [filter[k]], possibly followed
    by more, for a key [k] of the filter whose value is set: nothing is
    emitted for an unset key and no other name is produced. *)
Theorem emitted_names (f : Filter) (params : list (string * string)) (p : string * string) :
  params = Icepanel.technologiesParams {| Options.filter := Some f |}
  ∨ Icepanel.modelParams {| Options.filter := Some f |} = Ok params →
  p ∈ params →
  ∃ k v rest, (k, v) ∈ f ∧ v ≠ FUndefined ∧ p.1 = "filter[" +:+ k +:+ "]" +:+ rest.
Proof.
  intros [->|Hparams] Hp.
  - rewrite technologiesParams_flat in Hp.
    apply list_elem_of_In, in_flat_map in Hp
      as ([k v] & Hin%list_elem_of_In & Hp%list_elem_of_In).
    destruct (appendEntry_names _ _ _ Hp) as [rest Hrest].
    exists k, v, rest. split; [done|]. split; [|exact Hrest].
    intros ->. simpl in Hp. by apply elem_of_nil in Hp.
  - assert (params = flat_map added f) as ->.
    { destruct (decide (("labels", FNull) ∈ f)) as [Hin|Hnot].
      - unfold Icepanel.modelParams in Hparams; simpl in Hparams.
        by rewrite forEachEntry_null_labels in Hparams.
      - rewrite modelParams_flat in Hparams by done. by injection Hparams. }
    apply list_elem_of_In, in_flat_map in Hp
      as ([k v] & Hin%list_elem_of_In & Hp%list_elem_of_In).
    destruct (added_names _ _ _ Hp) as [rest Hrest].
    exists k, v, rest. split; [done|]. split; [|exact Hrest].
    intros ->. unfold added in Hp. simpl in Hp. by apply elem_of_nil in Hp.
Qed.

(** X6.  A filter whose keys are all unset gives no query string: the
    request goes to the bare path, without a question mark; and the query
    suffix is empty only for an empty parameter list. *)
Theorem unset_filter_no_query (env : Env) (f : Filter) landscapeId versionId tr :
  Forall (λ e, e.2 = FUndefined) f →
  (Icepanel.getCatalogTechnologies env {| Options.filter := Some f |} tr).2
  = tr ++ [Icepanel.requestOf env "/catalog/technologies" Icepanel.noInit]
  ∧ (Icepanel.getModelObjects env landscapeId versionId {| Options.filter := Some f |} tr).2
    = tr ++ [Icepanel.requestOf env
               ("/landscapes/" +:+ landscapeId +:+ "/versions/" +:+ versionId
                +:+ "/model/objects") Icepanel.noInit]
  ∧ ∀ params, Icepanel.querySuffix params = "" ↔ params = [].
Proof.
  intros Hf. split; [|split; [|apply querySuffix_empty_iff]].
  - unfold Icepanel.getCatalogTechnologies. rewrite technologiesParams_flat.
    assert (flat_map (λ e : string * FilterValue, Icepanel.appendEntry [] e.1 e.2) f = [])
      as ->.
    { induction Hf as [|[k v] f Hv _ IH]; [done|]. simpl in *. subst v. by rewrite IH. }
    by rewrite apiRequest_run.
  - unfold Icepanel.getModelObjects, bind, lift.
    rewrite (modelParams_flat f (unset_no_null f Hf)), flat_map_added_nil by done.
    rewrite apiRequest_run. reflexivity.
Qed.

(** X7.  Whatever its arguments, the tool [getModelObjects] encodes its
    filter without failure and always sends exactly one pair named
    [filter[external]], with the value of the flag (false when it was not
    given), so that its request always has a query string. *)
Theorem getModelObjects_always_filters_external (args : Main.GetModelObjectsArgs) :
  ∃ params,
    Icepanel.modelParams {| Options.filter := Some (Main.filters args) |} = Ok params
    ∧ pairsNamed "filter[external]" params
      = [("filter[external]", ofBool (Main.external args))]
    ∧ Icepanel.querySuffix params = "?" +:+ URLSearchParams.toString params.
Proof.
  exists (flat_map added (Main.filters args)).
  split; [apply modelParams_flat, filters_no_labels|]. split.
  - etrans;
      [apply (pairsNamed_entry added (Main.filters args) "external" ""
                (FScalar (SBool (Main.external args))));
       [intros [k' v'] p; apply added_names|apply filters_description|]
      |by apply filter_all; intros p ->%list_elem_of_singleton].
    unfold Main.filters. right. left.
  - destruct (flat_map added (Main.filters args)) as [|p ps] eqn:E;
      [by apply params_nonempty in E|].
    apply querySuffix_cons.
Qed.

(** ** Diagrams *)

Lemma elem_of_definedProps (props : list (string * option JsonData)) key v :
  (key, v) ∈ definedProps props ↔ (key, Some v) ∈ props.
Proof.
  unfold definedProps. rewrite list_elem_of_omap. split.
  - intros ([k [w|]] & Hin & Heq); simpl in Heq; [|done].
    by injection Heq as -> ->.
  - intros Hin. by exists (key, Some v).
Qed.

Section DiagramTools.

Variable env : Env.

(** X8.  [createDiagramWithObjects] and [addObjectsToDiagram] reject an
    absent or empty list of object ids before any remote call: the result is
    the error text and no request is issued. *)
Theorem empty_objectIds_no_request (args : Main.DiagramArgs) landscapeId diagramId tr :
  Main.objectIds args = None ∨ Main.objectIds args = Some [] →
  Main.createDiagramWithObjects env args tr
  = (Ok (Main.textResult
           ("Error creating diagram with objects: "
            +:+ "objectIds must be a non-empty array of strings")), tr)
  ∧ Main.addObjectsToDiagram env landscapeId diagramId [] tr
    = (Ok (Main.textResult
             ("Error adding objects to diagram: "
              +:+ "objectIds must be a non-empty array of strings")), tr).
Proof.
  intros Hids. split; [|reflexivity].
  unfold Main.createDiagramWithObjects, Main.createDiagramWithObjects_try, tryCatch, bind.
  by destruct Hids as [-> | ->].
Qed.

(** The request of the client's [createDiagram]. *)
Lemma createDiagram_run landscapeId data tr :
  Icepanel.createDiagram env landscapeId data "latest" tr
  = let request :=
      Icepanel.requestOf env
        ("/landscapes/" +:+ landscapeId +:+ "/versions/latest/diagrams")
        {| Icepanel.method := Some "POST";
           Icepanel.body :=
             Some (definedProps
                     (Icepanel.diagramProps
                        {| Icepanel.name := Icepanel.name data;
                           Icepanel.viewType := Icepanel.viewType data;
                           Icepanel.description := Icepanel.description data;
                           Icepanel.rootObjectId := Icepanel.rootObjectId data;
                           Icepanel.objectIds :=
                             Some (default [] (Icepanel.objectIds data)) |})) |} in
    (match answer env tr request with
     | Ok json => Icepanel.typedResponse env json
     | Throw e => Throw e
     end, tr ++ [request]).
Proof.
  unfold Icepanel.createDiagram, bind. rewrite apiRequest_run. cbv zeta.
  by destruct (answer env tr _).
Qed.

Lemma updateDiagram_full_run landscapeId diagramId data tr :
  Icepanel.updateDiagram env landscapeId diagramId data "latest" tr
  = let request :=
      Icepanel.requestOf env
        ("/landscapes/" +:+ landscapeId +:+ "/versions/latest/diagrams/" +:+ diagramId)
        {| Icepanel.method := Some "PATCH";
           Icepanel.body := Some (definedProps (Icepanel.diagramProps data)) |} in
    (match answer env tr request with
     | Ok json => Icepanel.typedResponse env json
     | Throw e => Throw e
     end, tr ++ [request]).
Proof.
  unfold Icepanel.updateDiagram, bind. rewrite apiRequest_run. cbv zeta.
  by destruct (answer env tr _).
Qed.

(** X9.  The client's [createDiagram] sends one request, a POST to the
    diagrams of the landscape, whose body holds the supplied name, view
    type, description and root object and always an [objectIds] array, empty
    when none was supplied; [updateDiagram] sends one request, a PATCH to
    the diagram, whose body holds exactly the supplied properties, so
    [objectIds] is there only when it was given. *)
Theorem diagram_request_bodies landscapeId diagramId (data : Icepanel.DiagramData) tr :
  (∃ request body,
     (Icepanel.createDiagram env landscapeId data "latest" tr).2 = tr ++ [request]
     ∧ Request.method request = Some "POST"
     ∧ Request.url request
       = Icepanel.API_BASE_URL env +:+ "/landscapes/" +:+ landscapeId
         +:+ "/versions/latest/diagrams"
     ∧ Request.body request = Some body
     ∧ ∀ key v,
         (key, v) ∈ body
         ↔ (key, Some v)
             ∈ [("name", DString <$> Icepanel.name data);
                ("viewType", DString <$> Icepanel.viewType data);
                ("description", DString <$> Icepanel.description data);
                ("rootObjectId", DString <$> Icepanel.rootObjectId data);
                ("objectIds", Some (DStrings (default [] (Icepanel.objectIds data))))])
  ∧ (∃ request body,
       (Icepanel.updateDiagram env landscapeId diagramId data "latest" tr).2
       = tr ++ [request]
       ∧ Request.method request = Some "PATCH"
       ∧ Request.url request
         = Icepanel.API_BASE_URL env +:+ "/landscapes/" +:+ landscapeId
           +:+ "/versions/latest/diagrams/" +:+ diagramId
       ∧ Request.body request = Some body
       ∧ (∀ key v,
            (key, v) ∈ body
            ↔ (key, Some v)
                ∈ [("name", DString <$> Icepanel.name data);
                   ("viewType", DString <$> Icepanel.viewType data);
                   ("description", DString <$> Icepanel.description data);
                   ("rootObjectId", DString <$> Icepanel.rootObjectId data);
                   ("objectIds", DStrings <$> Icepanel.objectIds data)])
       ∧ (∀ ids, ("objectIds", DStrings ids) ∈ body ↔ Icepanel.objectIds data = Some ids)).
Proof.
  split.
  - rewrite createDiagram_run. cbv zeta. eexists _, _.
    split; [reflexivity|]. split; [reflexivity|]. split; [reflexivity|].
    split; [reflexivity|]. intros key v. apply elem_of_definedProps.
  - rewrite updateDiagram_full_run. cbv zeta. eexists _, _.
    split; [reflexivity|]. split; [reflexivity|]. split; [reflexivity|].
    split; [reflexivity|]. split; [intros key v; apply elem_of_definedProps|].
    intros ids. rewrite elem_of_definedProps. unfold Icepanel.diagramProps. split.
    + intros Hin. repeat (apply elem_of_cons in Hin as [Heq|Hin]);
        try (by apply elem_of_nil in Hin); try discriminate Heq.
      injection Heq as Heq. destruct (Icepanel.objectIds data); [|done].
      by injection Heq as ->.
    + intros ->. do 4 right. left.
Qed.

(** X10.  What the client's [createDiagram] and [updateDiagram] return is
    read from the answer to the request they sent.  When the answer is
    [null] they throw the [TypeError] of reading its [diagram]; otherwise
    they return a response whose diagram is the diagram of the answer, with
    the same id and name and with [objectIds] set to the empty list when the
    answer has none, and which has no diagram when the answer has none. *)
Theorem diagram_response_has_objectIds landscapeId diagramId (data : Icepanel.DiagramData)
    (call : M DiagramResponse.t) tr request json :
  call = Icepanel.createDiagram env landscapeId data "latest"
  ∨ call = Icepanel.updateDiagram env landscapeId diagramId data "latest" →
  (call tr).2 = tr ++ [request] →
  answer env tr request = Ok json →
  (is_null env json = true →
   (call tr).1
   = Throw {| message := "Cannot read properties of null (reading 'diagram')" |})
  ∧ (is_null env json = false →
     ∃ response,
       (call tr).1 = Ok response
       ∧ (view_diagram env json = None → DiagramResponse.diagram response = None)
       ∧ (∀ parsed,
            view_diagram env json = Some parsed →
            DiagramResponse.diagram response
            = Some {| Diagram.id := Diagram.id parsed;
                      Diagram.name := Diagram.name parsed;
                      Diagram.objectIds :=
                        Some (default [] (Diagram.objectIds parsed)) |})).
Proof.
  intros Hcall Htrace Hanswer.
  assert (Hrun : (call tr).1 = Icepanel.typedResponse env json).
  { destruct Hcall as [-> | ->];
      [rewrite createDiagram_run in Htrace |- *
      |rewrite updateDiagram_full_run in Htrace |- *];
      cbv zeta in Htrace |- *; simpl in Htrace |- *;
      apply app_inv_head in Htrace; injection Htrace as <-;
      by rewrite Hanswer. }
  rewrite Hrun. unfold Icepanel.typedResponse, property. split; intros ->; [done|].
  eexists. split; [reflexivity|]. simpl. split.
  - by intros ->.
  - by intros parsed ->.
Qed.

End DiagramTools.

(** ** More on merging ids *)

Lemma firstOccurrences_seen (seen ids : list string) :
  (∀ x, x ∈ ids → x ∈ seen) → firstOccurrences seen ids = [].
Proof.
  induction ids as [|x ids IH]; intros Hsub; simpl; [done|].
  rewrite bool_decide_eq_true_2 by (apply Hsub; left).
  apply IH. intros y Hy. apply Hsub. by right.
Qed.

Lemma Array_from_Set_firstOccurrences (ids : list string) :
  Array_from_Set ids = firstOccurrences [] ids.
Proof. unfold Array_from_Set. by rewrite fold_Set_add. Qed.

Lemma firstOccurrences_length (seen ids : list string) :
  (length (firstOccurrences seen ids) ≤ length ids)%nat.
Proof.
  revert seen. induction ids as [|x ids IH]; intros seen; simpl; [done|].
  case_bool_decide; [specialize (IH seen)|specialize (IH (seen ++ [x]))]; simpl; lia.
Qed.

(** X11.  Adding object ids that a diagram already has changes nothing:
    when the existing list has no repetition and every new id is in it, the
    list merged through [Set] is the existing list.  In general the merged
    list is never longer than the two lists together. *)
Theorem adding_present_ids (existing new : list string) :
  NoDup existing → (∀ x, x ∈ new → x ∈ existing) →
  Array_from_Set (existing ++ new) = existing
  ∧ ∀ others : list string,
      (length (Array_from_Set (existing ++ others)) ≤ length existing + length others)%nat.
Proof.
  intros Hnodup Hsub. split.
  - rewrite Array_from_Set_union. unfold orderedUnion.
    rewrite firstOccurrences_fresh, firstOccurrences_seen, app_nil_r; try done.
    intros x _. apply not_elem_of_nil.
  - intros others. rewrite Array_from_Set_firstOccurrences.
    etrans; [apply firstOccurrences_length|]. by rewrite length_app.
Qed.

(** X12.  [Array.from(new Set(ids))] leaves a list as it is exactly when the
    list has no repetition, and applying it twice is the same as applying it
    once. *)
Theorem Array_from_Set_fixpoint (ids : list string) :
  (Array_from_Set ids = ids ↔ NoDup ids)
  ∧ Array_from_Set (Array_from_Set ids) = Array_from_Set ids.
Proof.
  assert (Hfix : ∀ l : list string, NoDup l → Array_from_Set l = l).
  { intros l Hl. rewrite Array_from_Set_firstOccurrences.
    apply firstOccurrences_fresh; [done|]. intros x _. apply not_elem_of_nil. }
  split; [split; [|apply Hfix]|].
  - intros <-. rewrite Array_from_Set_firstOccurrences. apply NoDup_firstOccurrences_nil.
  - apply Hfix. rewrite Array_from_Set_firstOccurrences. apply NoDup_firstOccurrences_nil.
Qed.

(** ** The truncated description *)

(** What the backward search returns: the greatest position of the code
    unit that is not beyond [from], or [-1] when there is none. *)
Lemma lastIndexOfFrom_spec (c : N) (whole s : Utf16.t) (i from : nat) (found : Z) :
  (∀ j, s !! j = whole !! (i + j)%nat) →
  (found = (-1)%Z ∧ ∀ j, (j < i)%nat → (j ≤ from)%nat → whole !! j ≠ Some c)
  ∨ (∃ p, found = Z.of_nat p ∧ (p < i)%nat ∧ (p ≤ from)%nat ∧ whole !! p = Some c
          ∧ ∀ j, (p < j < i)%nat → (j ≤ from)%nat → whole !! j ≠ Some c) →
  let r := Utf16.lastIndexOfFrom c s i from found in
  (r = (-1)%Z ∧ ∀ j, (j ≤ from)%nat → whole !! j ≠ Some c)
  ∨ (∃ p, r = Z.of_nat p ∧ (p ≤ from)%nat ∧ whole !! p = Some c
          ∧ ∀ j, (p < j ≤ from)%nat → whole !! j ≠ Some c).
Proof.
  revert i found. induction s as [|d s IH]; intros i found Hs Hfound; simpl.
  - assert (Hend : ∀ j, (i ≤ j)%nat → whole !! j = None).
    { intros j Hj. specialize (Hs (j - i)%nat). simpl in Hs.
      replace (i + (j - i))%nat with j in Hs by lia. done. }
    destruct Hfound as [[-> Hno]|(p & -> & Hp & Hfrom & Hget & Hno)].
    + left. split; [done|]. intros j Hj.
      destruct (decide (j < i)%nat); [by apply Hno|]. rewrite Hend by lia. done.
    + right. exists p. repeat split; try done. intros j Hj.
      destruct (decide (j < i)%nat); [apply Hno; lia|]. rewrite Hend by lia. done.
  - assert (Hd : whole !! i = Some d).
    { specialize (Hs 0%nat). simpl in Hs. by rewrite Nat.add_0_r in Hs. }
    case_decide as Hi.
    + destruct Hfound as [[-> Hno]|(p & -> & Hp & Hfrom & Hget & Hno)].
      * left. split; [done|]. intros j Hj. apply Hno; lia.
      * right. exists p. repeat split; try done. intros j Hj. apply Hno; lia.
    + apply IH.
      * intros j. specialize (Hs (S j)). simpl in Hs. rewrite Hs. f_equal. lia.
      * case_decide as Hc.
        -- right. exists i. subst d. repeat split; try done; try lia.
        -- assert (Hne : whole !! i ≠ Some c) by (rewrite Hd; congruence).
           destruct Hfound as [[-> Hno]|(p & -> & Hp & Hfrom & Hget & Hno)].
           ++ left. split; [done|]. intros j Hj Hj'.
              destruct (decide (j = i)) as [->|]; [done|]. apply Hno; lia.
           ++ right. exists p. repeat split; try done; try lia. intros j Hj Hj'.
              destruct (decide (j = i)) as [->|]; [done|]. apply Hno; lia.
Qed.

Lemma lastIndexOf_spec (c : N) (s : Utf16.t) (from : nat) :
  (Utf16.lastIndexOf c s from = (-1)%Z ∧ ∀ j, (j ≤ from)%nat → s !! j ≠ Some c)
  ∨ (∃ p, Utf16.lastIndexOf c s from = Z.of_nat p ∧ (p ≤ from)%nat ∧ s !! p = Some c
          ∧ ∀ j, (p < j ≤ from)%nat → s !! j ≠ Some c).
Proof.
  unfold Utf16.lastIndexOf. apply (lastIndexOfFrom_spec c s s 0 from); [done|].
  left. split; [done|]. intros j Hj. lia.
Qed.

(** X13.  The description shown in a list item is a prefix of the
    description and never longer than 150 code units: a description of at
    most 150 code units is kept whole; a longer one is cut to a prefix that
    is not empty, and when it is cut before index 150 the cut is at a
    space, the last one up to index 150. *)
Theorem truncatedDescription_bounds (description : Utf16.t) :
  (∃ rest, description = Format.truncatedDescription description ++ rest)
  ∧ (length (Format.truncatedDescription description) ≤ 150)%nat
  ∧ ((length description ≤ 150)%nat →
     Format.truncatedDescription description = description)
  ∧ ((150 < length description)%nat →
     let n := length (Format.truncatedDescription description) in
     (0 < n)%nat
     ∧ ((n < 150)%nat →
        description !! n = Some Utf16.space
        ∧ ∀ j, (n < j ≤ 150)%nat → description !! j ≠ Some Utf16.space)).
Proof.
  unfold Format.truncatedDescription, Utf16.slice0.
  destruct (lastIndexOf_spec Utf16.space description 150)
    as [[Hr Hno]|(p & Hr & Hp & Hget & Hno)]; rewrite Hr.
  - repeat split.
    + case_decide; [|exists []; by rewrite app_nil_r].
      eexists. symmetry. apply take_drop.
    + case_decide; [|lia]. rewrite decide_False by lia. rewrite length_take. lia.
    + intros Hlen. by rewrite decide_False by lia.
    + rewrite decide_True by lia. rewrite decide_False by lia. rewrite length_take. lia.
    + rewrite decide_True in H0 by lia. rewrite decide_False in H0 by lia.
      rewrite length_take in H0. lia.
    + rewrite decide_True in H0 by lia. rewrite decide_False in H0 by lia.
      rewrite length_take in H0. lia.
  - repeat split.
    + case_decide; [|exists []; by rewrite app_nil_r].
      eexists. symmetry. apply take_drop.
    + case_decide; [|lia]. rewrite length_take. case_decide; lia.
    + intros Hlen. by rewrite decide_False by lia.
    + rewrite decide_True by lia. rewrite length_take. case_decide; lia.
    + rewrite decide_True in H0 |- * by lia. rewrite length_take in H0 |- *.
      case_decide as Hpos; [|lia]. rewrite Nat2Z.id in H0 |- *.
      rewrite Nat.min_l by lia. exact Hget.
    + rewrite decide_True in H0 |- * by lia. rewrite length_take in H0 |- *.
      case_decide as Hpos; [|lia]. rewrite Nat2Z.id in H0 |- *.
      rewrite Nat.min_l by lia. apply Hno.
Qed.

(** ** More tools *)

Section MoreTools.

Variable env : Env.

Lemma getModelConnections_run landscapeId key modelObjectId tr :
  Icepanel.getModelConnections env landscapeId "latest"
    {| Options.filter := Some [(key, FScalar (SString modelObjectId))] |} tr
  = (answer env tr (connectionsRequest env landscapeId key modelObjectId),
     tr ++ [connectionsRequest env landscapeId key modelObjectId]).
Proof.
  unfold Icepanel.getModelConnections, bind, lift, Icepanel.modelParams; simpl.
  unfold Icepanel.appendEntryLabels; simpl. rewrite andb_false_r. simpl.
  rewrite apiRequest_run. unfold connectionsRequest, URLSearchParams.append. simpl.
  by rewrite querySuffix_cons.
Qed.

(** The four requests of [getModelObjectRelationships] in a run in which no
    call fails. *)
Lemma getModelObjectRelationships_run landscapeId modelObjectId tr
    object collection outgoing incoming :
  let r1 := objectRequest env landscapeId modelObjectId in
  let r2 := collectionRequest env landscapeId in
  let r3 := connectionsRequest env landscapeId "originId" modelObjectId in
  let r4 := connectionsRequest env landscapeId "targetId" modelObjectId in
  answer env tr r1 = Ok object →
  answer env (tr ++ [r1]) r2 = Ok collection →
  answer env (tr ++ [r1; r2]) r3 = Ok outgoing →
  answer env (tr ++ [r1; r2; r3]) r4 = Ok incoming →
  Main.getModelObjectRelationships_try env landscapeId modelObjectId tr
  = (match
       (match property env object "modelObject" (view_modelObject env) with
        | Throw e => Throw e
        | Ok modelObject =>
        match property env incoming "modelConnections" (view_modelConnections env) with
        | Throw e => Throw e
        | Ok incomingConnections =>
        match property env outgoing "modelConnections" (view_modelConnections env) with
        | Throw e => Throw e
        | Ok outgoingConnections =>
        match property env collection "modelObjects" (view_modelObjects env) with
        | Throw e => Throw e
        | Ok modelObjects =>
            Format.formatConnectionsCall modelObject incomingConnections
              outgoingConnections modelObjects
        end end end end)
     with
     | Ok text => Ok (Main.textResult text)
     | Throw e => Throw e
     end, tr ++ [r1; r2; r3; r4]).
Proof.
  cbv zeta. intros H1 H2 H3 H4.
  unfold Main.getModelObjectRelationships_try.
  erewrite bind_ok; [|rewrite getModelObject_run, H1; reflexivity].
  erewrite bind_ok; [|rewrite getModelObjects_all_run, H2, <- app_assoc; reflexivity].
  erewrite bind_ok;
    [|rewrite getModelConnections_run; cbn [app]; rewrite H3, <- app_assoc; reflexivity].
  erewrite bind_ok;
    [|rewrite getModelConnections_run; cbn [app]; rewrite H4, <- app_assoc; reflexivity].
  unfold bind, lift, ret.
  destruct (property env object _ _); [|done].
  destruct (property env incoming _ _); [|done].
  destruct (property env outgoing _ _); [|done].
  destruct (property env collection _ _); [|done].
  by destruct (Format.formatConnectionsCall _ _ _ _).
Qed.

(** X14.  When none of its calls fails, [getModelObjectRelationships] issues
    four requests: the object, the whole collection, the connections whose
    [originId] is the object, and those whose [targetId] is the object.
    When the four answers hold what the interfaces declare, it renders the
    connections with the [targetId] answer as the incoming list and the
    [originId] answer as the outgoing list; when the answer about the object
    is [null], it reports the [TypeError] of reading [modelObject]. *)
Theorem getModelObjectRelationships_calls landscapeId modelObjectId tr
    object collection outgoing incoming :
  let r1 := objectRequest env landscapeId modelObjectId in
  let r2 := collectionRequest env landscapeId in
  let r3 := connectionsRequest env landscapeId "originId" modelObjectId in
  let r4 := connectionsRequest env landscapeId "targetId" modelObjectId in
  let connections query :=
    Icepanel.API_BASE_URL env +:+ "/landscapes/" +:+ landscapeId
    +:+ "/versions/latest/model/connections?" +:+ query in
  answer env tr r1 = Ok object →
  answer env (tr ++ [r1]) r2 = Ok collection →
  answer env (tr ++ [r1; r2]) r3 = Ok outgoing →
  answer env (tr ++ [r1; r2; r3]) r4 = Ok incoming →
  (Main.getModelObjectRelationships env landscapeId modelObjectId tr).2
  = tr ++ [r1; r2; r3; r4]
  ∧ (∃ query3 query4,
       Request.url r3 = connections query3
       ∧ parseQuery query3 = [("filter[originId]", modelObjectId)]
       ∧ Request.url r4 = connections query4
       ∧ parseQuery query4 = [("filter[targetId]", modelObjectId)])
  ∧ (∀ modelObject incomingConnections outgoingConnections modelObjects,
       is_null env object = false → is_null env collection = false →
       is_null env outgoing = false → is_null env incoming = false →
       view_modelObject env object = Some modelObject →
       view_modelConnections env incoming = Some incomingConnections →
       view_modelConnections env outgoing = Some outgoingConnections →
       view_modelObjects env collection = Some modelObjects →
       (Main.getModelObjectRelationships env landscapeId modelObjectId tr).1
       = Ok {| Main.content :=
                 [{| Main.type := "text";
                     Main.text :=
                       Format.formatConnections modelObject incomingConnections
                         outgoingConnections modelObjects |}] |})
  ∧ (is_null env object = true →
     (Main.getModelObjectRelationships env landscapeId modelObjectId tr).1
     = Ok {| Main.content :=
               [{| Main.type := "text";
                   Main.text :=
                     "Error: Cannot read properties of null (reading 'modelObject')" |}] |}).
Proof.
  cbv zeta. intros H1 H2 H3 H4.
  pose proof (getModelObjectRelationships_run landscapeId modelObjectId tr
                object collection outgoing incoming H1 H2 H3 H4) as Hrun.
  cbv zeta in Hrun.
  unfold Main.getModelObjectRelationships, tryCatch. rewrite Hrun.
  split; [|split; [|split]].
  - by destruct (match property env object _ _ with Ok _ => _ | Throw _ => _ end).
  - exists (URLSearchParams.toString [("filter[originId]", modelObjectId)]),
           (URLSearchParams.toString [("filter[targetId]", modelObjectId)]).
    rewrite !parseQuery_toString. repeat split; reflexivity.
  - intros modelObject incomingConnections outgoingConnections modelObjects
      Hn1 Hn2 Hn3 Hn4 Hv1 Hv4 Hv3 Hv2.
    unfold property. rewrite Hn1, Hn2, Hn3, Hn4, Hv1, Hv2, Hv3, Hv4.
    unfold Format.formatConnectionsCall. by destruct incomingConnections.
  - intros Hn1. unfold property. by rewrite Hn1.
Qed.

(** The two requests of [getTechnologyCatalog] in a run in which no call
    fails. *)
Lemma getTechnologyCatalog_run (args : Main.GetTechnologyCatalogArgs) tr
    catalog organization :
  answer env tr (catalogRequest env args) = Ok catalog →
  answer env (tr ++ [catalogRequest env args]) (organizationRequest env args)
  = Ok organization →
  ∀ k : Json env → Json env → M Main.CallToolResult,
    (result <- Icepanel.getCatalogTechnologies env
                 {| Options.filter :=
                      Some [("provider",
                             filterOfNullable filterOfOneOrMany (Main.provider args));
                            ("type",
                             filterOfNullable filterOfOneOrMany (Main.catalogType args));
                            ("restrictions", filterOfOneOrMany (Main.restrictions args));
                            ("status", FScalar (SString "approved"))] |} ;;
     organizationResult <-
       Icepanel.getOrganizationTechnologies env (ORGANIZATION_ID env)
         {| Options.filter :=
              Some [("provider",
                     filterOfNullable filterOfOneOrMany (Main.provider args));
                    ("type",
                     filterOfNullable filterOfOneOrMany (Main.catalogType args));
                    ("restrictions", filterOfOneOrMany (Main.restrictions args))] |} ;;
     k result organizationResult) tr
    = k catalog organization
        (tr ++ [catalogRequest env args; organizationRequest env args]).
Proof.
  intros Hcatalog Horganization k.
  erewrite bind_ok;
    [|unfold Icepanel.getCatalogTechnologies; rewrite apiRequest_run;
      change (Icepanel.requestOf env _ Icepanel.noInit) with (catalogRequest env args);
      rewrite Hcatalog; reflexivity].
  erewrite bind_ok;
    [|unfold Icepanel.getOrganizationTechnologies; rewrite apiRequest_run;
      change (Icepanel.requestOf env _ Icepanel.noInit)
        with (organizationRequest env args);
      rewrite Horganization, <- app_assoc; reflexivity].
  reflexivity.
Qed.

Lemma mapResult_Some (technologies : list CatalogTechnology.t) :
  mapResult Format.formatCatalogTechnologyCall (map Some technologies)
  = Ok (map Format.formatCatalogTechnology technologies).
Proof.
  induction technologies as [|t technologies IH]; [done|].
  simpl. by rewrite IH.
Qed.

Lemma querySuffix_cases (params : list (string * string)) :
  Icepanel.querySuffix params = ""
  ∨ Icepanel.querySuffix params = "?" +:+ URLSearchParams.toString params.
Proof. unfold Icepanel.querySuffix. destruct (URLSearchParams.toString params); auto. Qed.

(** X15.  [getTechnologyCatalog] asks for the catalog with the status filter
    [approved] and for the technologies of the organization without a
    status filter.  With an empty search string, when both answers hold a
    list of technologies, it renders those of the catalog followed by those
    of the organization, unfiltered and in the order received; when the
    answer of the catalog has no list, it reports the [TypeError] of
    [concat]. *)
Theorem getTechnologyCatalog_combines (args : Main.GetTechnologyCatalogArgs) tr
    catalog organization :
  Main.catalogSearch args = "" →
  answer env tr (catalogRequest env args) = Ok catalog →
  answer env (tr ++ [catalogRequest env args]) (organizationRequest env args)
  = Ok organization →
  (Main.getTechnologyCatalog env args tr).2
  = tr ++ [catalogRequest env args; organizationRequest env args]
  ∧ (∃ query,
       Request.url (catalogRequest env args)
       = Icepanel.API_BASE_URL env +:+ "/catalog/technologies?" +:+ query
       ∧ pairsNamed "filter[status]" (parseQuery query) = [("filter[status]", "approved")])
  ∧ (∃ suffix,
       Request.url (organizationRequest env args)
       = Icepanel.API_BASE_URL env +:+ "/organizations/" +:+ ORGANIZATION_ID env
         +:+ "/technologies" +:+ suffix
       ∧ (suffix = ""
          ∨ ∃ query, suffix = "?" +:+ query
                     ∧ pairsNamed "filter[status]" (parseQuery query) = []))
  ∧ (∀ technologies organizationTechnologies,
       is_null env catalog = false → is_null env organization = false →
       view_catalogTechnologies env catalog = Some technologies →
       view_catalogTechnologies env organization = Some organizationTechnologies →
       (Main.getTechnologyCatalog env args tr).1
       = Ok {| Main.content :=
                 map (λ t, {| Main.type := "text";
                              Main.text := Format.formatCatalogTechnology t |})
                     (technologies ++ organizationTechnologies) |})
  ∧ (is_null env catalog = false →
     view_catalogTechnologies env catalog = None →
     (Main.getTechnologyCatalog env args tr).1
     = Ok {| Main.content :=
               [{| Main.type := "text";
                   Main.text :=
                     "Error: Cannot read properties of undefined (reading 'concat')" |}] |}).
Proof.
  intros Hsearch Hcatalog Horganization.
  assert (Hdesc : FilterDescription
                    (catalogFilter args ++ [("status", FScalar (SString "approved"))])).
  { split; [apply (bool_decide_unpack _); by vm_compute|by repeat constructor]. }
  assert (Hstatus :
            pairsNamed "filter[status]"
              (Icepanel.technologiesParams
                 {| Options.filter :=
                      Some (catalogFilter args
                            ++ [("status", FScalar (SString "approved"))]) |})
            = [("filter[status]", "approved")]).
  { rewrite technologiesParams_flat.
    etrans;
      [apply (pairsNamed_entry (λ e, Icepanel.appendEntry [] e.1 e.2) _ "status" ""
                (FScalar (SString "approved")));
       [intros [k' v'] p; apply appendEntry_names|exact Hdesc|]
      |by apply filter_all; intros p ->%list_elem_of_singleton].
    apply elem_of_app. right. left. }
  assert (Hnone :
            pairsNamed "filter[status]"
              (Icepanel.technologiesParams {| Options.filter := Some (catalogFilter args) |})
            = []).
  { rewrite technologiesParams_flat.
    apply (others_silent (λ e, Icepanel.appendEntry [] e.1 e.2) (catalogFilter args)
             "status" "").
    - intros [k' v'] p. apply appendEntry_names.
    - reflexivity.
    - by repeat constructor.
    - unfold catalogFilter. simpl. intros H.
      repeat (apply elem_of_cons in H as [H|H]; [discriminate H|]).
      by apply elem_of_nil in H. }
  unfold Main.getTechnologyCatalog, Main.getTechnologyCatalog_try, tryCatch.
  cbv zeta. rewrite (getTechnologyCatalog_run args tr catalog organization) by done.
  split; [|split; [|split; [|split]]].
  - rewrite (surjective_pairing (bind _ _ _)).
    rewrite (bind_trace (λ _, True))
      by (intros; eexists; split; [issues idtac|reflexivity]).
    by destruct (bind _ _ _).1.
  - unfold catalogRequest, Icepanel.requestOf. cbn [Request.url].
    destruct (querySuffix_cases
                (Icepanel.technologiesParams
                   {| Options.filter :=
                        Some (catalogFilter args
                              ++ [("status", FScalar (SString "approved"))]) |}))
      as [Hq|Hq].
    + unfold Icepanel.querySuffix in Hq.
      destruct (URLSearchParams.toString _) eqn:E; [|done].
      pose proof (parseQuery_toString
                    (Icepanel.technologiesParams
                       {| Options.filter :=
                            Some (catalogFilter args
                                  ++ [("status", FScalar (SString "approved"))]) |}))
        as Hparse.
      rewrite E in Hparse. rewrite <- Hparse in Hstatus. done.
    + rewrite Hq. eexists. split; [reflexivity|].
      by rewrite parseQuery_toString.
  - unfold organizationRequest, Icepanel.requestOf. cbn [Request.url].
    eexists. split; [reflexivity|].
    destruct (querySuffix_cases
                (Icepanel.technologiesParams
                   {| Options.filter := Some (catalogFilter args) |})) as [Hq|Hq];
      [by left|right].
    eexists. split; [exact Hq|]. by rewrite parseQuery_toString.
  - intros technologies organizationTechnologies Hn1 Hn2 Hv1 Hv2.
    unfold bind, lift, property, defined, ret. rewrite Hn1, Hn2, Hv1, Hv2. simpl.
    unfold Main.fuseFilter. rewrite Hsearch. simpl.
    rewrite <- map_app, mapResult_Some. simpl. by rewrite map_map.
  - intros Hn1 Hv1.
    unfold bind, lift, property, defined. by rewrite Hn1, Hv1.
Qed.

(** X16.  [deleteDiagram] parses the body of a successful response as JSON:
    when the body does not parse (an empty body, say) the tool reports the
    parser's error, although the DELETE request was sent and answered with
    success. *)
Theorem deleteDiagram_unparsable_body landscapeId diagramId tr response e :
  network env tr (deleteRequest env landscapeId diagramId) = Responded response →
  Response.ok response = true →
  JSON_parse env (Response.bodyText response) = Throw e →
  Main.deleteDiagram env landscapeId diagramId tr
  = (Ok (Main.textResult ("Error deleting diagram: " +:+ message e)),
     tr ++ [deleteRequest env landscapeId diagramId]).
Proof.
  intros Hnet Hok Hparse.
  unfold Main.deleteDiagram, Main.deleteDiagram_try, tryCatch.
  unfold bind at 1. unfold Icepanel.deleteDiagram. rewrite apiRequest_run.
  change (Icepanel.requestOf env _ _) with (deleteRequest env landscapeId diagramId).
  unfold answer. by rewrite Hnet, Hok, Hparse.
Qed.

(** X17.  After the client's [createDiagram] has returned, the tool
    [createDiagram] fails without a further call when the response carries
    no diagram id; otherwise it fetches the created diagram once more, and
    reports an error when that fetch fails, although the diagram exists. *)
Theorem createDiagram_verification (args : Main.DiagramArgs) tr response tr1 :
  Icepanel.createDiagram env (Main.diagramLandscapeId args) (createData args) "latest" tr
  = (Ok response, tr1) →
  let diagramId := d ← DiagramResponse.diagram response; Diagram.id d in
  (truthy diagramId = false →
   Main.createDiagram env args tr
   = (Ok (Main.textResult "Error creating diagram: Failed to get diagram ID from response"),
      tr1))
  ∧ (truthy diagramId = true →
     (Main.createDiagram env args tr).2
     = tr1 ++ [diagramRequest env (Main.diagramLandscapeId args) (tpl diagramId)]
     ∧ ∀ e, answer env tr1
              (diagramRequest env (Main.diagramLandscapeId args) (tpl diagramId))
            = Throw e →
            (Main.createDiagram env args tr).1
            = Ok (Main.textResult ("Error creating diagram: " +:+ message e))).
Proof.
  intros Hcreate. cbv zeta. unfold Main.createDiagram.
  split; intros Hid.
  - unfold Main.createDiagram_try. fold (createData args).
    unfold tryCatch. unfold bind at 1. rewrite Hcreate.
    unfold bind at 1. unfold Main.diagramIdOf. by rewrite Hid.
  - assert (Hdiag : Main.diagramIdOf response tr1
                    = (Ok (tpl (d ← DiagramResponse.diagram response; Diagram.id d)), tr1)).
    { unfold Main.diagramIdOf. by rewrite Hid. }
    set (request := diagramRequest env (Main.diagramLandscapeId args)
                      (tpl (d ← DiagramResponse.diagram response; Diagram.id d))) in *.
    assert (∃ text, Main.createDiagram_try env args tr
                    = (match answer env tr1 request with
                       | Ok _ => Ok (Main.textResult text)
                       | Throw e => Throw e
                       end, tr1 ++ [request])) as [text Htry].
    { eexists. unfold Main.createDiagram_try. fold (createData args).
      erewrite bind_ok by exact Hcreate. erewrite bind_ok by exact Hdiag.
      unfold bind. rewrite getDiagram_run. fold request.
      destruct (answer env tr1 request); reflexivity. }
    unfold tryCatch. rewrite Htry.
    destruct (answer env tr1 request) as [verified|e']; (split; [done|]); intros e He;
      [discriminate He|by injection He as ->].
Qed.

End MoreTools.

Section NoCallAfterFailure.

Variable env : Env.

(** X18.  No tool issues a call after a call that failed: of the requests a
    tool invocation adds, every one but the last was answered with a
    successful, parsable response, and so was the last one when the [try]
    block of the handler completed. *)
Theorem no_call_after_failure (call : Main.ToolCall) tr :
  ∃ suffix,
    (Main.callTool env call tr).2 = tr ++ suffix
    ∧ (∀ i r, (i + 1 < length suffix)%nat → suffix !! i = Some r →
              ∃ json, answer env (tr ++ take i suffix) r = Ok json)
    ∧ (∀ result, (Main.tryBlock env call tr).1 = Ok result →
                 ∀ i r, suffix !! i = Some r →
                        ∃ json, answer env (tr ++ take i suffix) r = Ok json).
Proof.
  destruct (tryBlock_sequential env call tr) as (suffix & Htr & Hlast & Hall).
  exists suffix. split; [|split].
  - rewrite callTool_tryCatch. unfold tryCatch.
    destruct (Main.tryBlock env call tr) as [[a|e] tr']; simpl in *; done.
  - intros i r Hi. apply Hlast. lia.
  - intros result Hresult i r Hr. apply (Hall result Hresult); [|done].
    by apply lookup_lt_Some in Hr.
Qed.

End NoCallAfterFailure.

(** ** Hierarchy, referenced objects and the shape of results *)

Lemma find_Some_elem {A} (f : A → bool) (l : list A) x :
  List.find f l = Some x → x ∈ l ∧ f x = true.
Proof.
  intros H. apply find_some in H as [Hin Hf]. split; [by apply list_elem_of_In|done].
Qed.

Lemma findById_Some modelObjects id o :
  Format.findById modelObjects id = Some o → o ∈ modelObjects ∧ ModelObject.id o = Some id.
Proof.
  intros [Hin Hid]%find_Some_elem. split; [done|]. by apply bool_decide_eq_true in Hid.
Qed.

(** X19.  The objects listed under "Referenced Model Objects" all come from
    the fetched collection, and each is the origin or the target of one of
    the incoming connections; without incoming connections none is listed. *)
Theorem referencedModels_from_collection incoming outgoing modelObjects o :
  o ∈ Format.referencedModels incoming outgoing modelObjects →
  o ∈ modelObjects
  ∧ ∃ c, c ∈ incoming
         ∧ (ModelObject.id o = Some (ModelConnection.originId c)
            ∨ ModelObject.id o = Some (ModelConnection.targetId c)).
Proof.
  unfold Format.referencedModels. intros [Hin|Hin]%elem_of_app.
  - destruct incoming as [|c0 incoming]; [by apply elem_of_nil in Hin|].
    apply list_elem_of_omap in Hin as (c & Hc & Hfind).
    apply findById_Some in Hfind as [? ?]. split; [done|]. exists c. by split; [|left].
  - destruct outgoing as [|c0 outgoing]; [by apply elem_of_nil in Hin|].
    apply list_elem_of_omap in Hin as (c & Hc & Hfind).
    apply findById_Some in Hfind as [? ?]. split; [done|]. exists c. by split; [|right].
Qed.

(** What a computation returns, when it returns. *)
Lemma Returns_ret {A} (Q : A → Prop) (a : A) : Q a → Returns Q (ret a).
Proof. intros HQ tr b [= <-]. done. Qed.

Lemma Returns_unless {A} (Q : A → Prop) (c : M A) :
  (∀ tr a, (c tr).1 ≠ Ok a) → Returns Q c.
Proof. intros Hc tr a H. by destruct (Hc tr a). Qed.

Lemma Returns_bind {A B} (Q : B → Prop) (c : M A) (k : A → M B) :
  (∀ a, Returns Q (k a)) → Returns Q (bind c k).
Proof.
  intros Hk tr b. unfold bind. destruct (c tr) as [[a|e] tr']; [apply Hk|done].
Qed.

Ltac returns tac :=
  lazymatch goal with
  | |- Returns _ (bind _ _) => apply Returns_bind; intros; returns tac
  | |- Returns _ (ret _) => apply Returns_ret; tac
  | |- Returns _ (let _ := _ in _) => cbv zeta; returns tac
  | |- Returns _ (match ?x with _ => _ end) => destruct x; returns tac
  | |- Returns _ _ => by apply Returns_unless
  end.

Section Results.

Variable env : Env.

(** X20.  With hierarchical information, when the three calls of
    [getModelObject] succeed and the answers about the object and the
    collection are not [null]: an answer without [modelObject] makes the
    tool report the [TypeError] of reading [parentId]; otherwise, the
    answers holding what the interfaces declare, the parent and the children
    are resolved against the fetched collection: there is no parent when
    [parentId] is absent, empty or ["root"], a parent found has that id;
    there are no children exactly when [childIds] is empty, and otherwise
    they are the objects of the collection whose id is among [childIds]. *)
Theorem getModelObject_hierarchy landscapeId modelObjectId tr object teams collection :
  answer env tr (objectRequest env landscapeId modelObjectId) = Ok object →
  answer env (tr ++ [objectRequest env landscapeId modelObjectId]) (teamsRequest env)
  = Ok teams →
  answer env (tr ++ [objectRequest env landscapeId modelObjectId; teamsRequest env])
         (collectionRequest env landscapeId) = Ok collection →
  is_null env object = false →
  is_null env collection = false →
  (view_modelObject env object = None →
   (Main.getModelObject env landscapeId modelObjectId true tr).1
   = Ok {| Main.content :=
             [{| Main.type := "text";
                 Main.text :=
                   "Error: Cannot read properties of undefined (reading 'parentId')" |}] |})
  ∧ (∀ modelObject modelObjectList teamList childIds,
       view_modelObject env object = Some modelObject →
       view_modelObjects env collection = Some modelObjectList →
       ModelObject.childIds modelObject = Some childIds →
       is_null env teams = false →
       view_teams env teams = Some teamList →
       ∃ parentObject childObjects,
         (Main.getModelObject env landscapeId modelObjectId true tr).1
         = Ok {| Main.content :=
                   [{| Main.type := "text";
                       Main.text :=
                         Format.formatModelObjectItem env landscapeId modelObject
                           teamList parentObject childObjects |}] |}
         ∧ (ModelObject.parentId modelObject = None
            ∨ ModelObject.parentId modelObject = Some ""
            ∨ ModelObject.parentId modelObject = Some "root" → parentObject = None)
         ∧ (∀ p, parentObject = Some p →
                 p ∈ modelObjectList
                 ∧ ModelObject.id p = ModelObject.parentId modelObject)
         ∧ (childObjects = None ↔ childIds = [])
         ∧ (∀ children, childObjects = Some children →
              ∀ o, o ∈ children
                   ↔ o ∈ modelObjectList
                     ∧ ∃ id, ModelObject.id o = Some id ∧ id ∈ childIds)).
Proof.
  intros Hobject Hteams Hcollection Hn1 Hn2.
  split; [intros Hv1|intros modelObject modelObjectList teamList childIds Hv1 Hv2 Hc Hn3 Hv3];
    unfold Main.getModelObject, Main.getModelObject_try, tryCatch;
    (unfold bind at 1; rewrite getModelObject_run, Hobject);
    (unfold bind at 1; rewrite getTeams_run, Hteams);
    (unfold bind at 1, lift at 1, property at 1; rewrite Hn1, Hv1);
    unfold bind at 1; unfold bind at 1;
    rewrite getModelObjects_all_run, <- app_assoc; cbn [app]; rewrite Hcollection.
  - unfold bind, lift, property, defined. by rewrite Hn2.
  - unfold bind at 1, lift at 1, property at 1. rewrite Hn2, Hv2.
    unfold bind at 1, lift at 1, defined at 1.
    assert (Hfilter : ∀ (ids : list string) o,
              o ∈ List.filter (λ o, match ModelObject.id o with
                                    | Some id => bool_decide (id ∈ ids)
                                    | None => false
                                    end) modelObjectList
              ↔ o ∈ modelObjectList ∧ ∃ id, ModelObject.id o = Some id ∧ id ∈ ids).
    { intros ids o. rewrite list_elem_of_In, filter_In, <- list_elem_of_In. split.
      - intros [Hin Hid]. split; [done|].
        destruct (ModelObject.id o) as [id|]; [|done].
        exists id. split; [done|]. by apply bool_decide_eq_true in Hid.
      - intros [Hin (id & -> & Hid)]. split; [done|]. by apply bool_decide_eq_true. }
    destruct (ModelObject.parentId modelObject) as [parentId|] eqn:Hp.
    + destruct (truthy (Some parentId) && negb (bool_decide (parentId = "root"))) eqn:E;
        unfold bind, lift, ret, defined, property; rewrite Hc, Hn3, Hv3;
        destruct childIds as [|c cs]; unfold Format.formatModelObjectItemCall;
        destruct (ModelObject.teamIds modelObject) as [[|? ?]|];
        (eexists _, _; split; [reflexivity|]);
        (split; [|split; [|split]]); try done.
      all: try (by intros [H|[H|H]]; injection H as ->).
      all: try (by intros p [Hin Hid]%findById_Some).
      all: try (by intros children [= <-] o; apply Hfilter).
      all: intros [H|[H|H]]; [done|injection H as ->|injection H as ->];
        by vm_compute in E.
    + unfold bind, lift, ret, defined, property; rewrite Hc, Hn3, Hv3;
        destruct childIds as [|c cs]; unfold Format.formatModelObjectItemCall;
        destruct (ModelObject.teamIds modelObject) as [[|? ?]|];
        (eexists _, _; split; [reflexivity|]);
        (split; [|split; [|split]]); try done.
      all: try (by intros children [= <-] o; apply Hfilter).
Qed.

(** The blocks of a result of the [try] block of a handler. *)
Lemma tryBlock_blocks (call : Main.ToolCall) :
  Returns (λ result,
             Forall (λ b, Main.type b = "text") (Main.content result)
             ∧ match call with
               | Main.GetModelObjects _ | Main.GetTechnologyCatalog _ | Main.GetTeams _ =>
                   True
               | _ => length (Main.content result) = 1%nat
               end)
          (Main.tryBlock env call).
Proof.
  assert (Hmap : ∀ A (f : A → string) (l : list A),
            Forall (λ b, Main.type b = "text") (map (λ x, Main.textContent (f x)) l)).
  { intros A f l. apply Forall_forall. intros b (x & -> & _)%list_elem_of_fmap. done. }
  destruct call; unfold Main.tryBlock;
    unfold Main.getLandscapes_try, Main.getLandscape_try, Main.getModelObjects_try,
      Main.getModelObject_try, Main.getModelObjectRelationships_try,
      Main.getTechnologyCatalog_try, Main.getTeams_try, Main.createLandscape_try,
      Main.createModelObject_try, Main.createModelConnection_try, Main.createDomain_try,
      Main.verifyLandscape_try, Main.createTestSystem_try, Main.getDiagrams_try,
      Main.getDiagram_try, Main.createDiagram_try, Main.createDiagramWithObjects_try,
      Main.updateDiagram_try, Main.deleteDiagram_try, Main.addObjectsToDiagram_try;
    returns ltac:(simpl; split;
                  [first [by repeat constructor|apply Hmap|apply (Hmap _ (λ x, x))]|done]).
Qed.

(** X21.  Every result of a tool is made of text blocks only; and every tool
    but the three that list records ([getModelObjects], [getTechnologyCatalog],
    [getTeams]) returns exactly one block, as does every tool that reports
    an error. *)
Theorem tool_results_are_text (call : Main.ToolCall) tr :
  ∃ result,
    (Main.callTool env call tr).1 = Ok result
    ∧ Forall (λ b, Main.type b = "text") (Main.content result)
    ∧ (match call with
       | Main.GetModelObjects _ | Main.GetTechnologyCatalog _ | Main.GetTeams _ => True
       | _ => length (Main.content result) = 1%nat
       end)
    ∧ (∀ e, (Main.tryBlock env call tr).1 = Throw e →
            length (Main.content result) = 1%nat).
Proof.
  rewrite callTool_tryCatch. unfold tryCatch.
  pose proof (tryBlock_blocks call tr) as Hblocks.
  destruct (Main.tryBlock env call tr) as [[result|e] tr']; simpl in *.
  - exists result. destruct (Hblocks result eq_refl) as [H1 H2].
    repeat split; [done..|]. intros e He. discriminate He.
  - eexists. split; [reflexivity|]. simpl. split; [by repeat constructor|].
    split; [by destruct call|done].
Qed.

End Results.

(** ** The functions of the client *)

(** X22.  Every function the client exports issues at most one request, to
    the configured API with the client's headers; the method is the one the
    name of the function announces (GET for [get...], POST for [create...],
    PATCH for [update...], DELETE for [delete...]), and the request has a
    body exactly when the method is POST or PATCH. *)
Theorem client_functions_one_request (env : Env) (call : ClientCall) :
  Issues (λ r, addressed env r
               ∧ Request.method r = announcedMethod (clientName call)
               ∧ (is_Some (Request.body r)
                  ↔ Request.method r = Some "POST" ∨ Request.method r = Some "PATCH"))
         1 (clientCall env call).
Proof.
  destruct call; unfold clientCall;
    unfold Icepanel.getLandscapes, Icepanel.getLandscape, Icepanel.createLandscape,
      Icepanel.updateLandscape, Icepanel.deleteLandscape, Icepanel.getVersion,
      Icepanel.createVersion, Icepanel.getCatalogTechnologies,
      Icepanel.getOrganizationTechnologies, Icepanel.createOrganizationTechnology,
      Icepanel.getTeams, Icepanel.getModelObjects, Icepanel.getModelObject,
      Icepanel.createModelObject, Icepanel.updateModelObject, Icepanel.deleteModelObject,
      Icepanel.getModelConnections, Icepanel.getConnection,
      Icepanel.createModelConnection, Icepanel.updateModelConnection,
      Icepanel.deleteModelConnection, Icepanel.createDomain, Icepanel.updateDomain,
      Icepanel.getDiagrams, Icepanel.getDiagram, Icepanel.createDiagram,
      Icepanel.updateDiagram, Icepanel.deleteDiagram;
    (eapply Issues_mono;
     [|issues ltac:(split; [apply addressed_requestOf|];
                    split; [reflexivity|]; simpl;
                    first [by split; [intros [? [=]]|intros [[=]|[=]]]
                          |by split; [intros _; left|intros _; eexists]
                          |by split; [intros _; right|intros _; eexists]])]);
    simpl; lia.
Qed.

(** ** Instances of the further properties *)

Lemma querying_tools_only_read_witness :
  let call := Main.GetModelObject landscape1 gatewayId true in
  queries call = true ∧ Issues reading 4 (Main.callTool sample call).
Proof.
  cbv zeta. split; [reflexivity|].
  apply querying_tools_only_read. reflexivity.
Defined.

Lemma emitted_names_witness :
  ("filter[type][]", "system")
    ∈ Icepanel.technologiesParams {| Options.filter := Some sampleFilter |}
  ∧ ∃ k v rest, (k, v) ∈ sampleFilter ∧ v ≠ FUndefined
                ∧ "filter[type][]" = "filter[" +:+ k +:+ "]" +:+ rest.
Proof.
  assert (Hin : ("filter[type][]", "system")
                  ∈ Icepanel.technologiesParams {| Options.filter := Some sampleFilter |})
    by (apply list_elem_of_In; left; reflexivity).
  split; [exact Hin|].
  exact (emitted_names sampleFilter _ ("filter[type][]", "system") (or_introl eq_refl) Hin).
Defined.

Lemma unset_filter_no_query_witness :
  let f : Filter := [("name", FUndefined); ("type", FUndefined)] in
  Forall (λ e, e.2 = FUndefined) f
  ∧ (Icepanel.getCatalogTechnologies sample {| Options.filter := Some f |} []).2
    = [Icepanel.requestOf sample "/catalog/technologies" Icepanel.noInit].
Proof.
  cbv zeta.
  assert (Hf : Forall (λ e : string * FilterValue, e.2 = FUndefined)
                 [("name", FUndefined); ("type", FUndefined)])
    by (repeat apply Forall_cons_2; try apply Forall_nil_2; reflexivity).
  split; [exact Hf|].
  exact (proj1 (unset_filter_no_query sample _ landscape1 "latest" [] Hf)).
Defined.

Lemma empty_objectIds_no_request_witness :
  Main.createDiagramWithObjects sample (sampleDiagramArgs (Some [])) []
  = (Ok (Main.textResult
           ("Error creating diagram with objects: "
            +:+ "objectIds must be a non-empty array of strings")), []).
Proof.
  exact (proj1 (empty_objectIds_no_request sample (sampleDiagramArgs (Some []))
                  landscape1 diagram1 [] (or_intror eq_refl))).
Defined.

Lemma diagram_response_has_objectIds_witness :
  let data := createData (sampleDiagramArgs (Some [gatewayId])) in
  let call := Icepanel.createDiagram sample landscape1 data "latest" in
  ∃ request,
    (call []).2 = [request]
    ∧ answer sample [] request = Ok diagramAnswer
    ∧ view_diagram sample diagramAnswer = Some overview
    ∧ (call []).1
      = Ok {| DiagramResponse.diagram :=
                Some {| Diagram.id := Some diagram1; Diagram.name := Some "Overview";
                        Diagram.objectIds := Some [gatewayId; ordersId] |} |}.
Proof.
  cbv zeta. eexists. split; [reflexivity|]. split; [reflexivity|].
  split; [reflexivity|].
  destruct (proj2 (diagram_response_has_objectIds sample landscape1 diagram1
                     (createData (sampleDiagramArgs (Some [gatewayId]))) _ [] _
                     diagramAnswer (or_introl eq_refl) eq_refl eq_refl) eq_refl)
    as (response & Hresponse & _ & Hdiagram).
  rewrite Hresponse. f_equal. destruct response as [diagram]. simpl in Hdiagram.
  by rewrite (Hdiagram overview eq_refl).
Defined.

Lemma adding_present_ids_witness :
  Array_from_Set ([gatewayId; ordersId] ++ [ordersId; gatewayId; ordersId])
  = [gatewayId; ordersId].
Proof.
  refine (proj1 (adding_present_ids [gatewayId; ordersId]
                   [ordersId; gatewayId; ordersId] _ _)).
  - apply (bool_decide_unpack _). by vm_compute.
  - intros x Hx. apply list_elem_of_In. apply list_elem_of_In in Hx. simpl in *. tauto.
Defined.

Lemma getModelObjectRelationships_calls_witness :
  (Main.getModelObjectRelationships sample landscape1 gatewayId []).2
  = [objectRequest sample landscape1 gatewayId; collectionRequest sample landscape1;
     connectionsRequest sample landscape1 "originId" gatewayId;
     connectionsRequest sample landscape1 "targetId" gatewayId]
  ∧ (Main.getModelObjectRelationships sample landscape1 gatewayId []).1
    = Ok {| Main.content :=
              [{| Main.type := "text";
                  Main.text := Format.formatConnections gateway [] [places]
                                 [gateway; orders; archive] |}] |}.
Proof.
  pose proof (getModelObjectRelationships_calls sample landscape1 gatewayId []
                objectAnswer collectionAnswer outgoingAnswer incomingAnswer
                eq_refl eq_refl eq_refl eq_refl) as H.
  cbv zeta in H. destruct H as (H1 & _ & H3 & _).
  exact (conj H1 (H3 gateway [] [places] [gateway; orders; archive]
                    eq_refl eq_refl eq_refl eq_refl eq_refl eq_refl eq_refl eq_refl)).
Defined.

Lemma getTechnologyCatalog_combines_witness :
  Main.catalogSearch sampleCatalogArgs = ""
  ∧ (Main.getTechnologyCatalog sample sampleCatalogArgs []).2
    = [catalogRequest sample sampleCatalogArgs; organizationRequest sample sampleCatalogArgs]
  ∧ (Main.getTechnologyCatalog sample sampleCatalogArgs []).1
    = Ok {| Main.content := [] |}.
Proof.
  split; [reflexivity|].
  destruct (getTechnologyCatalog_combines sample sampleCatalogArgs []
              technologiesAnswer technologiesAnswer eq_refl eq_refl eq_refl)
    as (H1 & _ & _ & H4 & _).
  exact (conj H1 (H4 [] [] eq_refl eq_refl eq_refl eq_refl)).
Defined.

Lemma deleteDiagram_unparsable_body_witness :
  Main.deleteDiagram sample landscape1 diagram1 []
  = (Ok (Main.textResult "Error deleting diagram: Unexpected end of JSON input"),
     [deleteRequest sample landscape1 diagram1]).
Proof.
  exact (deleteDiagram_unparsable_body sample landscape1 diagram1 []
           {| Response.status := 204; Response.statusText := "No Content";
              Response.bodyText := "" |}
           {| message := "Unexpected end of JSON input" |} eq_refl eq_refl eq_refl).
Defined.

Lemma createDiagram_verification_witness :
  let args := sampleDiagramArgs None in
  ∃ created,
    (Main.createDiagram sample args []).2
    = created ++ [diagramRequest sample landscape1 diagram1].
Proof.
  cbv zeta. eexists.
  refine (proj1 (proj2 (createDiagram_verification sample (sampleDiagramArgs None) [] _ _
                          eq_refl) eq_refl)).
Defined.

Lemma referencedModels_from_collection_witness :
  let incoming := [sampleConnection "pays" "s1" "p1"] in
  let modelObjects := [payments; ledger; shop] in
  shop ∈ Format.referencedModels incoming [] modelObjects
  ∧ shop ∈ modelObjects
  ∧ ∃ c, c ∈ incoming
         ∧ (ModelObject.id shop = Some (ModelConnection.originId c)
            ∨ ModelObject.id shop = Some (ModelConnection.targetId c)).
Proof.
  cbv zeta.
  assert (Hin : shop ∈ Format.referencedModels [sampleConnection "pays" "s1" "p1"] []
                         [payments; ledger; shop])
    by (apply list_elem_of_In; left; reflexivity).
  split; [exact Hin|].
  exact (referencedModels_from_collection _ _ _ _ Hin).
Defined.

Lemma getModelObject_hierarchy_witness :
  (Main.getModelObject emptyObjects landscape1 gatewayId true []).1
  = Ok {| Main.content :=
            [{| Main.type := "text";
                Main.text :=
                  "Error: Cannot read properties of undefined (reading 'parentId')" |}] |}
  ∧ ∃ childObjects,
      (Main.getModelObject sample landscape1 gatewayId true []).1
      = Ok {| Main.content :=
                [{| Main.type := "text";
                    Main.text :=
                      Format.formatModelObjectItem sample landscape1 gateway [platform]
                        None childObjects |}] |}
      ∧ ∀ children, childObjects = Some children →
          ∀ o, o ∈ children
               ↔ o ∈ [gateway; orders; archive]
                 ∧ ∃ id, ModelObject.id o = Some id ∧ id ∈ [ordersId; archiveId].
Proof.
  split.
  - exact (proj1 (getModelObject_hierarchy emptyObjects landscape1 gatewayId []
                    (TObject []) (TObject []) (TObject [])
                    eq_refl eq_refl eq_refl eq_refl eq_refl) eq_refl).
  - destruct (proj2 (getModelObject_hierarchy sample landscape1 gatewayId []
                       objectAnswer teamsAnswer collectionAnswer
                       eq_refl eq_refl eq_refl eq_refl eq_refl)
                gateway [gateway; orders; archive] [platform] [ordersId; archiveId]
                eq_refl eq_refl eq_refl eq_refl eq_refl)
      as (parentObject & childObjects & Hrun & Hparent & _ & _ & Hchildren).
    exists childObjects. rewrite (Hparent (or_intror (or_intror eq_refl))) in Hrun.
    split; [exact Hrun|exact Hchildren].
Defined.
